(** * horizon-app: the room synchronisation core

    A shallow embedding of the collaborative-whiteboard backend and the
    properties its specification states about it.
    - [JS], [Builtins], [Coercion]: the JavaScript values and the built-in
      operations the code relies on ([typeof], truthiness, [isNaN], [<=],
      [===], [includes], [findIndex], [forEach], property reads);
    - [Effects]: the state-and-exception monad in which the asynchronous
      methods are sequenced, with the trace of console and socket calls;
    - [Validation]: [utils/validation.js];
    - [RoomDoc]: [models/Room.js] (schemas, document methods, pre-save hook);
    - [RoomService]: [services/roomService.js];
    - [SocketHandler]: [sockets/socketHandler.js];
    - [VersionClock]: the scene-version function the client imports;
    - [Notions], [Demo]: what the statements are phrased with, and the
      concrete data they are run on;
    - [RoomMethods], [Housekeeping], [Cache], [Api], [Client], [Scenarios]:
      the document methods the service leaves unused, the service's clean-up
      and statistics, the Redis reconnect strategy, [routes/api.js], the
      version discipline of the example client, and more example data.

    What the repository takes from elsewhere (the engine's number parser and
    printer, Joi, nanoid) is gathered in the [Platform] class and left
    abstract: every general statement holds for every platform. Mongoose's
    casts of the paths the code writes ([String], [Number]) are written out
    in [RoomDoc]. Rooms are values; the object a document method mutates
    is written back under the cache key that holds it, which is exact as
    long as no object sits under two keys (room ids are non-empty). *)

From stdpp Require Import gmap strings list fin_maps numbers pretty.
From Stdlib Require Import QArith_base Qcanon.
Local Open Scope Z_scope.
#[local] Set Warnings "-register-all".

(** ** JavaScript values *)

Module JS.

(** A JavaScript number: finite values are kept as exact rationals (every
    double is one), which is all that [isNaN] and [<= 0] look at. *)
Inductive number := NaN | PInf | NInf | Fin (q : Qc).

Inductive value :=
| VUndefined
| VNull
| VBool (b : bool)
| VNum (n : number)
| VStr (s : string)
| VArr (items : list value)
| VObj (fields : gmap string value).

(** A plain object, as decoded from a socket payload or a stored document. *)
Abbreviation obj := (gmap string value).

Definition num (z : Z) : value := VNum (Fin (Qc_of_Z z)).

Definition typeof (v : value) : string :=
  match v with
  | VUndefined => "undefined"
  | VNull | VArr _ | VObj _ => "object"
  | VBool _ => "boolean"
  | VNum _ => "number"
  | VStr _ => "string"
  end.

(** [ToBoolean]: what [if (v)], [!v] and [v || d] test. *)
Definition truthy (v : value) : bool :=
  match v with
  | VUndefined | VNull => false
  | VBool b => b
  | VNum NaN => false
  | VNum (Fin q) => negb (bool_decide (q = 0%Qc))
  | VNum _ => true
  | VStr s => negb (String.eqb s "")
  | VArr _ | VObj _ => true
  end.

(** [o.k] on a plain object: a missing key reads as [undefined]. *)
Definition get (o : obj) (k : string) : value := default VUndefined (o !! k).

Definition is_nan (n : number) : bool :=
  match n with NaN => true | _ => false end.

(** [n <= 0] on numbers. *)
Definition number_le0 (n : number) : bool :=
  match n with
  | NaN | PInf => false
  | NInf => true
  | Fin q => bool_decide (q ≤ 0)%Qc
  end.

Definition number_eq (a b : number) : bool :=
  match a, b with
  | PInf, PInf | NInf, NInf => true
  | Fin p, Fin q => bool_decide (p = q)
  | _, _ => false
  end.

(** [a === b]. Objects and arrays compare by reference; the two sides are
    always decoded from different messages or documents here, so they are
    never the same object. *)
Definition strict_eq (a b : value) : bool :=
  match a, b with
  | VUndefined, VUndefined | VNull, VNull => true
  | VBool x, VBool y => Bool.eqb x y
  | VNum x, VNum y => number_eq x y
  | VStr x, VStr y => String.eqb x y
  | _, _ => false
  end.

(** SameValueZero, the comparison of [Array.prototype.includes]: as [===]
    except that [NaN] is found. *)
Definition same_value_zero (a b : value) : bool :=
  match a, b with
  | VNum NaN, VNum NaN => true
  | _, _ => strict_eq a b
  end.

Definition includes (l : list value) (v : value) : bool :=
  existsb (fun x => same_value_zero x v) l.

End JS.
Export JS.

(** ** Messages on the wire *)

Module Wire.

(** [scene-update {elements, appState, files}]. *)
Record ScenePayload := mkScene {
  sp_elements : list obj;
  sp_appState : option obj;
  sp_files : option obj
}.

(** [incremental-update {added, updated, deleted}]; each part may be absent. *)
Record Updates := mkUpdates {
  added : option (list obj);
  updated : option (list obj);
  deleted : option (list value)
}.

(** [join-room {roomId, user}]. *)
Record JoinPayload := mkJoin {
  jp_roomId : string;
  jp_user : option obj
}.

(** Events a client sends. *)
Inductive event :=
| JoinRoom (data : JoinPayload)
| SceneUpdate (data : ScenePayload)
| IncrementalUpdate (data : Updates)
| PointerUpdate (data : obj)
| IdleStatus (data : obj)
| LeaveRoom
| Disconnect.

(** Events the server sends. *)
Inductive message :=
| SceneInit (elements : list obj) (appState : option obj) (files : obj)
            (users : list (string * value * value))
| SceneUpdateMsg (elements : list obj) (appState : option obj) (files : option obj)
| IncrementalUpdateMsg (u : Updates)
| PointerUpdateMsg (socketId : string) (pointer : obj)
| UserJoined (socketId : string) (username color : value)
| UserLeft (socketId : string)
| IdleStatusMsg (socketId : string) (idle : value)
| ErrorMsg (message : string).

End Wire.
Export Wire.

(** ** Exceptions, traces and the monad of the asynchronous methods *)

Module Effects.

Inductive exn :=
| TypeError (msg : string)
| ValidationError (msg : string)
| CastError (msg : string)
| Error (msg : string).

Definition exn_message (e : exn) : string :=
  match e with TypeError m | ValidationError m | CastError m | Error m => m end.

Inductive outcome (A : Type) :=
| Returned (a : A)
| Thrown (e : exn).
Arguments Returned {A} a.
Arguments Thrown {A} e.

(** What a handler does to the outside world, in order. [console.log] lines
    are left out; [console.warn] and [console.error] are kept. *)
Inductive effect :=
| ConsoleWarn (label detail : string)
| ConsoleError (label detail : string)
| SetTimeout (roomId : string) (ms : Z)
| SocketJoin (socketId roomId : string)
| SocketLeave (socketId roomId : string)
| Emit (socketId : string) (m : message)
| ToRoom (roomId sender : string) (m : message).

(** A computation over a mutable state [S] that may throw. A [throw] keeps
    the mutations and the trace made so far, as an exception in JavaScript
    leaves the objects it already mutated. *)
Definition M (S A : Type) : Type := S → S * list effect * outcome A.

Definition ret {S A} (a : A) : M S A := λ s, (s, [], Returned a).

Definition throw {S A} (e : exn) : M S A := λ s, (s, [], Thrown e).

Definition bind {S A B} (m : M S A) (k : A → M S B) : M S B :=
  λ s, match m s with
       | (s1, t1, Returned a) =>
           match k a s1 with (s2, t2, r) => (s2, t1 ++ t2, r) end
       | (s1, t1, Thrown e) => (s1, t1, Thrown e)
       end.

(** [try { m } catch (e) { h e }]. *)
Definition try_catch {S A} (m : M S A) (h : exn → M S A) : M S A :=
  λ s, match m s with
       | (s1, t1, Thrown e) =>
           match h e s1 with (s2, t2, r) => (s2, t1 ++ t2, r) end
       | r => r
       end.

Definition gets {S A} (f : S → A) : M S A := λ s, (s, [], Returned (f s)).
Definition modify {S} (f : S → S) : M S unit := λ s, (f s, [], Returned tt).
Definition tell {S} (e : effect) : M S unit := λ s, (s, [e], Returned tt).

(** A pure step that may throw (a property read on [null], say). *)
Definition lift {S A} (o : outcome A) : M S A := λ s, (s, [], o).

(** Run a computation on a component of the state. *)
Definition zoom {S T A} (proj : S → T) (inj : T → S → S) (m : M T A) : M S A :=
  λ s, match m (proj s) with (t, tr, r) => (inj t s, tr, r) end.

Definition obind {A B} (o : outcome A) (k : A → outcome B) : outcome B :=
  match o with Returned a => k a | Thrown e => Thrown e end.

End Effects.
Export Effects.

Declare Scope js_scope.
Delimit Scope js_scope with js.
Notation "x <- m ;; k" := (bind m (λ x, k))
  (at level 100, m at next level, right associativity) : js_scope.
Notation "m ;; k" := (bind m (λ _, k))
  (at level 100, right associativity) : js_scope.

(** ** Built-ins the code calls *)

Module Builtins.

(** [v.k] for a key that no built-in prototype defines: reading it on
    [null] or [undefined] throws, on any other non-object it is [undefined]. *)
Definition prop (v : value) (k : string) : outcome value :=
  match v with
  | VObj o => Returned (get o k)
  | VUndefined =>
      Thrown (TypeError ("Cannot read properties of undefined (reading '" +:+ k +:+ "')"))
  | VNull =>
      Thrown (TypeError ("Cannot read properties of null (reading '" +:+ k +:+ "')"))
  | _ => Returned VUndefined
  end.

(** [arr.findIndex(p)], [-1] when nothing matches. *)
Fixpoint findIndex_from {A} (p : A → bool) (l : list A) (i : Z) : Z :=
  match l with
  | [] => -1
  | x :: rest => if p x then i else findIndex_from p rest (i + 1)
  end.
Definition findIndex {A} (p : A → bool) (l : list A) : Z := findIndex_from p l 0.

(** [arr.forEach(f)]. *)
Fixpoint forEach {S A} (l : list A) (f : A → M S unit) : M S unit :=
  match l with
  | [] => ret tt
  | x :: rest => (f x ;; forEach rest f)%js
  end.

End Builtins.
Export Builtins.

(** ** What the repository imports *)

(** The outcome of [schema.validate(data, options)]: Joi's [{error, value}]. *)
Record JoiResult (A : Type) := mkJoi {
  joi_error : option string;
  joi_value : A
}.
Arguments mkJoi {A} _ _.
Arguments joi_error {A} _.
Arguments joi_value {A} _.

Definition Schema (A : Type) : Type := A → JoiResult A.

Class Platform := {
  (** ECMAScript's StringToNumber and Number::toString. *)
  StringToNumber : string → number;
  NumberToString : number → string;
  (** The n-th identifier [nanoid(10)] hands out. *)
  nanoid : nat → string;
  (** The schemas of [utils/validation.js], run by Joi with
      [{abortEarly: false, stripUnknown: false, convert: true}];
      [roomIdSchema] is given the [roomId] field of the object it wraps. *)
  roomIdSchema : Schema string;
  userJoinSchema : Schema obj;
  sceneUpdateSchema : Schema ScenePayload;
  incrementalUpdateSchema : Schema Updates;
  pointerSchema : Schema obj
}.

(** ** Coercions to number *)

Module Coercion.
Section WithPlatform.
Context `{Platform}.

(** [String(v)] for the values that reach a numeric test. An array prints
    its items joined by commas, with [null] and [undefined] printed empty. *)
Fixpoint ToString (v : value) : string :=
  match v with
  | VUndefined => "undefined"
  | VNull => "null"
  | VBool true => "true"
  | VBool false => "false"
  | VNum n => NumberToString n
  | VStr s => s
  | VObj _ => "[object Object]"
  | VArr items =>
      (fix join (l : list value) : string :=
         match l with
         | [] => ""
         | x :: rest =>
             let sx := match x with
                       | VUndefined | VNull => ""
                       | _ => ToString x
                       end in
             match rest with
             | [] => sx
             | _ => sx +:+ "," +:+ join rest
             end
         end) items
  end.

Definition ToNumber (v : value) : number :=
  match v with
  | VUndefined => NaN
  | VNull => Fin 0%Qc
  | VBool true => Fin 1%Qc
  | VBool false => Fin 0%Qc
  | VNum n => n
  | VStr s => StringToNumber s
  | VArr _ | VObj _ => StringToNumber (ToString v)
  end.

(** The global [isNaN(v)]. *)
Definition isNaN (v : value) : bool := is_nan (ToNumber v).

(** [v <= 0]. *)
Definition le0 (v : value) : bool := number_le0 (ToNumber v).

End WithPlatform.
End Coercion.
Export Coercion.

(** ** utils/validation.js *)

Module Validation.
Section WithPlatform.
Context `{Platform}.

(** [validate(schema, data)]: on a schema error, warn and hand back the
    data as received; otherwise hand back Joi's converted value. *)
Definition validate {S A} (schema : Schema A) (data : A) : M S A :=
  match joi_error (schema data) with
  | Some msg =>
      (tell (ConsoleWarn "Validation warning (soft):" msg) ;;
       ret data)%js
  | None => ret (joi_value (schema data))
  end.

End WithPlatform.
End Validation.
Export Validation.

(** ** models/Room.js *)

Module RoomDoc.

(** An entry of [activeUsers] ([userSchema]); [lastActive] is a wall-clock
    stamp and is left out. *)
Record User := mkUser {
  socketId : string;
  username : value;
  color : value;
  pointer : obj;
  selectedElementIds : list string
}.

(** A room document ([roomSchema]); the [lastModified] and [createdAt]
    stamps are left out. [version] is the integer the [Number] path holds:
    the code creates it as 1 and only ever adds 1 to it ([plus_one]). *)
Record Room := mkRoom {
  roomId : string;
  elements : list obj;
  appState : option obj;
  files : obj;
  activeUsers : list User;
  version : Z
}.

Definition set_elements (f : list obj → list obj) (r : Room) : Room :=
  mkRoom (roomId r) (f (elements r)) (appState r) (files r) (activeUsers r) (version r).
Definition set_appState (f : option obj → option obj) (r : Room) : Room :=
  mkRoom (roomId r) (elements r) (f (appState r)) (files r) (activeUsers r) (version r).
Definition set_files (f : obj → obj) (r : Room) : Room :=
  mkRoom (roomId r) (elements r) (appState r) (f (files r)) (activeUsers r) (version r).
Definition set_activeUsers (f : list User → list User) (r : Room) : Room :=
  mkRoom (roomId r) (elements r) (appState r) (files r) (f (activeUsers r)) (version r).
Definition set_version (f : Z → Z) (r : Room) : Room :=
  mkRoom (roomId r) (elements r) (appState r) (files r) (activeUsers r) (f (version r)).
Definition set_pointer (p : obj) (u : User) : User :=
  mkUser (socketId u) (username u) (color u) p (selectedElementIds u).

(** [version += 1] on a JavaScript number that holds an integer. The sum is
    exact while it stays within [2^53] in magnitude. Beyond, it is rounded
    to the nearest double, ties to the even mantissa: where doubles are 2
    apart ([2^53 <= |v| < 2^54]) the sum lies midway between [v] and
    [v + 2] and the one with the even mantissa is taken; where they are
    further apart the result is [v] again. So a version of [2^53] stays
    [2^53]. *)
Definition plus_one (v : Z) : Z :=
  if (- 2 ^ 53 <=? v) && (v <? 2 ^ 53) then v + 1
  else if (Z.abs v <? 2 ^ 54) && Z.odd (Z.abs v / 2) then v + 2
  else v.

(** A document method runs on [this] and on the collection it saves to. *)
Record Doc := mkDoc {
  this : Room;
  collection : gmap string Room
}.

Definition on_this (f : Room → Room) : M Doc unit :=
  modify (λ d, mkDoc (f (this d)) (collection d)).

Section WithPlatform.
Context `{Platform}.

(** *** Schema casting and validation *)

(** Mongoose's cast of a value set on a [String] path ([castString]):
    [null] and [undefined] pass as they are, a string is kept, a number or
    a boolean becomes its [toString()], an object that carries a non-empty
    string [_id] becomes that string; an array and any other object cannot
    be cast (their [toString] is the default one, or no function at all). *)
Definition castString (v : value) : option value :=
  match v with
  | VUndefined | VNull | VStr _ => Some v
  | VNum n => Some (VStr (NumberToString n))
  | VBool b => Some (VStr (if b then "true" else "false"))
  | VObj o =>
      match get o "_id" with
      | VStr s => if String.eqb s "" then None else Some (VStr s)
      | _ => None
      end
  | VArr _ => None
  end.

(** Mongoose's cast of a value set on a [Number] path ([castNumber]):
    [null] and [undefined] pass, the empty string becomes [null], a string
    or a boolean goes through [Number(...)], and whatever is [NaN] then, an
    array or an object cannot be cast. *)
Definition castNumber (v : value) : option value :=
  match v with
  | VUndefined | VNull => Some v
  | VStr s =>
      if String.eqb s "" then Some VNull
      else match StringToNumber s with
           | NaN => None
           | n => Some (VNum n)
           end
  | VBool b => Some (VNum (Fin (if b then 1%Qc else 0%Qc)))
  | VNum n => if is_nan n then None else Some (VNum n)
  | VArr _ | VObj _ => None
  end.

(** The cast of an object written to the nested path [pointer] of a
    presence entry, whose schema is [{x: Number, y: Number}]: the fields the
    schema does not declare are dropped (strict mode), [x] and [y] are cast
    where they are given, and a field that cannot be cast fails the whole
    write with a [CastError] (the message is shortened). *)
Definition cast_pointer (p : obj) : outcome obj :=
  foldr (λ k acc,
           obind acc (λ o,
             match p !! k with
             | None => Returned o
             | Some v =>
                 match castNumber v with
                 | Some v' => Returned (<[k := v']> o)
                 | None => Thrown (CastError "Cast to Number failed")
                 end
             end))
        (Returned ∅) ["x"; "y"].

(** A path whose cast failed. The document records the cast error and
    reports it at every validation; the model keeps the value that could
    not be cast in the path to stand for that record. *)
Definition uncast (v : value) : bool :=
  match v with
  | VArr _ | VObj _ => true
  | _ => false
  end.

(** The nested path [pointer] of an entry after the document sets it to
    [p]: the cast of [p]. When a field of [p] cannot be cast the document
    records the cast error instead, for which the model keeps [p] itself in
    the path. *)
Definition pointer_set (p : obj) : obj :=
  match cast_pointer p with
  | Returned p' => p'
  | Thrown _ => p
  end.

Definition pointer_uncast (p : obj) : bool :=
  match cast_pointer p with
  | Returned _ => false
  | Thrown _ => true
  end.

(** Pushing a plain object on [activeUsers] casts it to [userSchema]:
    [username] and [color] go through the [String] cast, and [username] has
    [default: 'Anonymous'], which stays when the value given is [undefined]
    (a [null] is kept). A [color] that cannot be cast leaves the path
    unset. *)
Definition userSchema_cast (sid : string) (name colour : value) : User :=
  mkUser sid
         (match castString name with
          | Some VUndefined => VStr "Anonymous"
          | Some v => v
          | None => name
          end)
         (default VUndefined (castString colour))
         (<["x" := num 0]> (<["y" := num 0]> ∅))
         [].

(** [required: true] on a [String] path: a string that is not empty. *)
Definition required_string (v : value) : bool :=
  match v with
  | VStr s => negb (String.eqb s "")
  | _ => false
  end.

(** [userSchema]: [socketId] and [color] are required, and no path may
    carry a cast error. *)
Definition userSchema_valid (u : User) : bool :=
  required_string (VStr (socketId u)) && required_string (color u) &&
  negb (uncast (username u)) && negb (pointer_uncast (pointer u)).

(** [roomSchema]: [roomId] is required, and every [activeUsers] entry
    must validate. *)
Definition roomSchema_valid (r : Room) : bool :=
  required_string (VStr (roomId r)) && forallb userSchema_valid (activeUsers r).

(** *** Pre-save hook *)

Definition sanitize_zoom (a : obj) : obj :=
  let zoom := get a "zoom" in
  let zoomVal :=
    if truthy zoom then
      let current :=
        if String.eqb (typeof zoom) "object"
        then match zoom with VObj z => get z "value" | _ => VUndefined end
        else zoom in
      if isNaN current || le0 current then num 1 else current
    else num 1 in
  <["zoom" := VObj {["value" := zoomVal]}]> a.

(** [if (isNaN(o.k)) o.k = 0]. *)
Definition zero_if_NaN (k : string) (o : obj) : obj :=
  if isNaN (get o k) then <[k := num 0]> o else o.

Definition sanitize_element (el : obj) : obj :=
  zero_if_NaN "height" (zero_if_NaN "width" (zero_if_NaN "y" (zero_if_NaN "x" el))).

Definition pre_save (r : Room) : Room :=
  let r :=
    match appState r with
    | Some a =>
        set_appState
          (λ _, Some (zero_if_NaN "scrollY" (zero_if_NaN "scrollX" (sanitize_zoom a)))) r
    | None => r
    end in
  set_elements (map sanitize_element) r.

(** [this.save()]: validate against the schema; when that passes, run the
    pre-save hook on the document and write the document to the collection
    under its id. Validation comes first, as Mongoose registers it ahead of
    the schema's own hooks; a failed validation leaves [this] as the method
    mutated it and the collection untouched (the error message is
    shortened to its first clause). *)
Definition save : M Doc unit :=
  (r <- gets this ;;
   if roomSchema_valid r then
     modify (λ d, let r' := pre_save (this d) in
                  mkDoc r' (<[roomId r' := r']> (collection d)))
   else throw (ValidationError "Room validation failed"))%js.

(** *** Methods *)

Definition addUser (sid : string) (name colour : value) : M Doc unit :=
  (existingUser <- gets (λ d, find (λ u, String.eqb (socketId u) sid)
                                     (activeUsers (this d))) ;;
   match existingUser with
   | None =>
       on_this (set_activeUsers (λ us, us ++ [userSchema_cast sid name colour]))
   | Some _ => ret tt
   end ;;
   save)%js.

Definition removeUser (sid : string) : M Doc unit :=
  (on_this (set_activeUsers (List.filter (λ u, negb (String.eqb (socketId u) sid)))) ;;
   save)%js.

(** [this.elements[index].toObject()]. [elements] is declared
    [[Mixed]]: its items are plain objects, as received and as stored, and
    a plain object has no [toObject] method (a field of that name, which a
    payload can only fill with something that is no function, does not make
    one). The call throws. *)
Definition call_toObject (el : obj) : outcome obj :=
  Thrown (TypeError "this.elements[index].toObject is not a function").

(** The body of the [updated.forEach] callback. *)
Definition apply_update (updatedEl : obj) : M Doc unit :=
  (index <- gets (λ d, findIndex (λ el, strict_eq (get el "id") (get updatedEl "id"))
                                 (elements (this d))) ;;
   if bool_decide (index ≠ -1) then
     (current <- gets (λ d, elements (this d) !! Z.to_nat index) ;;
      plain <- lift (match current with
                     | Some el => call_toObject el
                     | None => Thrown (TypeError "Cannot read properties of undefined (reading 'toObject')")
                     end) ;;
      on_this (set_elements (λ els, <[Z.to_nat index := updatedEl ∪ plain]> els)))
   else ret tt)%js.

Definition incrementalUpdate (updates : Updates) : M Doc unit :=
  (match deleted updates with
   | Some ((_ :: _) as del) =>
       on_this (set_elements
                  (List.filter (λ el, negb (includes del (get el "id")))))
   | _ => ret tt
   end ;;
   match updated updates with
   | Some ((_ :: _) as upd) => forEach upd apply_update
   | _ => ret tt
   end ;;
   match added updates with
   | Some ((_ :: _) as add) => on_this (set_elements (λ els, els ++ add))
   | _ => ret tt
   end ;;
   on_this (set_version plus_one) ;;
   save)%js.

End WithPlatform.
End RoomDoc.
Export RoomDoc.

(** ** services/roomService.js *)

Module RoomService.

(** The service: the in-process cache [activeRooms], the durable
    collection behind the [Room] model, and how many identifiers [nanoid]
    has handed out. The optional Redis layer is taken in its disabled
    configuration, in which [cacheManager] reads miss and writes do nothing. *)
Record Service := mkService {
  activeRooms : gmap string Room;
  db : gmap string Room;
  issued : nat
}.

Definition cache_set (key : string) (r : Room) : M Service unit :=
  modify (λ s, mkService (<[key := r]> (activeRooms s)) (db s) (issued s)).

(** Run a document method on a room that is not (yet) in the cache. *)
Definition on_new_doc (r : Room) (m : M Doc unit) : M Service Room :=
  λ s, match m (mkDoc r (db s)) with
       | (d, t, Returned _) =>
           (mkService (activeRooms s) (collection d) (issued s), t, Returned (this d))
       | (d, t, Thrown e) =>
           (mkService (activeRooms s) (collection d) (issued s), t, Thrown e)
       end.

(** Run a document method on the room object the cache holds under [key]:
    what the method did to the object stays in the cache even if it throws. *)
Definition on_cached_doc (key : string) (r : Room) (m : M Doc unit) : M Service Room :=
  λ s, match m (mkDoc r (db s)) with
       | (d, t, Returned _) =>
           (mkService (<[key := this d]> (activeRooms s)) (collection d) (issued s),
            t, Returned (this d))
       | (d, t, Thrown e) =>
           (mkService (<[key := this d]> (activeRooms s)) (collection d) (issued s),
            t, Thrown e)
       end.

(** [try { m } catch (error) { console.error(label, error); throw error; }] *)
Definition logged {S A} (label : string) (m : M S A) : M S A :=
  try_catch m (λ e, tell (ConsoleError label (exn_message e)) ;; throw e)%js.

(** Set the pointer of the first entry whose [socketId] matches. *)
Fixpoint set_first_pointer (sid : string) (p : obj) (us : list User) : list User :=
  match us with
  | [] => []
  | u :: rest =>
      if String.eqb (socketId u) sid then set_pointer p u :: rest
      else u :: set_first_pointer sid p rest
  end.

Section WithPlatform.
Context `{Platform}.

Definition fresh_id : M Service string :=
  λ s, (mkService (activeRooms s) (db s) (S (issued s)), [], Returned (nanoid (issued s))).

Definition initial_appState : obj :=
  <["viewBackgroundColor" := VStr "#ffffff"]>
    (<["scrollX" := num 0]>
       (<["scrollY" := num 0]>
          (<["zoom" := VObj {["value" := num 1]}]> ∅))).

Definition createRoom (roomId : option string) : M Service Room :=
  logged "rrror creating room:"
    (id <- match roomId with
           | Some r => if String.eqb r "" then fresh_id else ret r
           | None => fresh_id
           end ;;
     existing <- gets (λ s, db s !! id) ;;
     match existing with
     | Some r => ret r
     | None =>
         room <- on_new_doc (mkRoom id [] (Some initial_appState) ∅ [] 1) save ;;
         cache_set id room ;;
         ret room
     end)%js.

Definition getRoom (roomId : string) (createIfNotExists : bool) : M Service (option Room) :=
  logged "error getting room"
    (cached <- gets (λ s, activeRooms s !! roomId) ;;
     match cached with
     | Some r => ret (Some r)
     | None =>
         found <- gets (λ s, db s !! roomId) ;;
         room <- match found with
                 | None =>
                     if createIfNotExists
                     then (r <- createRoom (Some roomId) ;; ret (Some r))
                     else ret None
                 | Some r => ret (Some r)
                 end ;;
         match room with
         | Some r => cache_set roomId r
         | None => ret tt
         end ;;
         ret room
     end)%js.

Definition updateRoomElements (roomId : string) (els : list obj)
    (appState : option obj) (files : option obj) : M Service Room :=
  logged "Error updating room elements:"
    (room <- getRoom roomId true ;;
     match room with
     | None => throw (Error "Room not found")
     | Some r =>
         r' <- on_cached_doc roomId r
                 (on_this (set_elements (λ _, els)) ;;
                  match appState with
                  | Some a => on_this (set_appState (λ current, Some (a ∪ default ∅ current)))
                  | None => ret tt
                  end ;;
                  match files with
                  | Some f => on_this (set_files (λ _, f))
                  | None => ret tt
                  end ;;
                  on_this (set_version plus_one) ;;
                  save) ;;
         cache_set roomId r' ;;
         ret r'
     end)%js.

Definition incrementalUpdate (roomId : string) (updates : Updates) : M Service Room :=
  logged "Error in incremental update:"
    (room <- getRoom roomId true ;;
     match room with
     | None => throw (Error "Room not found")
     | Some r =>
         r' <- on_cached_doc roomId r (RoomDoc.incrementalUpdate updates) ;;
         cache_set roomId r' ;;
         ret r'
     end)%js.

Definition addUser (roomId sid : string) (name colour : value) : M Service Room :=
  logged "Error adding user:"
    (room <- getRoom roomId true ;;
     match room with
     | None => throw (Error "Room not found")
     | Some r =>
         r' <- on_cached_doc roomId r (RoomDoc.addUser sid name colour) ;;
         cache_set roomId r' ;;
         ret r'
     end)%js.

Definition removeUser (roomId sid : string) : M Service (option Room) :=
  logged "Error removing user:"
    (room <- getRoom roomId false ;;
     match room with
     | None => ret None
     | Some r =>
         r' <- on_cached_doc roomId r (RoomDoc.removeUser sid) ;;
         cache_set roomId r' ;;
         (if (length (activeUsers r') =? 0)%nat
          then tell (SetTimeout roomId 60000)
          else ret tt) ;;
         ret (Some r')
     end)%js.

(** [Room.updateOne] with the positional [$], then the same write on the
    cached object; no document is loaded or saved. Mongoose casts the
    update before it runs the query, so a pointer that cannot be cast
    rejects the call whether or not the room or the entry exists, and the
    cached object is not reached; the assignment on the cached entry casts
    the same way. *)
Definition updateUserPointer (roomId sid : string) (p : obj) : M Service (option bool) :=
  try_catch
    (p' <- lift (cast_pointer p) ;;
     modify (λ s, mkService (activeRooms s)
                            (alter (set_activeUsers (set_first_pointer sid p')) roomId (db s))
                            (issued s)) ;;
     modify (λ s, mkService (alter (set_activeUsers (set_first_pointer sid p')) roomId
                                   (activeRooms s))
                            (db s) (issued s)) ;;
     ret (Some true))%js
    (λ e, tell (ConsoleError "Error updating user pointer:" (exn_message e)) ;;
          ret None)%js.

End WithPlatform.
End RoomService.

(** ** sockets/socketHandler.js *)

Module SocketHandler.
Import RoomService.

Record Handler := mkHandler {
  socketRoomMap : gmap string string;
  roomService : Service
}.

(** A call into the [roomService] singleton. *)
Definition svc {A} (m : M Service A) : M Handler A :=
  zoom roomService (λ t h, mkHandler (socketRoomMap h) t) m.

Definition map_set (sid roomId : string) : M Handler unit :=
  modify (λ h, mkHandler (<[sid := roomId]> (socketRoomMap h)) (roomService h)).

Definition map_delete (sid : string) : M Handler unit :=
  modify (λ h, mkHandler (delete sid (socketRoomMap h)) (roomService h)).

(** [this.socketRoomMap.get(socket.id)] as tested by [if (!roomId)]: a
    missing entry and the empty string are both falsy. *)
Definition current_room (sid : string) (h : Handler) : option string :=
  match socketRoomMap h !! sid with
  | Some r => if String.eqb r "" then None else Some r
  | None => None
  end.

Section WithPlatform.
Context `{Platform}.

(** The zoom and scroll clean-up of the [scene-update] handler. *)
Definition sanitizeAppState (a : obj) : outcome obj :=
  let rawZoom := get a "zoom" in
  obind (if String.eqb (typeof rawZoom) "object" then prop rawZoom "value"
         else Returned rawZoom)
    (λ zoomValue,
       let safeZoom := if isNaN zoomValue || le0 zoomValue then num 1 else zoomValue in
       Returned (zero_if_NaN "scrollY"
                   (zero_if_NaN "scrollX"
                      (<["zoom" := VObj {["value" := safeZoom]}]> a)))).

Definition handleLeaveRoom (sid : string) : M Handler unit :=
  (roomId <- gets (current_room sid) ;;
   match roomId with
   | None => ret tt
   | Some room =>
       try_catch
         (svc (removeUser room sid) ;;
          tell (SocketLeave sid room) ;;
          map_delete sid ;;
          tell (ToRoom room sid (UserLeft sid)))
         (λ e, tell (ConsoleError "Error leaving room:" (exn_message e)))
   end)%js.

Definition handleDisconnect (sid : string) : M Handler unit :=
  handleLeaveRoom sid.

Definition on_join_room (sid : string) (data : JoinPayload) : M Handler unit :=
  try_catch
    (roomId <- validate roomIdSchema (jp_roomId data) ;;
     userData <- validate userJoinSchema (default ∅ (jp_user data)) ;;
     handleLeaveRoom sid ;;
     tell (SocketJoin sid roomId) ;;
     map_set sid roomId ;;
     room <- svc (addUser roomId sid (get userData "username") (get userData "color")) ;;
     tell (Emit sid (SceneInit (elements room) (appState room) (files room)
                       (map (λ u, (socketId u, username u, color u))
                            (activeUsers room)))) ;;
     tell (ToRoom roomId sid
             (UserJoined sid (get userData "username") (get userData "color"))))%js
    (λ e, tell (ConsoleError "Error joining room:" (exn_message e)) ;;
          tell (Emit sid (ErrorMsg (exn_message e))))%js.

(** [scene-update]. The store write is started without being awaited; it is
    sequenced here right after the broadcast, and its rejection goes to the
    [.catch] logger only. *)
Definition on_scene_update (sid : string) (data : ScenePayload) : M Handler unit :=
  try_catch
    (roomId <- gets (current_room sid) ;;
     match roomId with
     | None => tell (Emit sid (ErrorMsg "Not in a room"))
     | Some room =>
         validated <- validate sceneUpdateSchema data ;;
         appState' <- match sp_appState validated with
                      | Some a => (a' <- lift (sanitizeAppState a) ;; ret (Some a'))
                      | None => ret None
                      end ;;
         tell (ToRoom room sid
                 (SceneUpdateMsg (sp_elements validated) appState' (sp_files validated))) ;;
         try_catch
           (svc (updateRoomElements room (sp_elements validated) appState'
                   (sp_files validated)) ;;
            ret tt)
           (λ err, tell (ConsoleError "db save error:" (exn_message err)))
     end)%js
    (λ e, tell (ConsoleError "scene-update error:" (exn_message e)) ;;
          tell (Emit sid (ErrorMsg (exn_message e))))%js.

Definition on_incremental_update (sid : string) (data : Updates) : M Handler unit :=
  try_catch
    (roomId <- gets (current_room sid) ;;
     match roomId with
     | None => tell (Emit sid (ErrorMsg "Not in a room"))
     | Some room =>
         validated <- validate incrementalUpdateSchema data ;;
         svc (incrementalUpdate room validated) ;;
         tell (ToRoom room sid (IncrementalUpdateMsg validated))
     end)%js
    (λ e, tell (ConsoleError "Error in incremental update:" (exn_message e)) ;;
          tell (Emit sid (ErrorMsg (exn_message e))))%js.

Definition on_pointer_update (sid : string) (data : obj) : M Handler unit :=
  try_catch
    (roomId <- gets (current_room sid) ;;
     match roomId with
     | None => ret tt
     | Some room =>
         validated <- validate pointerSchema data ;;
         svc (updateUserPointer room sid validated) ;;
         tell (ToRoom room sid (PointerUpdateMsg sid validated))
     end)%js
    (λ _, ret tt).

Definition on_idle_status (sid : string) (data : obj) : M Handler unit :=
  try_catch
    (roomId <- gets (current_room sid) ;;
     match roomId with
     | None => ret tt
     | Some room => tell (ToRoom room sid (IdleStatusMsg sid (get data "idle")))
     end)%js
    (λ e, tell (ConsoleError "Error updating idle status:" (exn_message e))).

(** The listeners [handleConnection] registers on a socket. *)
Definition handle (sid : string) (ev : event) : M Handler unit :=
  match ev with
  | JoinRoom data => on_join_room sid data
  | SceneUpdate data => on_scene_update sid data
  | IncrementalUpdate data => on_incremental_update sid data
  | PointerUpdate data => on_pointer_update sid data
  | IdleStatus data => on_idle_status sid data
  | LeaveRoom => handleLeaveRoom sid
  | Disconnect => handleDisconnect sid
  end.

End WithPlatform.
End SocketHandler.

(** ** The scene version the client computes *)

Module VersionClock.

(** Spec-level view of an element: identity, revision pair, tombstone. *)
Record SceneElement := mkSceneElement {
  el_id : string;
  el_version : Z;
  el_versionNonce : Z;
  el_isDeleted : bool
}.

(** Modelled from the spec: [getSceneVersion] is imported by the client from
    the [@excalidraw/excalidraw] package and its body is not in the
    repository. Section 4.1 describes [computeVersion(elements)] as a
    combination "sum or hash" of each non-deleted element's revision marker;
    the sum of the [version] fields of the non-deleted elements is taken. *)
Definition computeVersion (elements : list SceneElement) : Z :=
  foldr (λ el acc, if el_isDeleted el then acc else el_version el + acc) 0 elements.

End VersionClock.
Export VersionClock.

(** ** A platform to run examples on *)

Module Reference.

Definition is_digit (c : Ascii.ascii) : bool :=
  (48 <=? Ascii.nat_of_ascii c)%nat && (Ascii.nat_of_ascii c <=? 57)%nat.

Fixpoint digits_value (s : string) (acc : Z) : option Z :=
  match s with
  | EmptyString => Some acc
  | String c rest =>
      if is_digit c
      then digits_value rest (10 * acc + (Z.of_nat (Ascii.nat_of_ascii c) - 48))
      else None
  end.

Definition is_Some_b {A} (o : option A) : bool :=
  match o with Some _ => true | None => false end.

Definition has_string (o : obj) (k : string) : bool :=
  match o !! k with
  | Some (VStr s) => negb (String.eqb s "")
  | _ => false
  end.

Definition has_number (o : obj) (k : string) : bool :=
  match o !! k with
  | Some (VNum (Fin _)) => true
  | _ => false
  end.

(** [elementSchema]'s required fields. *)
Definition element_ok (el : obj) : bool := has_string el "id" && has_string el "type".

Definition elements_ok (els : option (list obj)) : bool :=
  match els with
  | Some l => forallb element_ok l
  | None => true
  end.

Definition ids_ok (ids : option (list value)) : bool :=
  match ids with
  | Some l => forallb (λ v, match v with VStr s => negb (String.eqb s "") | _ => false end) l
  | None => true
  end.

(** The platform of the examples. Numbers are read from and printed to
    plain decimal digit strings only. The schemas check what
    [validation.js] requires (a room id of 1 to 100 characters, string user
    fields, [id] and [type] of every element, one of [added], [updated] and
    [deleted], string ids to delete, numbers [x] and [y] of a pointer) and
    convert nothing: the examples use payloads whose optional fields are
    valid, spell out every defaulted field and hold no numeric strings, on
    which Joi does exactly this. *)
Definition platform : Platform := {|
  StringToNumber s :=
    match digits_value s 0 with
    | Some z => Fin (Qc_of_Z z)
    | None => NaN
    end;
  NumberToString n :=
    match n with
    | NaN => "NaN"
    | PInf => "Infinity"
    | NInf => "-Infinity"
    | Fin q => pretty (Qnum (Qcanon.this q))
    end;
  nanoid n := "room-" +:+ pretty n;
  roomIdSchema r :=
    mkJoi (if (1 <=? String.length r)%nat && (String.length r <=? 100)%nat
           then None else Some "roomId length must be between 1 and 100") r;
  userJoinSchema u :=
    mkJoi (if forallb (λ k, match get u k with
                            | VUndefined | VNull | VStr _ => true
                            | _ => false
                            end) ["username"; "color"]
           then None else Some "must be a string") u;
  sceneUpdateSchema p :=
    mkJoi (if forallb element_ok (sp_elements p)
           then None else Some "id and type are required") p;
  incrementalUpdateSchema u :=
    mkJoi (if negb (is_Some_b (added u) || is_Some_b (updated u) || is_Some_b (deleted u))
           then Some "must contain at least one of [added, updated, deleted]"
           else if elements_ok (added u) && elements_ok (updated u) && ids_ok (deleted u)
                then None else Some "id and type are required") u;
  pointerSchema p :=
    mkJoi (if has_number p "x" && has_number p "y"
           then None else Some "x and y must be numbers") p
|}.

End Reference.

(** * Notions used in the statements *)

Module Notions.
Import RoomService SocketHandler.

(** Merging one [updated] entry: the first element with the entry's id
    takes the entry's fields over its own; no element with that id, no change. *)
Fixpoint merge_into (upd : obj) (els : list obj) : list obj :=
  match els with
  | [] => []
  | el :: rest =>
      if strict_eq (get el "id") (get upd "id")
      then (upd ∪ el) :: rest
      else el :: merge_into upd rest
  end.

(** The element list after a batch: deletions, then the field merges in
    order, then the additions at the end. *)
Definition batch_elements (u : Updates) (els : list obj) : list obj :=
  foldl (λ acc upd, merge_into upd acc)
        (List.filter (λ el, negb (includes (default [] (deleted u)) (get el "id"))) els)
        (default [] (updated u))
  ++ default [] (added u).

(** The elements a batch does not delete. *)
Definition kept (u : Updates) (els : list obj) : list obj :=
  List.filter (λ el, negb (includes (default [] (deleted u)) (get el "id"))) els.

(** Does an [updated] entry of the batch carry the id of an element the
    batch does not delete? *)
Definition update_hits (u : Updates) (els : list obj) : bool :=
  existsb (λ upd, existsb (λ el, strict_eq (get el "id") (get upd "id")) (kept u els))
          (default [] (updated u)).

(** How often a connection occurs in a presence list. *)
Definition presence_count (sid : string) (us : list User) : nat :=
  length (List.filter (λ u, String.eqb (socketId u) sid) us).

(** What [validate] returns and what it logs. *)
Definition validated {A} (schema : Schema A) (data : A) : A :=
  match joi_error (schema data) with
  | Some _ => data
  | None => joi_value (schema data)
  end.

Definition validation_log {A} (schema : Schema A) (data : A) : list effect :=
  match joi_error (schema data) with
  | Some msg => [ConsoleWarn "Validation warning (soft):" msg]
  | None => []
  end.

(** A zoom given as a bare number or as a [{value}] wrapper, and the value
    extracted from it. *)
Definition zoom_value (zoom : value) : option value :=
  match zoom with
  | VNum n => Some (VNum n)
  | VObj w => Some (get w "value")
  | _ => None
  end.

(** The room [getRoom] resolves an id to without creating one: the cached
    object if there is one, else the stored document. *)
Definition lookup_room (rid : string) (s : Service) : option Room :=
  match activeRooms s !! rid with
  | Some r => Some r
  | None => db s !! rid
  end.

Definition lookup_version (rid : string) (s : Service) : option Z :=
  version <$> lookup_room rid s.

(** Every cached room sits under its own id and is backed by a stored
    document, and every stored document sits under its own id. *)
Definition well_keyed (s : Service) : Prop :=
  (∀ k r, activeRooms s !! k = Some r → roomId r = k ∧ is_Some (db s !! k)) ∧
  (∀ k r, db s !! k = Some r → roomId r = k).

(** The operations of the room state store. *)
Inductive op :=
| CreateRoom (roomId : option string)
| GetRoom (roomId : string) (createIfNotExists : bool)
| UpdateElements (roomId : string) (els : list obj) (appState files : option obj)
| IncrementalUpd (roomId : string) (u : Updates)
| AddUser (roomId sid : string) (name colour : value)
| RemoveUser (roomId sid : string)
| UpdatePointer (roomId sid : string) (p : obj).

(** Room ids are non-empty strings (1 to 100 characters). *)
Definition op_room_ok (o : op) : Prop :=
  match o with
  | CreateRoom _ => True
  | GetRoom rid _ | UpdateElements rid _ _ _ | IncrementalUpd rid _
  | AddUser rid _ _ _ | RemoveUser rid _ | UpdatePointer rid _ _ => rid ≠ ""
  end.

(** Is the operation a scene mutation of room [rid]? *)
Definition mutates (rid : string) (o : op) : bool :=
  match o with
  | UpdateElements rid' _ _ _ | IncrementalUpd rid' _ => String.eqb rid' rid
  | _ => false
  end.

Definition returned {A} (o : outcome A) : bool :=
  match o with Returned _ => true | Thrown _ => false end.

Section WithPlatform.
Context `{Platform}.

(** The zoom the sanitizers settle on for an extracted value. *)
Definition safe_zoom (v : value) : value :=
  if isNaN v || le0 v then num 1 else v.

(** An appState on which both sanitizers have nothing left to do. *)
Definition clean_appState (a : obj) : Prop :=
  (∃ z, a !! "zoom" = Some (VObj {["value" := z]}) ∧ isNaN z || le0 z = false) ∧
  isNaN (get a "scrollX") = false ∧
  isNaN (get a "scrollY") = false.

Definition clean_element (el : obj) : Prop :=
  isNaN (get el "x") = false ∧ isNaN (get el "y") = false ∧
  isNaN (get el "width") = false ∧ isNaN (get el "height") = false.

(** A room on which the pre-save hook has nothing left to do. *)
Definition clean_room (r : Room) : Prop :=
  match appState r with Some a => clean_appState a | None => True end ∧
  Forall clean_element (elements r).

(** Every stored document is sanitized. *)
Definition db_clean (s : Service) : Prop :=
  map_Forall (λ _ r, clean_room r) (db s).


(** The room id, the user name and the color a [join-room] ends up with. *)
Definition joined_id (data : JoinPayload) : string :=
  validated roomIdSchema (jp_roomId data).
Definition joined_user (data : JoinPayload) : obj :=
  validated userJoinSchema (default ∅ (jp_user data)).
Definition join_log (data : JoinPayload) : list effect :=
  validation_log roomIdSchema (jp_roomId data) ++
  validation_log userJoinSchema (default ∅ (jp_user data)).



(** The document [createRoom] builds for a new id. *)
Definition fresh_room (rid : string) : Room :=
  mkRoom rid [] (Some initial_appState) ∅ [] 1.

Definition run_op (o : op) : M Service unit :=
  match o with
  | CreateRoom rid => (createRoom rid ;; ret tt)%js
  | GetRoom rid c => (getRoom rid c ;; ret tt)%js
  | UpdateElements rid els a f => (updateRoomElements rid els a f ;; ret tt)%js
  | IncrementalUpd rid u => (RoomService.incrementalUpdate rid u ;; ret tt)%js
  | AddUser rid sid n c => (RoomService.addUser rid sid n c ;; ret tt)%js
  | RemoveUser rid sid => (RoomService.removeUser rid sid ;; ret tt)%js
  | UpdatePointer rid sid p => (updateUserPointer rid sid p ;; ret tt)%js
  end.

(** The store after an operation, and whether the operation returned. *)
Definition exec (o : op) (s : Service) : Service := (run_op o s).1.1.
Definition accepted (o : op) (s : Service) : bool := returned (run_op o s).2.
Definition exec_all (ops : list op) (s : Service) : Service :=
  foldl (λ s o, exec o s) s ops.

(** The state [getRoom(rid, true)] leaves behind, and the room it returns. *)
Definition resolved (rid : string) (s : Service) : Room :=
  default (fresh_room rid) (lookup_room rid s).

Definition loaded (rid : string) (s : Service) : Service :=
  mkService (<[rid := resolved rid s]> (activeRooms s))
            (match lookup_room rid s with
             | Some _ => db s
             | None => <[rid := fresh_room rid]> (db s)
             end)
            (issued s).

(** The shape [updateRoomElements], [incrementalUpdate] and [addUser] of
    the service share: resolve the room, run a document method on it,
    refresh the cache. *)
Definition room_op (label rid : string) (m : M Doc unit) : M Service Room :=
  logged label
    (room <- getRoom rid true ;;
     match room with
     | None => throw (Error "Room not found")
     | Some r =>
         r' <- on_cached_doc rid r m ;;
         cache_set rid r' ;;
         ret r'
     end)%js.

(** What [updateRoomElements] does to the document. *)
Definition update_body (els : list obj) (appState files : option obj) : M Doc unit :=
  (on_this (set_elements (λ _, els)) ;;
   match appState with
   | Some a => on_this (set_appState (λ current, Some (a ∪ default ∅ current)))
   | None => ret tt
   end ;;
   match files with
   | Some f => on_this (set_files (λ _, f))
   | None => ret tt
   end ;;
   on_this (set_version plus_one) ;;
   save)%js.

(** What a run of a document method may have done: the document keeps its
    id and its presence list up to [users], its version is the old one or
    [step] of it, and [step] of it when the method returns, nothing is
    logged, and the collection is either untouched or holds the document,
    sanitized, under its id. *)
Definition doc_post (step : Z → Z) (users : list User → list User) (d : Doc)
    (x : Doc * list effect * outcome unit) : Prop :=
  roomId (this x.1.1) = roomId (this d) ∧
  activeUsers (this x.1.1) = users (activeUsers (this d)) ∧
  (version (this x.1.1) = version (this d) ∨
   version (this x.1.1) = step (version (this d))) ∧
  (returned x.2 = true → version (this x.1.1) = step (version (this d))) ∧
  x.1.2 = [] ∧
  ((returned x.2 = false ∧ collection x.1.1 = collection d) ∨
   (returned x.2 = true ∧ roomSchema_valid (this x.1.1) = true ∧
    clean_room (this x.1.1) ∧
    collection x.1.1 = <[roomId (this d) := this x.1.1]> (collection d))).

(** The state after a document method [m] ran on the cached room [rid]. *)
Definition after_doc (rid : string) (r : Room) (m : M Doc unit) (s : Service) : Service :=
  let d := (m (mkDoc r (db s))).1.1 in
  mkService (<[rid := this d]> (activeRooms s)) (collection d) (issued s).

End WithPlatform.
End Notions.
Export Notions.


(** * Example data *)

Module Demo.
Import RoomService SocketHandler.
#[local] Existing Instance Reference.platform.

Definition empty_handler : Handler := mkHandler ∅ (mkService ∅ ∅ 0).

(** [{username: "ann", color: "#ff0000"}] *)
Definition ann : obj := <["username" := VStr "ann"]> {["color" := VStr "#ff0000"]}.

Definition join_demo : JoinPayload := mkJoin "demo" (Some ann).

(** A join whose user payload omits both the name and the color. *)
Definition join_anonymous : JoinPayload := mkJoin "demo" (Some ∅).

(** Connection [s1] after it joined room [demo]. *)
Definition joined_handler : Handler :=
  (handle "s1" (JoinRoom join_demo) empty_handler).1.1.

(** [{elements: [], appState: {zoom: null}}] *)
Definition null_zoom_update : ScenePayload :=
  mkScene [] (Some {["zoom" := VNull]}) None.

(** [{zoom: NaN}] *)
Definition nan_zoom : obj := {["zoom" := VNum NaN]}.

(** A store holding the untouched room [demo]. *)
Definition demo_store : Service :=
  mkService ∅ {["demo" := fresh_room "demo"]} 0.

(** What the [scene-update] handler makes of [{zoom: NaN}]. *)
Definition nan_zoom_sanitized : obj :=
  <["scrollY" := num 0]> (<["scrollX" := num 0]> {["zoom" := VObj {["value" := num 1]}]}).

(** A rectangle with every defaulted field spelled out. *)
Definition rectangle (id : string) : obj :=
  <["id" := VStr id]>
    (<["type" := VStr "rectangle"]>
       (<["x" := num 10]>
          (<["y" := num 20]>
             (<["width" := num 30]>
                (<["height" := num 40]>
                   (<["version" := num 1]>
                      (<["isDeleted" := VBool false]>
                         {["locked" := VBool false]}))))))).

(** The store write that follows a [scene-update] with zoom [NaN]. *)
Definition nan_zoom_write : Service * list effect * outcome Room :=
  updateRoomElements "demo" [rectangle "e1"] (Some nan_zoom_sanitized) None demo_store.

Definition nan_zoom_room : Room :=
  match nan_zoom_write.2 with
  | Returned r => r
  | Thrown _ => fresh_room "demo"
  end.

Definition demo_doc : Doc :=
  mkDoc (mkRoom "demo" [rectangle "e1"; rectangle "e2"] (Some initial_appState) ∅ [] 4) ∅.

(** Delete [e1], move the absent [e9], add [e3]. *)
Definition demo_updates : Updates :=
  mkUpdates (Some [rectangle "e3"])
            (Some [<["x" := num 99]> (rectangle "e9")])
            (Some [VStr "e1"]).

(** Move [e2], which is there. *)
Definition move_e2 : Updates :=
  mkUpdates None (Some [<["x" := num 99]> (rectangle "e2")]) None.

Definition demo_ops : list op :=
  [GetRoom "demo" true;
   AddUser "demo" "s1" (VStr "ann") (VStr "#ff0000");
   UpdateElements "demo" [rectangle "e1"] (Some nan_zoom) None;
   IncrementalUpd "demo" demo_updates;
   UpdatePointer "demo" "s1" (<["x" := num 1]> {["y" := num 2]});
   RemoveUser "demo" "s1";
   CreateRoom (Some "demo")].

Definition scene_a : list SceneElement :=
  [mkSceneElement "e1" 3 11 false; mkSceneElement "e2" 5 12 false;
   mkSceneElement "e3" 7 13 true].

Definition scene_b : list SceneElement :=
  [mkSceneElement "e3" 7 13 true; mkSceneElement "e1" 3 11 false;
   mkSceneElement "e2" 5 12 false].

End Demo.

(** * The rest of the code *)

(** ** models/Room.js: the document methods the service does not call *)

Module RoomMethods.
Section WithPlatform.
Context `{Platform}.

(** [roomSchema.methods.updateUserPointer]: the first entry with the socket
    id gets the pointer, which the document casts as it sets the path, then
    the document is saved. *)
Definition updateUserPointer (sid : string) (p : obj) : M Doc unit :=
  (user <- gets (λ d, find (λ u, String.eqb (socketId u) sid) (activeUsers (this d))) ;;
   match user with
   | Some _ => on_this (set_activeUsers (RoomService.set_first_pointer sid (pointer_set p)))
   | None => ret tt
   end ;;
   save)%js.

(** [roomSchema.methods.updateElements]. *)
Definition updateElements (els : list obj) : M Doc unit :=
  (on_this (set_elements (λ _, els)) ;;
   on_this (set_version plus_one) ;;
   save)%js.

End WithPlatform.
End RoomMethods.

(** ** services/roomService.js: housekeeping *)

Module Housekeeping.
Import RoomService.

(** What [getRoomStats] reports (the two time stamps are left out). *)
Record Stats := mkStats {
  stats_roomId : string;
  elementCount : nat;
  activeUsersCount : nat;
  stats_version : Z
}.

Definition cache_delete (key : string) : M Service unit :=
  modify (λ s, mkService (delete key (activeRooms s)) (db s) (issued s)).

(** [getActiveRoomsCount] and [clearMemoryCache]. *)
Definition getActiveRoomsCount (s : Service) : nat := size (activeRooms s).

Definition clearMemoryCache : M Service unit :=
  modify (λ s, mkService ∅ (db s) (issued s)).

Section WithPlatform.
Context `{Platform}.

(** [cleanupEmptyRoom], the callback [removeUser] schedules. *)
Definition cleanupEmptyRoom (roomId : string) : M Service unit :=
  try_catch
    (room <- getRoom roomId false ;;
     match room with
     | Some r =>
         if (length (activeUsers r) =? 0)%nat then cache_delete roomId else ret tt
     | None => ret tt
     end)%js
    (λ e, tell (ConsoleError "Error cleaning up room:" (exn_message e))).

Definition getRoomStats (roomId : string) : M Service (option Stats) :=
  try_catch
    (room <- getRoom roomId false ;;
     match room with
     | None => ret None
     | Some r =>
         ret (Some (mkStats (RoomDoc.roomId r) (length (elements r))
                            (length (activeUsers r)) (version r)))
     end)%js
    (λ e, tell (ConsoleError "Error getting room stats:" (exn_message e)) ;;
          ret None)%js.

End WithPlatform.
End Housekeeping.

(** ** config/cache.js: the reconnect policy *)

Module Cache.

Inductive reconnect :=
| GiveUp (message : string)
| RetryAfter (ms : Z).

(** [reconnectStrategy(retries)]: what it returns and what it logs. *)
Definition reconnectStrategy (retries : Z) : list effect * reconnect :=
  if 10 <? retries
  then ([ConsoleError "redis max retries reached" ""], GiveUp "max retries reached")
  else ([], RetryAfter (Z.min (retries * 100) 3000)).

End Cache.

(** ** routes/api.js *)

Module Api.
Import RoomService Housekeeping.

Inductive body :=
| Created (roomId : string)
| RoomData (roomId : string) (elements : list obj) (appState : option obj) (files : obj)
           (activeUsers : nat) (version : Z)
| StatsData (stats : Stats)
| Message (message : string)
| Failure (error : string).

(** [res.status(code).json(body)]. *)
Record response := mkResponse {
  status : Z;
  payload : body
}.

(** [catch (error) { console.error(label, error); res.status(400)... }] *)
Definition guarded (label : string) (m : M Service response) : M Service response :=
  try_catch m
    (λ e, tell (ConsoleError label (exn_message e)) ;;
          ret (mkResponse 400 (Failure (exn_message e))))%js.

Section WithPlatform.
Context `{Platform}.

(** [POST /rooms], given [req.body.roomId]. *)
Definition post_rooms (roomId : option string) : M Service response :=
  guarded "Error creating room:"
    (validatedRoomId <- match roomId with
                        | Some r =>
                            if String.eqb r "" then ret None
                            else (v <- validate roomIdSchema r ;; ret (Some v))
                        | None => ret None
                        end ;;
     room <- createRoom validatedRoomId ;;
     ret (mkResponse 201 (Created (RoomDoc.roomId room))))%js.

(** [GET /rooms/:roomId]. *)
Definition get_room (param : string) : M Service response :=
  guarded "Error getting room:"
    (roomId <- validate roomIdSchema param ;;
     room <- getRoom roomId false ;;
     match room with
     | None => ret (mkResponse 404 (Failure "Room not found"))
     | Some r =>
         ret (mkResponse 200
                (RoomData (RoomDoc.roomId r) (elements r) (appState r) (files r)
                          (length (activeUsers r)) (version r)))
     end)%js.

(** [GET /rooms/:roomId/stats]. *)
Definition get_room_stats (param : string) : M Service response :=
  guarded "Error getting room stats:"
    (roomId <- validate roomIdSchema param ;;
     stats <- getRoomStats roomId ;;
     match stats with
     | None => ret (mkResponse 404 (Failure "Room not found"))
     | Some st => ret (mkResponse 200 (StatsData st))
     end)%js.

(** [DELETE /rooms/:roomId]; [room.deleteOne()] removes the stored document. *)
Definition delete_room (param : string) : M Service response :=
  guarded "Error deleting room:"
    (roomId <- validate roomIdSchema param ;;
     room <- getRoom roomId false ;;
     match room with
     | None => ret (mkResponse 404 (Failure "Room not found"))
     | Some r =>
         if (0 <? length (activeUsers r))%nat
         then ret (mkResponse 400 (Failure "Cannot delete room with active users"))
         else (modify (λ s, mkService (activeRooms s) (delete (RoomDoc.roomId r) (db s))
                                      (issued s)) ;;
               ret (mkResponse 200 (Message "Room deleted successfully")))
     end)%js.

End WithPlatform.
End Api.

(** ** frontend-example/src/App.jsx: the client's version discipline *)

Module Client.

(** The change a debounce timer is waiting to send. *)
Record Pending := mkPending {
  p_version : Z;
  p_elements : list obj;
  p_appState : obj;
  p_files : option obj
}.

(** The refs of the component: [lastSceneVersion], [lastEmittedVersion],
    [isInitialized], and the timer [updateTimeout] while it has not fired. *)
Record Refs := mkRefs {
  lastSceneVersion : Z;
  lastEmittedVersion : Z;
  isInitialized : bool;
  updateTimeout : option Pending
}.

(** The refs of a freshly mounted component. *)
Definition mounted : Refs := mkRefs 0 (-1) false None.

(** What the component does to the canvas and to the socket. *)
Inductive action :=
| UpdateScene (elements : list obj) (appState : obj)
| AddFiles (files : obj)
| SetUsers (users : list (string * value * value))
| EmitSceneUpdate (data : ScenePayload).

Section WithPlatform.
Context `{Platform}.
(** [getSceneVersion] of [@excalidraw/excalidraw]. *)
Variable getSceneVersion : list obj → Z.

(** [typeof zoom === 'object' ? zoom.value : zoom], then the guard. *)
Definition safeZoom (zoom : value) : outcome value :=
  obind (if String.eqb (typeof zoom) "object" then prop zoom "value" else Returned zoom)
    (λ zoomValue, Returned (if isNaN zoomValue || le0 zoomValue then num 1 else zoomValue)).

(** [applyUpdate(elements, appState, files, source)]. *)
Definition applyUpdate (elements : option (list obj)) (appState files : option obj)
    (c : Refs) : Refs * list action * outcome unit :=
  let remoteVersion := getSceneVersion (default [] elements) in
  if remoteVersion <=? lastSceneVersion c then (c, [], Returned tt)
  else
    let c' := mkRefs remoteVersion (lastEmittedVersion c) (isInitialized c)
                     (updateTimeout c) in
    match safeZoom (match appState with Some a => get a "zoom" | None => VUndefined end) with
    | Thrown e => (c', [], Thrown e)
    | Returned z =>
        (c',
         UpdateScene (default [] elements)
                     (<["zoom" := VObj {["value" := z]}]> (default ∅ appState))
           :: match files with Some f => [AddFiles f] | None => [] end,
         Returned tt)
    end.

(** The [scene-init] listener; [self] is the socket's own id. *)
Definition on_scene_init (self : string) (elements : option (list obj))
    (appState files : option obj) (users : option (list (string * value * value)))
    (c : Refs) : Refs * list action * outcome unit :=
  match applyUpdate elements appState files c with
  | (c1, t, Thrown e) => (c1, t, Thrown e)
  | (c1, t, Returned _) =>
      (mkRefs (lastSceneVersion c1) (lastEmittedVersion c1) true (updateTimeout c1),
       t ++ match users with
            | Some us =>
                [SetUsers (List.filter (λ u, negb (String.eqb u.1.1 self)) us)]
            | None => []
            end,
       Returned tt)
  end.

(** [handleChange(elements, appState, files)]: a new timer replaces the one
    that is waiting. [socket] tells whether the socket exists. *)
Definition handleChange (socket : bool) (elements : option (list obj)) (appState : obj)
    (files : option obj) (c : Refs) : Refs :=
  match elements with
  | None => c
  | Some els =>
      if socket
      then mkRefs (lastSceneVersion c) (lastEmittedVersion c) (isInitialized c)
                  (Some (mkPending (getSceneVersion els) els appState files))
      else c
  end.

(** The appState a debounced emission carries. *)
Definition emitted_appState (appState : obj) (z : value) : obj :=
  <["viewBackgroundColor" := get appState "viewBackgroundColor"]>
    (<["scrollX" := if isNaN (get appState "scrollX") then num 0 else get appState "scrollX"]>
       (<["scrollY" := if isNaN (get appState "scrollY") then num 0
                       else get appState "scrollY"]>
          {["zoom" := VObj {["value" := z]}]})).

(** The timer callback of [handleChange]. *)
Definition emit_pending (p : Pending) (c : Refs) : Refs * list action * outcome unit :=
  if p_version p <=? lastEmittedVersion c then (c, [], Returned tt)
  else
    let c' := mkRefs (p_version p) (p_version p) (isInitialized c) (updateTimeout c) in
    match safeZoom (get (p_appState p) "zoom") with
    | Thrown e => (c', [], Thrown e)
    | Returned z =>
        (c',
         [EmitSceneUpdate (mkScene (p_elements p)
                                   (Some (emitted_appState (p_appState p) z))
                                   (Some (default ∅ (p_files p))))],
         Returned tt)
    end.

(** The timer fires: the waiting change, if any, is handed to its callback. *)
Definition fire (c : Refs) : Refs * list action * outcome unit :=
  match updateTimeout c with
  | None => (c, [], Returned tt)
  | Some p =>
      emit_pending p (mkRefs (lastSceneVersion c) (lastEmittedVersion c)
                             (isInitialized c) None)
  end.

End WithPlatform.
End Client.

(** ** More example data *)

Module Scenarios.
Import RoomService SocketHandler.
#[local] Existing Instance Reference.platform.

(** Connection [s1] after its join without a color was rejected. *)
Definition rejected_join : Handler :=
  (handle "s1" (JoinRoom Demo.join_anonymous) Demo.empty_handler).1.1.

(** The same user asking for a second room. *)
Definition join_other : JoinPayload := mkJoin "other" (Some Demo.ann).

(** [{x: 1, y: 2}] *)
Definition pointer : obj := <["x" := num 1]> {["y" := num 2]}.

(** The room [demo] stored and cached, with nobody in it. *)
Definition idle_store : Service :=
  mkService {["demo" := fresh_room "demo"]} {["demo" := fresh_room "demo"]} 0.

(** A view state as the canvas may report it while it is being set up:
    [{viewBackgroundColor: "#fff", scrollX: NaN, scrollY: 5, zoom: {value: 0}}]. *)
Definition raw_view : obj :=
  <["viewBackgroundColor" := VStr "#fff"]>
    (<["scrollX" := VNum NaN]>
       (<["scrollY" := num 5]> {["zoom" := VObj {["value" := num 0]}]})).

(** Connection [s1] in room [demo] after it drew the rectangle [e2]. *)
Definition drawn_handler : Handler :=
  (handle "s1" (SceneUpdate (mkScene [Demo.rectangle "e2"] None None))
     Demo.joined_handler).1.1.

(** The room [demo] stored with its version at [2^53]. *)
Definition saturated_store : Service :=
  mkService ∅ {["demo" := mkRoom "demo" [] (Some initial_appState) ∅ [] (2 ^ 53)]} 0.

(** [{x: "abc", y: 2}] *)
Definition bad_pointer : obj := <["x" := VStr "abc"]> {["y" := num 2]}.

(** [{x: 1, y: 2, tool: "pointer"}] *)
Definition tool_pointer : obj := <["tool" := VStr "pointer"]> pointer.

(** What stands in for [getSceneVersion] in the examples: the sum of the
    [version] fields that are whole numbers. *)
Definition version_sum (els : list obj) : Z :=
  foldr (λ el acc, match get el "version" with
                   | VNum (Fin q) => Qnum (Qcanon.this q) + acc
                   | _ => acc
                   end) 0 els.

End Scenarios.
(** * Properties *)

Import RoomService SocketHandler.

(** Reduce projections of explicit tuples and records, nothing else. *)
Ltac projs :=
  cbn [fst snd this collection returned activeRooms db issued socketRoomMap roomService] in *.

(** ** Reasoning about the coercions and the sanitizers *)

Section Sanitizers.
Context `{Platform}.

Lemma isNaN_num z : isNaN (num z) = false.
Proof. reflexivity. Qed.

Lemma le0_num_1 : le0 (num 1) = false.
Proof. reflexivity. Qed.

Lemma get_insert_eq (o : obj) k v : get (<[k := v]> o) k = v.
Proof. unfold get. by rewrite lookup_insert_eq. Qed.

Lemma get_insert_ne (o : obj) k k' v : k ≠ k' → get (<[k := v]> o) k' = get o k'.
Proof. intros. unfold get. by rewrite lookup_insert_ne. Qed.

Lemma get_zero_if_NaN_eq k (o : obj) :
  get (zero_if_NaN k o) k = if isNaN (get o k) then num 0 else get o k.
Proof.
  unfold zero_if_NaN. destruct (isNaN (get o k)); [apply get_insert_eq | done].
Qed.

Lemma get_zero_if_NaN_ne k k' (o : obj) :
  k ≠ k' → get (zero_if_NaN k o) k' = get o k'.
Proof.
  intros. unfold zero_if_NaN. destruct (isNaN (get o k)); [by apply get_insert_ne | done].
Qed.

Lemma zero_if_NaN_id k (o : obj) : isNaN (get o k) = false → zero_if_NaN k o = o.
Proof. intros E. unfold zero_if_NaN. by rewrite E. Qed.

Lemma isNaN_get_zero_if_NaN k (o : obj) : isNaN (get (zero_if_NaN k o) k) = false.
Proof.
  rewrite get_zero_if_NaN_eq. destruct (isNaN (get o k)) eqn:E; [apply isNaN_num | done].
Qed.


Lemma safe_zoom_ok v : isNaN (safe_zoom v) || le0 (safe_zoom v) = false.
Proof.
  unfold safe_zoom. destruct (isNaN v || le0 v) eqn:E; [| done].
  by rewrite isNaN_num, le0_num_1.
Qed.

Lemma safe_zoom_safe_zoom v : safe_zoom (safe_zoom v) = safe_zoom v.
Proof. unfold safe_zoom at 1. by rewrite safe_zoom_ok. Qed.


Lemma sanitize_zoom_clean (a : obj) z :
  a !! "zoom" = Some (VObj {["value" := z]}) → isNaN z || le0 z = false →
  sanitize_zoom a = a.
Proof.
  intros Hz Hok. unfold sanitize_zoom, get. rewrite Hz. simpl.
  rewrite lookup_singleton_eq. simpl. rewrite Hok. by apply insert_id.
Qed.

Lemma scroll_clean (a : obj) :
  clean_appState a → zero_if_NaN "scrollY" (zero_if_NaN "scrollX" (sanitize_zoom a)) = a.
Proof.
  intros [(z & Hz & Hok) [Hx Hy]].
  rewrite (sanitize_zoom_clean a z Hz Hok).
  rewrite (zero_if_NaN_id "scrollX" a Hx). by apply zero_if_NaN_id.
Qed.

Lemma scroll_makes_clean (a : obj) z :
  isNaN z || le0 z = false →
  clean_appState
    (zero_if_NaN "scrollY" (zero_if_NaN "scrollX" (<["zoom" := VObj {["value" := z]}]> a))).
Proof.
  intros Hok. split; [| split].
  - exists z. split; [| done].
    assert (∀ k (o : obj), k ≠ "zoom" → zero_if_NaN k o !! "zoom" = o !! "zoom") as Hk.
    { intros k o Hne. unfold zero_if_NaN.
      destruct (isNaN (get o k)); [by rewrite lookup_insert_ne | done]. }
    rewrite !Hk by done. apply lookup_insert_eq.
  - rewrite get_zero_if_NaN_ne by done. apply isNaN_get_zero_if_NaN.
  - apply isNaN_get_zero_if_NaN.
Qed.

Lemma sanitize_zoom_unfold (a : obj) :
  ∃ z, sanitize_zoom a = <["zoom" := VObj {["value" := z]}]> a ∧
       isNaN z || le0 z = false.
Proof.
  unfold sanitize_zoom.
  destruct (truthy (get a "zoom")).
  - eexists. split; [reflexivity |]. apply safe_zoom_ok.
  - exists (num 1). split; [reflexivity |]. by rewrite isNaN_num, le0_num_1.
Qed.

Lemma pre_save_appState_clean (a : obj) :
  clean_appState (zero_if_NaN "scrollY" (zero_if_NaN "scrollX" (sanitize_zoom a))).
Proof.
  destruct (sanitize_zoom_unfold a) as (z & -> & Hok). by apply scroll_makes_clean.
Qed.

Lemma sanitize_element_clean (el : obj) : clean_element (sanitize_element el).
Proof.
  unfold clean_element, sanitize_element.
  repeat split;
    repeat (rewrite get_zero_if_NaN_ne by done); apply isNaN_get_zero_if_NaN.
Qed.

Lemma sanitize_element_id (el : obj) : clean_element el → sanitize_element el = el.
Proof.
  intros (Hx & Hy & Hw & Hh). unfold sanitize_element.
  rewrite (zero_if_NaN_id "x" el Hx), (zero_if_NaN_id "y" el Hy),
          (zero_if_NaN_id "width" el Hw).
  by apply zero_if_NaN_id.
Qed.


Lemma pre_save_clean (r : Room) : clean_room (pre_save r).
Proof.
  destruct r as [rid els [a|] fs us v]; unfold pre_save, clean_room; simpl.
  - split; [apply pre_save_appState_clean |].
    apply Forall_map, Forall_true, sanitize_element_clean.
  - split; [done |]. apply Forall_map, Forall_true, sanitize_element_clean.
Qed.

Lemma pre_save_id (r : Room) : clean_room r → pre_save r = r.
Proof.
  destruct r as [rid els [a|] fs us v]; unfold pre_save, clean_room; simpl;
    intros [Ha Hels]; unfold set_elements, set_appState; simpl.
  - rewrite (scroll_clean a Ha). f_equal.
    induction Hels as [| el l Hel _ IH]; [done |].
    simpl. by rewrite (sanitize_element_id el Hel), IH.
  - f_equal. induction Hels as [| el l Hel _ IH]; [done |].
    simpl. by rewrite (sanitize_element_id el Hel), IH.
Qed.

Lemma sanitizeAppState_unfold (a : obj) (zoomValue : value) :
  (if String.eqb (typeof (get a "zoom")) "object" then prop (get a "zoom") "value"
   else Returned (get a "zoom")) = Returned zoomValue →
  sanitizeAppState a =
    Returned (zero_if_NaN "scrollY"
                (zero_if_NaN "scrollX"
                   (<["zoom" := VObj {["value" := safe_zoom zoomValue]}]> a))).
Proof. intros E. unfold sanitizeAppState. rewrite E. reflexivity. Qed.

Lemma sanitizeAppState_clean (a a' : obj) :
  sanitizeAppState a = Returned a' → clean_appState a'.
Proof.
  unfold sanitizeAppState.
  destruct (if String.eqb (typeof (get a "zoom")) "object" then _ else _) as [zv|e];
    simpl; [| done].
  intros [= <-]. apply scroll_makes_clean, safe_zoom_ok.
Qed.

Lemma sanitizeAppState_id (a : obj) : clean_appState a → sanitizeAppState a = Returned a.
Proof.
  intros Hc. pose proof Hc as [(z & Hz & Hok) _].
  rewrite (sanitizeAppState_unfold a z).
  - destruct Hc as (_ & Hx & Hy).
    unfold safe_zoom. rewrite Hok, (insert_id a "zoom" _ Hz).
    by rewrite (zero_if_NaN_id "scrollX" a Hx), (zero_if_NaN_id "scrollY" a Hy).
  - unfold get. rewrite Hz. simpl. unfold get. by rewrite lookup_singleton_eq.
Qed.

End Sanitizers.

(** ** Sanitization is idempotent *)

Section Idempotence.
Context `{Platform}.

(** C5. Applying a sanitizer to its own output changes nothing: the pre-save
    hook on a room, its per-element step, and the [scene-update] handler's
    appState clean-up (which, where it throws, throws again the same way). *)
Theorem sanitize_idempotent :
  (∀ r : Room, pre_save (pre_save r) = pre_save r) ∧
  (∀ el : obj, sanitize_element (sanitize_element el) = sanitize_element el) ∧
  (∀ a : obj, obind (sanitizeAppState a) sanitizeAppState = sanitizeAppState a).
Proof.
  split; [| split].
  - intros r. apply pre_save_id, pre_save_clean.
  - intros el. apply sanitize_element_id, sanitize_element_clean.
  - intros a. destruct (sanitizeAppState a) as [a'|e] eqn:E; simpl; [| done].
    apply sanitizeAppState_id. by eapply sanitizeAppState_clean.
Qed.

End Idempotence.

(** ** The validator is soft *)

(** C9. [validate] returns normally for every schema and input: on a schema
    error it logs one warning and returns the input as received, otherwise
    it logs nothing and returns Joi's converted value. *)
Theorem validate_soft {S A : Type} (schema : Schema A) (data : A) (s : S) :
  (∃ t v, validate schema data s = (s, t, Returned v)) ∧
  match joi_error (schema data) with
  | Some msg =>
      validate schema data s
      = (s, [ConsoleWarn "Validation warning (soft):" msg], Returned data)
  | None =>
      validate schema data s = (s, [], Returned (joi_value (schema data)))
  end.
Proof.
  unfold validate. destruct (joi_error (schema data)) as [msg|]; split; eauto.
Qed.

(** ** Events from a connection that is in no room *)

Section NotInRoom.
Context `{Platform}.

(** C10. From a connection with no entry in [socketRoomMap], [scene-update]
    and [incremental-update] only emit [error {message: "Not in a room"}] to
    the sender; [pointer-update] and [idle-status] do nothing at all. The
    handler state, hence every room, is left as it was. *)
Theorem not_in_room (h : Handler) (sid : string) :
  socketRoomMap h !! sid = None →
  (∀ data, handle sid (SceneUpdate data) h
           = (h, [Emit sid (ErrorMsg "Not in a room")], Returned tt)) ∧
  (∀ data, handle sid (IncrementalUpdate data) h
           = (h, [Emit sid (ErrorMsg "Not in a room")], Returned tt)) ∧
  (∀ data, handle sid (PointerUpdate data) h = (h, [], Returned tt)) ∧
  (∀ data, handle sid (IdleStatus data) h = (h, [], Returned tt)).
Proof.
  intros Hmap.
  repeat split; intros data; simpl;
    unfold on_scene_update, on_incremental_update, on_pointer_update, on_idle_status,
           try_catch, bind, gets, current_room;
    rewrite Hmap; reflexivity.
Qed.

End NotInRoom.

(** ** The scene version ignores element order *)

(** C6. Two element lists that are permutations of one another have the
    same scene version. *)
Theorem computeVersion_order_independent (A B : list SceneElement) :
  A ≡ₚ B → computeVersion A = computeVersion B.
Proof.
  unfold computeVersion. induction 1 as [| x l l' _ IH | x y l | l l' l'' _ IH1 _ IH2]; simpl.
  - reflexivity.
  - by rewrite IH.
  - destruct (el_isDeleted x), (el_isDeleted y); lia.
  - congruence.
Qed.

(** ** Running the monad *)

Lemma bind_run {S A B} (m : M S A) (k : A → M S B) s s1 a :
  m s = (s1, [], Returned a) → bind m k s = k a s1.
Proof.
  intros E. unfold bind. rewrite E. by destruct (k a s1) as [[? ?] ?].
Qed.

Lemma bind_run_trace {S A B} (m : M S A) (k : A → M S B) s s1 t1 a :
  m s = (s1, t1, Returned a) →
  bind m k s = (let '(s2, t2, r) := k a s1 in (s2, t1 ++ t2, r)).
Proof. intros E. unfold bind. by rewrite E. Qed.

Lemma bind_throw {S A B} (m : M S A) (k : A → M S B) s s1 t1 e :
  m s = (s1, t1, Thrown e) → bind m k s = (s1, t1, Thrown e).
Proof. intros E. unfold bind. by rewrite E. Qed.

Lemma doc_eta (d : Doc) : mkDoc (this d) (collection d) = d.
Proof. by destruct d. Qed.

Lemma set_elements_id (r : Room) : set_elements (λ els, els) r = r.
Proof. by destruct r. Qed.

Lemma set_elements_ext (f g : list obj → list obj) (r : Room) :
  f (elements r) = g (elements r) → set_elements f r = set_elements g r.
Proof. intros E. unfold set_elements. by rewrite E. Qed.

Lemma set_elements_compose (f g : list obj → list obj) (r : Room) :
  set_elements g (set_elements f r) = set_elements (λ els, g (f els)) r.
Proof. reflexivity. Qed.

(** ** Incremental updates *)

Section Incremental.
Context `{Platform}.

Lemma findIndex_merge (upd : obj) (l : list obj) (i : Z) :
  (findIndex_from (λ el, strict_eq (get el "id") (get upd "id")) l i = -1 ∧
   merge_into upd l = l) ∨
  (∃ (n : nat) (el : obj),
      findIndex_from (λ el, strict_eq (get el "id") (get upd "id")) l i
      = i + Z.of_nat n ∧
      l !! n = Some el ∧
      merge_into upd l = <[n := upd ∪ el]> l).
Proof.
  revert i. induction l as [| x l IH]; intros i; simpl.
  - by left.
  - destruct (strict_eq (get x "id") (get upd "id")) eqn:Hp.
    + right. exists 0%nat, x. split; [lia |]. by split.
    + destruct (IH (i + 1)) as [(E & Hm) | (n & el & E & Hl & Hm)].
      * left. by rewrite E, Hm.
      * right. exists (S n), el. rewrite E, Hm. split; [lia |]. by split.
Qed.

Lemma merge_into_unmatched (upd : obj) (l : list obj) :
  Forall (λ el, strict_eq (get el "id") (get upd "id") = false) l →
  merge_into upd l = l.
Proof.
  induction 1 as [| x l Hx _ IH]; simpl; [done |]. by rewrite Hx, IH.
Qed.

Lemma findIndex_unmatched (upd : obj) (l : list obj) (i : Z) :
  Forall (λ el, strict_eq (get el "id") (get upd "id") = false) l →
  findIndex_from (λ el, strict_eq (get el "id") (get upd "id")) l i = -1.
Proof.
  intros Hall. revert i. induction Hall as [| x l Hx _ IH]; intros i; simpl; [done |].
  by rewrite Hx, IH.
Qed.

Lemma apply_update_unmatched (upd : obj) (d : Doc) :
  Forall (λ el, strict_eq (get el "id") (get upd "id") = false) (elements (this d)) →
  apply_update upd d = (d, [], Returned tt).
Proof.
  intros Hall. unfold apply_update, bind, gets, findIndex.
  rewrite (findIndex_unmatched upd _ 0 Hall). reflexivity.
Qed.

Lemma findIndex_found (upd : obj) (l : list obj) (i : Z) :
  existsb (λ el, strict_eq (get el "id") (get upd "id")) l = true →
  ∃ (n : nat) (el : obj),
    findIndex_from (λ el, strict_eq (get el "id") (get upd "id")) l i = i + Z.of_nat n ∧
    l !! n = Some el.
Proof.
  revert i. induction l as [| x l IH]; intros i; simpl; [done |].
  destruct (strict_eq (get x "id") (get upd "id")); simpl.
  - intros _. exists 0%nat, x. split; [lia | done].
  - intros Hex. destruct (IH (i + 1) Hex) as (n & el & E & Hl).
    exists (S n), el. split; [lia | done].
Qed.

Lemma existsb_unmatched (upd : obj) (l : list obj) :
  existsb (λ el, strict_eq (get el "id") (get upd "id")) l = false →
  Forall (λ el, strict_eq (get el "id") (get upd "id") = false) l.
Proof.
  induction l as [| x l IH]; simpl; [constructor |].
  intros [? ?]%orb_false_iff. constructor; [done | by apply IH].
Qed.

(** An [updated] entry that finds its element: the [toObject] call throws
    and the document stays as it is. *)
Lemma apply_update_matched (upd : obj) (d : Doc) :
  existsb (λ el, strict_eq (get el "id") (get upd "id")) (elements (this d)) = true →
  apply_update upd d
  = (d, [], Thrown (TypeError "this.elements[index].toObject is not a function")).
Proof.
  intros Hex. unfold apply_update, findIndex.
  destruct (findIndex_found upd _ 0 Hex) as (n & el & E & Hl).
  unfold bind, gets, lift. rewrite E.
  rewrite bool_decide_true by lia.
  replace (Z.to_nat (0 + Z.of_nat n)) with n by lia.
  by rewrite Hl.
Qed.

Lemma forEach_apply_update (upds : list obj) (d : Doc) :
  forEach upds apply_update d
  = (d, [],
     if existsb (λ upd, existsb (λ el, strict_eq (get el "id") (get upd "id"))
                                (elements (this d))) upds
     then Thrown (TypeError "this.elements[index].toObject is not a function")
     else Returned tt).
Proof.
  induction upds as [| upd upds IH]; simpl; [done |].
  destruct (existsb _ (elements (this d))) eqn:Hex; simpl.
  - by rewrite (bind_throw _ _ _ _ _ _ (apply_update_matched upd d Hex)).
  - rewrite (bind_run _ _ _ _ _
               (apply_update_unmatched upd d (existsb_unmatched upd _ Hex))).
    exact IH.
Qed.

Lemma filter_nothing_deleted (els : list obj) :
  List.filter (λ el, negb (includes [] (get el "id"))) els = els.
Proof. induction els as [| el els IH]; simpl; [done |]. by f_equal. Qed.

Lemma save_version (d : Doc) : version (this (save d).1.1) = version (this d).
Proof.
  unfold save, bind, gets, modify, throw. destruct (roomSchema_valid (this d)); simpl; [| done].
  by destruct (this d) as [rid els [a|] fs us v].
Qed.

(** Without a hit the merges change nothing: what is left is what the
    batch keeps, followed by what it adds. *)
Lemma batch_elements_no_hit (u : Updates) (els : list obj) :
  update_hits u els = false →
  batch_elements u els = kept u els ++ default [] (added u).
Proof.
  unfold update_hits, batch_elements. fold (kept u els).
  generalize (kept u els) as l. intros l.
  induction (default [] (updated u)) as [| upd upds IH]; simpl; [done |].
  intros [Hupd Hrest]%orb_false_iff.
  rewrite (merge_into_unmatched upd l (existsb_unmatched upd l Hupd)).
  by apply IH.
Qed.

(** A batch in which an [updated] entry meets its element stops there: the
    deletions have been made on the document, nothing else has, and nothing
    is saved. Any other batch is saved with the kept elements followed by
    the added ones and the version stepped once. *)
Lemma incrementalUpdate_run (u : Updates) (d : Doc) :
  RoomDoc.incrementalUpdate u d
  = if update_hits u (elements (this d))
    then (mkDoc (set_elements (kept u) (this d)) (collection d), [],
          Thrown (TypeError "this.elements[index].toObject is not a function"))
    else save (mkDoc (set_version plus_one (set_elements (batch_elements u) (this d)))
                     (collection d)).
Proof.
  unfold RoomDoc.incrementalUpdate.
  set (d1 := mkDoc (set_elements (kept u) (this d)) (collection d)).
  erewrite (bind_run _ _ d d1 tt); last first.
  { subst d1. unfold kept. destruct (deleted u) as [[| x del] |]; simpl; unfold ret;
      try (rewrite (set_elements_ext _ (λ els, els)) by apply filter_nothing_deleted;
           by rewrite set_elements_id, doc_eta).
    reflexivity. }
  assert ((match updated u with
           | Some ((_ :: _) as upd) => forEach upd apply_update
           | _ => ret tt
           end) d1
          = (d1, [], if update_hits u (elements (this d))
                     then Thrown (TypeError "this.elements[index].toObject is not a function")
                     else Returned tt)) as E2.
  { unfold update_hits. destruct (updated u) as [[| x upds] |]; try reflexivity.
    by rewrite forEach_apply_update. }
  destruct (update_hits u (elements (this d))) eqn:Hhit.
  - by rewrite (bind_throw _ _ _ _ _ _ E2).
  - rewrite (bind_run _ _ _ _ _ E2).
    set (d3 := mkDoc (set_elements (λ els, els ++ default [] (added u)) (this d1))
                     (collection d1)).
    erewrite (bind_run _ _ d1 d3 tt); last first.
    { subst d3. destruct (added u) as [[| x adds] |]; simpl default;
        try (unfold ret;
             rewrite (set_elements_ext _ (λ els, els)) by apply app_nil_r;
             by rewrite set_elements_id, doc_eta).
      reflexivity. }
    erewrite (bind_run _ _ d3 _ tt); last reflexivity.
    subst d3 d1. cbn [this collection].
    rewrite set_elements_compose.
    rewrite (set_elements_ext _ (batch_elements u)); [reflexivity |].
    by rewrite (batch_elements_no_hit u _ Hhit).
Qed.

End Incremental.

(** ** The room service: how rooms are resolved *)

Section Service.
Context `{Platform}.

Lemma service_eta (s : Service) : mkService (activeRooms s) (db s) (issued s) = s.
Proof. by destruct s. Qed.

Lemma initial_appState_clean : clean_appState initial_appState.
Proof.
  split; [| by split].
  exists (num 1). split; [reflexivity |]. by rewrite isNaN_num, le0_num_1.
Qed.

Lemma pre_save_fresh rid : pre_save (fresh_room rid) = fresh_room rid.
Proof.
  apply pre_save_id. split; [apply initial_appState_clean | constructor].
Qed.

Lemma pre_save_elements r : elements (pre_save r) = map sanitize_element (elements r).
Proof. by destruct r as [rid els [a|] fs us v]. Qed.

Lemma pre_save_appState r :
  appState (pre_save r)
  = (λ a, zero_if_NaN "scrollY" (zero_if_NaN "scrollX" (sanitize_zoom a))) <$> appState r.
Proof. by destruct r as [rid els [a|] fs us v]. Qed.

Lemma pre_save_roomId r : roomId (pre_save r) = roomId r.
Proof. by destruct r as [rid els [a|] fs us v]. Qed.

Lemma pre_save_version r : version (pre_save r) = version r.
Proof. by destruct r as [rid els [a|] fs us v]. Qed.

Lemma pre_save_activeUsers r : activeUsers (pre_save r) = activeUsers r.
Proof. by destruct r as [rid els [a|] fs us v]. Qed.

Lemma save_run (d : Doc) :
  save d =
    if roomSchema_valid (this d)
    then (mkDoc (pre_save (this d))
                (<[roomId (this d) := pre_save (this d)]> (collection d)),
          [], Returned tt)
    else (d, [], Thrown (ValidationError "Room validation failed")).
Proof.
  unfold save, bind, gets, modify, throw.
  destruct (roomSchema_valid (this d)); [| done].
  by rewrite pre_save_roomId.
Qed.

Lemma fresh_room_valid rid : rid ≠ "" → roomSchema_valid (fresh_room rid) = true.
Proof.
  intros Hne. unfold roomSchema_valid, required_string. simpl.
  rewrite andb_true_r. apply negb_true_iff, String.eqb_neq, Hne.
Qed.

Lemma getRoom_cached rid c s r :
  activeRooms s !! rid = Some r → getRoom rid c s = (s, [], Returned (Some r)).
Proof.
  intros E. unfold getRoom, logged, try_catch, bind, gets. by rewrite E.
Qed.

Lemma getRoom_stored rid c s r :
  activeRooms s !! rid = None → db s !! rid = Some r →
  getRoom rid c s
  = (mkService (<[rid := r]> (activeRooms s)) (db s) (issued s), [], Returned (Some r)).
Proof.
  intros E1 E2. unfold getRoom, logged, try_catch, bind, gets. by rewrite E1, E2.
Qed.

Lemma getRoom_missing rid s :
  activeRooms s !! rid = None → db s !! rid = None →
  getRoom rid false s = (s, [], Returned None).
Proof.
  intros E1 E2. unfold getRoom, logged, try_catch, bind, gets. by rewrite E1, E2.
Qed.

Lemma createRoom_new rid s :
  rid ≠ "" → db s !! rid = None →
  createRoom (Some rid) s
  = (mkService (<[rid := fresh_room rid]> (activeRooms s))
               (<[rid := fresh_room rid]> (db s)) (issued s),
     [], Returned (fresh_room rid)).
Proof.
  intros Hne E. unfold createRoom, logged, try_catch, bind, gets, on_new_doc.
  apply String.eqb_neq in Hne as Hb. rewrite Hb. unfold ret at 1. rewrite E.
  change (mkRoom rid [] (Some initial_appState) ∅ [] 1) with (fresh_room rid).
  rewrite save_run. simpl. rewrite (fresh_room_valid rid Hne). simpl.
  by rewrite pre_save_fresh.
Qed.

Lemma createRoom_existing rid s r :
  rid ≠ "" → db s !! rid = Some r → createRoom (Some rid) s = (s, [], Returned r).
Proof.
  intros Hne E. unfold createRoom, logged, try_catch, bind, gets.
  apply String.eqb_neq in Hne as Hb. rewrite Hb. unfold ret at 1. by rewrite E.
Qed.

(** [getRoom(rid, true)] on a valid id never throws: it returns the
    resolved room and leaves it cached under [rid]. *)
Lemma getRoom_create rid s :
  rid ≠ "" →
  getRoom rid true s = (loaded rid s, [], Returned (Some (resolved rid s))).
Proof.
  intros Hne. unfold loaded, resolved, lookup_room.
  destruct (activeRooms s !! rid) as [r|] eqn:E1.
  - rewrite (getRoom_cached rid true s r E1). simpl.
    by rewrite (insert_id _ _ _ E1), service_eta.
  - destruct (db s !! rid) as [r|] eqn:E2.
    + by rewrite (getRoom_stored rid true s r E1 E2).
    + unfold getRoom, logged, try_catch, bind, gets. rewrite E1, E2.
      rewrite (createRoom_new rid s Hne E2). simpl.
      by rewrite insert_insert_eq.
Qed.

End Service.

(** ** What document methods do *)

Section DocMethods.
Context `{Platform}.

Lemma pre_save_valid r : roomSchema_valid (pre_save r) = roomSchema_valid r.
Proof.
  unfold roomSchema_valid. by rewrite pre_save_roomId, pre_save_activeUsers.
Qed.

(** Any pure change of the document followed by [save]. *)
Lemma mutate_then_save_post (step : Z → Z) (users : list User → list User)
    (r' : Room) (d : Doc) :
  roomId r' = roomId (this d) →
  activeUsers r' = users (activeUsers (this d)) →
  version r' = step (version (this d)) →
  doc_post step users d (save (mkDoc r' (collection d))).
Proof.
  intros Hid Hus Hv. rewrite save_run. unfold doc_post. projs.
  destruct (roomSchema_valid r') eqn:Hvalid; projs.
  - rewrite pre_save_roomId, pre_save_version, pre_save_activeUsers, pre_save_valid, Hid.
    split; [done |]. split; [done |]. split; [by right |]. split; [done |].
    split; [done |].
    right. split; [done |]. split; [done |]. split; [apply pre_save_clean | done].
  - split; [done |]. split; [done |]. split; [by right |]. split; [done |].
    split; [done |]. by left.
Qed.

Lemma addUser_run sid name colour (d : Doc) :
  RoomDoc.addUser sid name colour d
  = save (mkDoc (match find (λ u, String.eqb (socketId u) sid) (activeUsers (this d)) with
                 | None => set_activeUsers (λ us, us ++ [userSchema_cast sid name colour])
                                           (this d)
                 | Some _ => this d
                 end)
                (collection d)).
Proof.
  unfold RoomDoc.addUser, bind, gets.
  destruct (find _ (activeUsers (this d))); simpl.
  - rewrite doc_eta. by destruct (save d) as [[? ?] ?].
  - by destruct (save _) as [[? ?] ?].
Qed.

Lemma removeUser_run sid (d : Doc) :
  RoomDoc.removeUser sid d
  = save (mkDoc (set_activeUsers
                   (List.filter (λ u, negb (String.eqb (socketId u) sid))) (this d))
                (collection d)).
Proof.
  unfold RoomDoc.removeUser, bind, on_this, modify. simpl.
  by destruct (save _) as [[? ?] ?].
Qed.

Lemma update_body_run els a f (d : Doc) :
  update_body els a f d
  = save (mkDoc (set_version plus_one
                   (match f with Some fl => set_files (λ _, fl) | None => λ r, r end
                      (match a with
                       | Some st => set_appState (λ current, Some (st ∪ default ∅ current))
                       | None => λ r, r
                       end (set_elements (λ _, els) (this d)))))
                (collection d)).
Proof.
  unfold update_body, bind, on_this, modify, ret. simpl.
  destruct a, f; simpl; by destruct (save _) as [[? ?] ?].
Qed.

Lemma addUser_post sid name colour (d : Doc) :
  doc_post (λ v, v)
    (λ us, match find (λ u, String.eqb (socketId u) sid) us with
           | None => us ++ [userSchema_cast sid name colour]
           | Some _ => us
           end)
    d (RoomDoc.addUser sid name colour d).
Proof.
  rewrite addUser_run.
  apply mutate_then_save_post;
    by destruct (find _ (activeUsers (this d))).
Qed.

Lemma removeUser_post sid (d : Doc) :
  doc_post (λ v, v) (List.filter (λ u, negb (String.eqb (socketId u) sid)))
    d (RoomDoc.removeUser sid d).
Proof.
  rewrite removeUser_run. by apply mutate_then_save_post.
Qed.

Lemma update_body_post els a f (d : Doc) :
  doc_post plus_one (λ us, us) d (update_body els a f d).
Proof.
  rewrite update_body_run. apply mutate_then_save_post; by destruct a, f.
Qed.

Lemma incrementalUpdate_post u (d : Doc) :
  doc_post plus_one (λ us, us) d (RoomDoc.incrementalUpdate u d).
Proof.
  rewrite incrementalUpdate_run.
  destruct (update_hits u (elements (this d))).
  - unfold doc_post. projs. cbn [roomId activeUsers version set_elements].
    split; [done |]. split; [done |]. split; [by left |]. split; [done |].
    split; [done |]. by left.
  - by apply mutate_then_save_post.
Qed.

End DocMethods.

(** ** The room service: what operations do to the store *)

Section ServiceOps.
Context `{Platform}.

Lemma updateRoomElements_shape rid els a f :
  updateRoomElements rid els a f
  = room_op "Error updating room elements:" rid (update_body els a f).
Proof. reflexivity. Qed.

Lemma incrementalUpdate_shape rid u :
  RoomService.incrementalUpdate rid u
  = room_op "Error in incremental update:" rid (RoomDoc.incrementalUpdate u).
Proof. reflexivity. Qed.

Lemma addUser_shape rid sid name colour :
  RoomService.addUser rid sid name colour
  = room_op "Error adding user:" rid (RoomDoc.addUser sid name colour).
Proof. reflexivity. Qed.

Lemma room_op_run label rid (m : M Doc unit) (s : Service) :
  rid ≠ "" →
  room_op label rid m s =
    let x := m (mkDoc (resolved rid s) (db (loaded rid s))) in
    let s2 := mkService (<[rid := this x.1.1]> (activeRooms s)) (collection x.1.1)
                        (issued s) in
    match x.2 with
    | Returned _ => (s2, x.1.2, Returned (this x.1.1))
    | Thrown e => (s2, x.1.2 ++ [ConsoleError label (exn_message e)], Thrown e)
    end.
Proof.
  intros Hne. unfold room_op, logged, try_catch.
  rewrite (bind_run _ _ _ _ _ (getRoom_create rid s Hne)).
  unfold on_cached_doc, bind, cache_set, modify, ret, tell, throw.
  destruct (m (mkDoc (resolved rid s) (db (loaded rid s)))) as [[d t] [[]|e]]; projs;
    cbn [loaded activeRooms issued]; rewrite ?insert_insert_eq, ?app_nil_r; reflexivity.
Qed.

Lemma removeUser_service_run rid sid (s : Service) :
  RoomService.removeUser rid sid s =
    match lookup_room rid s with
    | None => (s, [], Returned None)
    | Some r =>
        let x := RoomDoc.removeUser sid (mkDoc r (db s)) in
        let s2 := mkService (<[rid := this x.1.1]> (activeRooms s)) (collection x.1.1)
                            (issued s) in
        match x.2 with
        | Returned _ =>
            (s2,
             x.1.2 ++ (if (length (activeUsers (this x.1.1)) =? 0)%nat
                       then [SetTimeout rid 60000] else []),
             Returned (Some (this x.1.1)))
        | Thrown e =>
            (s2, x.1.2 ++ [ConsoleError "Error removing user:" (exn_message e)], Thrown e)
        end
    end.
Proof.
  unfold RoomService.removeUser, logged, try_catch, lookup_room.
  destruct (activeRooms s !! rid) as [r|] eqn:E1.
  - rewrite (bind_run _ _ _ _ _ (getRoom_cached rid false s r E1)).
    unfold on_cached_doc, bind, cache_set, modify, ret, tell, throw.
    destruct (RoomDoc.removeUser sid (mkDoc r (db s))) as [[d t] [[]|e]]; projs;
      rewrite ?insert_insert_eq; [| done].
    destruct (length (activeUsers (this d)) =? 0)%nat; by rewrite ?app_nil_r.
  - destruct (db s !! rid) as [r|] eqn:E2.
    + rewrite (bind_run _ _ _ _ _ (getRoom_stored rid false s r E1 E2)).
      unfold on_cached_doc, bind, cache_set, modify, ret, tell, throw. projs.
      destruct (RoomDoc.removeUser sid (mkDoc r (db s))) as [[d t] [[]|e]]; projs;
        rewrite ?insert_insert_eq; [| done].
      destruct (length (activeUsers (this d)) =? 0)%nat; by rewrite ?app_nil_r.
    + by rewrite (bind_run _ _ _ _ _ (getRoom_missing rid s E1 E2)).
Qed.

(** The id [createRoom] settles on, and the store once [nanoid] was asked. *)
Lemma createRoom_run (idopt : option string) (s : Service) :
  let fresh := match idopt with
               | Some r => String.eqb r ""
               | None => true
               end in
  let id := if fresh then nanoid (issued s) else default "" idopt in
  let n := if fresh then S (issued s) else issued s in
  createRoom idopt s =
    match db s !! id with
    | Some r => (mkService (activeRooms s) (db s) n, [], Returned r)
    | None =>
        if String.eqb id ""
        then (mkService (activeRooms s) (db s) n,
              [ConsoleError "rrror creating room:" "Room validation failed"],
              Thrown (ValidationError "Room validation failed"))
        else (mkService (<[id := fresh_room id]> (activeRooms s))
                        (<[id := fresh_room id]> (db s)) n,
              [], Returned (fresh_room id))
    end.
Proof.
  intros fresh id n.
  unfold createRoom, logged, try_catch, bind, gets, fresh_id, ret, on_new_doc, cache_set,
    modify, tell, throw.
  change (mkRoom ?i [] (Some initial_appState) ∅ [] 1) with (fresh_room i).
  subst fresh id n.
  assert (∀ id (s0 : Service),
            save (mkDoc (fresh_room id) (db s0))
            = if String.eqb id ""
              then (mkDoc (fresh_room id) (db s0), [],
                    Thrown (ValidationError "Room validation failed"))
              else (mkDoc (fresh_room id) (<[id := fresh_room id]> (db s0)), [],
                    Returned tt)) as Hsave.
  { intros id s0. rewrite save_run. projs. unfold roomSchema_valid, required_string.
    cbn [roomId activeUsers fresh_room forallb]. rewrite andb_true_r.
    destruct (String.eqb id ""); cbn [negb]; [done |]. by rewrite pre_save_fresh. }
  destruct idopt as [r|]; [destruct (String.eqb r "") eqn:Er |]; cbn [default from_option id]; projs.
  - destruct (db s !! nanoid (issued s)) eqn:Ed; projs; [reflexivity |].
    rewrite Hsave. by destruct (String.eqb (nanoid (issued s)) "").
  - destruct (db s !! r) eqn:Ed; projs; [by destruct s |].
    rewrite Hsave, Er. projs. reflexivity.
  - destruct (db s !! nanoid (issued s)) eqn:Ed; projs; [reflexivity |].
    rewrite Hsave. by destruct (String.eqb (nanoid (issued s)) "").
Qed.

Lemma lookup_room_cached rid s r :
  activeRooms s !! rid = Some r → lookup_room rid s = Some r.
Proof. intros E. unfold lookup_room. by rewrite E. Qed.

Lemma loaded_facts rid s :
  well_keyed s → rid ≠ "" →
  well_keyed (loaded rid s) ∧
  activeRooms (loaded rid s) !! rid = Some (resolved rid s) ∧
  roomId (resolved rid s) = rid ∧
  (∀ id, id ≠ rid → lookup_room id (loaded rid s) = lookup_room id s) ∧
  (∀ r, lookup_room rid s = Some r → resolved rid s = r ∧ db (loaded rid s) = db s).
Proof.
  intros [Hc Hd] Hne. unfold loaded, resolved.
  assert (roomId (default (fresh_room rid) (lookup_room rid s)) = rid) as Hid.
  { unfold lookup_room. destruct (activeRooms s !! rid) as [r|] eqn:E1; simpl.
    - by apply Hc.
    - destruct (db s !! rid) as [r|] eqn:E2; simpl; [by apply Hd | done]. }
  split; [| split; [| split; [| split]]].
  - split; projs.
    + intros k r Hk. destruct (decide (k = rid)) as [-> | Hkr].
      * rewrite lookup_insert_eq in Hk. injection Hk as <-. split; [done |].
        unfold lookup_room. destruct (activeRooms s !! rid) as [r|] eqn:E1.
        { by apply (Hc rid r). }
        destruct (db s !! rid) as [r|] eqn:E2; [by rewrite E2 |].
        rewrite lookup_insert_eq. by eexists.
      * rewrite lookup_insert_ne in Hk by done. destruct (Hc k r Hk) as [? [r' Hr']].
        split; [done |]. destruct (lookup_room rid s); [by eexists |].
        rewrite lookup_insert_ne by done. by eexists.
    + intros k r. destruct (lookup_room rid s) eqn:El; [apply Hd |].
      destruct (decide (k = rid)) as [-> | Hkr].
      * rewrite lookup_insert_eq. by intros [= <-].
      * rewrite lookup_insert_ne by done. apply Hd.
  - projs. apply lookup_insert_eq.
  - exact Hid.
  - intros id Hid'. unfold lookup_room at 1. projs.
    rewrite lookup_insert_ne by done. unfold lookup_room at 2.
    destruct (activeRooms s !! id); [done |].
    destruct (lookup_room rid s); [done |]. by rewrite lookup_insert_ne.
  - intros r Hr. rewrite Hr. by split.
Qed.

Lemma cached_doc_step rid r s x step users :
  well_keyed s → activeRooms s !! rid = Some r →
  doc_post step users (mkDoc r (db s)) x →
  let s2 := mkService (<[rid := this x.1.1]> (activeRooms s)) (collection x.1.1)
                      (issued s) in
  well_keyed s2 ∧
  lookup_room rid s2 = Some (this x.1.1) ∧
  (∀ id, id ≠ rid → lookup_room id s2 = lookup_room id s).
Proof.
  intros [Hc Hd] Hr (Hid & _ & _ & _ & _ & Hcoll) s2. subst s2. projs.
  destruct (Hc rid r Hr) as [Hrid [r0 Hr0]]. rewrite Hrid in *.
  split; [| split].
  - split; projs.
    + intros k r1 Hk. destruct (decide (k = rid)) as [-> | Hkr].
      * rewrite lookup_insert_eq in Hk. injection Hk as <-. split; [done |].
        destruct Hcoll as [[_ ->] | (_ & _ & _ & ->)]; [by eexists |].
        rewrite lookup_insert_eq. by eexists.
      * rewrite lookup_insert_ne in Hk by done. destruct (Hc k r1 Hk) as [? [r' Hr']].
        split; [done |].
        destruct Hcoll as [[_ ->] | (_ & _ & _ & ->)]; [by eexists |].
        rewrite lookup_insert_ne by done. by eexists.
    + intros k r1. destruct Hcoll as [[_ ->] | (_ & _ & _ & ->)]; [apply Hd |].
      destruct (decide (k = rid)) as [-> | Hkr].
      * rewrite lookup_insert_eq. by intros [= <-].
      * rewrite lookup_insert_ne by done. apply Hd.
  - unfold lookup_room. projs. by rewrite lookup_insert_eq.
  - intros id Hid'. unfold lookup_room. projs. rewrite lookup_insert_ne by done.
    destruct (activeRooms s !! id); [done |].
    destruct Hcoll as [[_ ->] | (_ & _ & _ & ->)]; [done |].
    by rewrite lookup_insert_ne.
Qed.

Lemma room_op_step label rid (m : M Doc unit) s step users :
  well_keyed s → rid ≠ "" → (∀ d, doc_post step users d (m d)) →
  let y := room_op label rid m s in
  well_keyed y.1.1 ∧
  (∃ r', lookup_room rid y.1.1 = Some r' ∧
         activeRooms y.1.1 !! rid = Some r' ∧
         roomId r' = rid ∧
         activeUsers r' = users (activeUsers (resolved rid s)) ∧
         (version r' = version (resolved rid s) ∨
          version r' = step (version (resolved rid s))) ∧
         (returned y.2 = true →
            y.2 = Returned r' ∧ y.1.2 = [] ∧
            version r' = step (version (resolved rid s)) ∧
            db y.1.1 !! rid = Some r' ∧ clean_room r' ∧ roomSchema_valid r' = true) ∧
         (returned y.2 = false →
            ∃ e, y.2 = Thrown e ∧ y.1.2 = [ConsoleError label (exn_message e)])) ∧
  (∀ id, id ≠ rid → lookup_room id y.1.1 = lookup_room id s).
Proof.
  intros Hwk Hne Hm y. subst y. rewrite (room_op_run label rid m s Hne).
  destruct (loaded_facts rid s Hwk Hne) as (Hwk1 & Hc1 & Hid1 & Hother1 & _).
  pose proof (Hm (mkDoc (resolved rid s) (db (loaded rid s)))) as Hpost.
  pose proof (cached_doc_step rid _ _ _ step users Hwk1 Hc1 Hpost) as (Hwk2 & Hl2 & Hother2).
  set (x := m (mkDoc (resolved rid s) (db (loaded rid s)))) in *.
  assert (mkService (<[rid := this x.1.1]> (activeRooms (loaded rid s))) (collection x.1.1)
                    (issued (loaded rid s))
          = mkService (<[rid := this x.1.1]> (activeRooms s)) (collection x.1.1) (issued s))
    as Es2.
  { unfold loaded. projs. by rewrite insert_insert_eq. }
  rewrite Es2 in Hwk2, Hl2, Hother2. clear Es2.
  destruct Hpost as (Hid & Hus & Hv & Hvr & Ht & Hcoll). projs.
  set (s2 := mkService (<[rid := this x.1.1]> (activeRooms s)) (collection x.1.1) (issued s))
    in *.
  assert (∀ t r, (let '(a, b, c) := (s2, t, r) : Service * list effect * outcome Room in a) = s2)
    as _ by done.
  cbv zeta.
  destruct x as [[d t] [[]|e]] eqn:Ex; projs; subst t.
  - split; [exact Hwk2 |]. split.
    + exists (this d). split; [exact Hl2 |]. split; [by subst s2; projs; rewrite lookup_insert_eq |].
      split; [congruence |]. split; [done |]. split; [done |]. split.
      * intros _. destruct Hcoll as [[? _] | (_ & Hvalid & Hclean & Hc)]; [done |].
        split; [done |]. split; [done |]. split; [by apply Hvr |].
        split; [| by split].
        subst s2. projs. rewrite Hc, Hid1. apply lookup_insert_eq.
      * done.
    + intros id Hid'. rewrite Hother2 by done. by apply Hother1.
  - split; [exact Hwk2 |]. split.
    + exists (this d). split; [exact Hl2 |]. split; [by subst s2; projs; rewrite lookup_insert_eq |].
      split; [congruence |]. split; [done |]. split; [done |]. split; [done |].
      intros _. by exists e.
    + intros id Hid'. rewrite Hother2 by done. by apply Hother1.
Qed.

Lemma getRoom_nocreate_run rid s :
  getRoom rid false s =
    match lookup_room rid s with
    | Some r => (loaded rid s, [], Returned (Some r))
    | None => (s, [], Returned None)
    end.
Proof.
  unfold lookup_room, loaded, resolved, lookup_room.
  destruct (activeRooms s !! rid) as [r|] eqn:E1.
  - rewrite (getRoom_cached rid false s r E1). simpl.
    by rewrite (insert_id _ _ _ E1), service_eta.
  - destruct (db s !! rid) as [r|] eqn:E2.
    + by rewrite (getRoom_stored rid false s r E1 E2).
    + by rewrite (getRoom_missing rid s E1 E2).
Qed.

Lemma removeUser_step rid sid s :
  well_keyed s → rid ≠ "" →
  let y := RoomService.removeUser rid sid s in
  well_keyed y.1.1 ∧
  match lookup_room rid s with
  | None => y = (s, [], Returned None)
  | Some r =>
      ∃ r', lookup_room rid y.1.1 = Some r' ∧
            activeRooms y.1.1 !! rid = Some r' ∧
            roomId r' = rid ∧
            activeUsers r'
            = List.filter (λ u, negb (String.eqb (socketId u) sid)) (activeUsers r) ∧
            version r' = version r
  end ∧
  (∀ id, id ≠ rid → lookup_room id y.1.1 = lookup_room id s).
Proof.
  intros Hwk Hne y. subst y. rewrite removeUser_service_run.
  destruct (lookup_room rid s) as [r|] eqn:El; [| by projs].
  destruct (loaded_facts rid s Hwk Hne) as (Hwk1 & Hc1 & Hid1 & Hother1 & Hres).
  destruct (Hres r El) as [Hr Hdb]. rewrite Hr in *.
  pose proof (removeUser_post sid (mkDoc r (db (loaded rid s)))) as Hpost.
  pose proof (cached_doc_step rid _ _ _ _ _ Hwk1 Hc1 Hpost) as (Hwk2 & Hl2 & Hother2).
  rewrite Hdb in *.
  set (x := RoomDoc.removeUser sid (mkDoc r (db s))) in *.
  assert (mkService (<[rid := this x.1.1]> (activeRooms (loaded rid s))) (collection x.1.1)
                    (issued (loaded rid s))
          = mkService (<[rid := this x.1.1]> (activeRooms s)) (collection x.1.1) (issued s))
    as Es2.
  { unfold loaded. projs. by rewrite insert_insert_eq. }
  rewrite Es2 in Hwk2, Hl2, Hother2. clear Es2.
  destruct Hpost as (Hid & Hus & Hv & Hvr & Ht & Hcoll). projs.
  cbv zeta.
  assert (version (this x.1.1) = version r) as Hv' by (by destruct Hv).
  destruct x as [[d t] [[]|e]] eqn:Ex; projs.
  all: split; [exact Hwk2 |]; split;
    [ exists (this d); split; [exact Hl2 |]; split; [by rewrite lookup_insert_eq |];
      split; [congruence |]; by split
    | intros id Hid'; rewrite Hother2 by done; by apply Hother1 ].
Qed.

Lemma run_op_state {A} (m : M Service A) (s : Service) :
  (bind m (λ _, ret tt) s).1.1 = (m s).1.1 ∧
  returned (bind m (λ _, ret tt) s).2 = returned (m s).2.
Proof. unfold bind, ret. by destruct (m s) as [[s1 t1] [a|e]]. Qed.

Lemma updateUserPointer_run rid sid p s :
  updateUserPointer rid sid p s
  = match cast_pointer p with
    | Returned p' =>
        (mkService (alter (set_activeUsers (set_first_pointer sid p')) rid (activeRooms s))
                   (alter (set_activeUsers (set_first_pointer sid p')) rid (db s))
                   (issued s), [], Returned (Some true))
    | Thrown e =>
        (s, [ConsoleError "Error updating user pointer:" (exn_message e)], Returned None)
    end.
Proof.
  unfold updateUserPointer, try_catch, bind, lift.
  by destruct (cast_pointer p).
Qed.

Lemma pointer_step rid sid p s :
  well_keyed s →
  let y := updateUserPointer rid sid p s in
  well_keyed y.1.1 ∧
  ∀ id r, lookup_room id s = Some r →
          ∃ r', lookup_room id y.1.1 = Some r' ∧ version r' = version r.
Proof.
  intros [Hc Hd] y. subst y. rewrite updateUserPointer_run.
  destruct (cast_pointer p) as [p'|e]; projs;
    [| split; [by split |]; intros id r Hl; by exists r].
  split.
  - split; projs.
    + intros k r. rewrite !lookup_alter. case_decide as Hk; [subst k |].
      * destruct (activeRooms s !! rid) as [r0|] eqn:E; [| done].
        intros [= <-]. destruct (Hc rid r0 E) as [? [r1 Hr1]]. split; [done |].
        rewrite Hr1. by eexists.
      * intros Hk'. by apply Hc.
    + intros k r. rewrite lookup_alter. case_decide as Hk; [subst k |]; [| apply Hd].
      destruct (db s !! rid) as [r0|] eqn:E; [| done].
      intros [= <-]. by apply (Hd rid r0).
  - intros id r. unfold lookup_room. projs. rewrite !lookup_alter.
    case_decide as Hk; [subst id |].
    + destruct (activeRooms s !! rid) as [r0|]; simpl.
      * intros [= <-]. by eexists.
      * destruct (db s !! rid) as [r0|]; simpl; [| done]. intros [= <-]. by eexists.
    + destruct (activeRooms s !! id) as [r0|]; simpl.
      * intros [= <-]. by eexists.
      * intros ->. by eexists.
Qed.

Lemma resolved_lookup rid s r : lookup_room rid s = Some r → resolved rid s = r.
Proof. intros E. unfold resolved. by rewrite E. Qed.

Lemma plus_one_ge (v : Z) : v ≤ plus_one v.
Proof.
  unfold plus_one. destruct (_ && _); [lia |]. destruct (_ && _); lia.
Qed.

Lemma plus_one_exact (v : Z) : - 2 ^ 53 ≤ v < 2 ^ 53 → plus_one v = v + 1.
Proof.
  intros [Hlo Hhi]. unfold plus_one.
  apply Z.leb_le in Hlo. apply Z.ltb_lt in Hhi. by rewrite Hlo, Hhi.
Qed.

(** What a failed run of a room operation leaves in the document store. *)
Lemma room_op_outcome label rid (m : M Doc unit) s step users :
  rid ≠ "" → (∀ d, doc_post step users d (m d)) →
  let y := room_op label rid m s in
  match y.2 with
  | Returned r =>
      y.1.2 = [] ∧ activeRooms y.1.1 !! rid = Some r
  | Thrown e =>
      y.1.2 = [ConsoleError label (exn_message e)] ∧ db y.1.1 = db (loaded rid s)
  end.
Proof.
  intros Hne Hm. cbv zeta. rewrite room_op_run by done. cbv zeta.
  specialize (Hm (mkDoc (resolved rid s) (db (loaded rid s)))).
  destruct Hm as (Hid & _ & _ & _ & Ht & Hc).
  destruct (m (mkDoc (resolved rid s) (db (loaded rid s)))) as [[d t] [[]|e]]; projs.
  - subst t. split; [done | apply lookup_insert_eq].
  - destruct Hc as [[_ Hc] | (? & _)]; [| done]. by subst t.
Qed.

Lemma room_op_version label rid (m : M Doc unit) s step users :
  well_keyed s → rid ≠ "" → (∀ d, doc_post step users d (m d)) →
  let y := room_op label rid m s in
  well_keyed y.1.1 ∧
  ∀ id r, lookup_room id s = Some r →
    ∃ r', lookup_room id y.1.1 = Some r' ∧
          (id ≠ rid → version r' = version r) ∧
          (version r' = version r ∨ version r' = step (version r)) ∧
          (id = rid → returned y.2 = true → version r' = step (version r)) ∧
          (id = rid → returned y.2 = false → db y.1.1 = db s).
Proof.
  intros Hwk Hne Hm y.
  destruct (room_op_step label rid m s step users Hwk Hne Hm) as (Hwk' & Hroom & Hother).
  pose proof (room_op_outcome label rid m s step users Hne Hm) as Hout.
  fold y in Hwk', Hroom, Hother, Hout. split; [exact Hwk' |].
  intros id r Hl. destruct (decide (id = rid)) as [-> | Hid].
  - destruct Hroom as (r' & Hl' & _ & _ & _ & Hv & Hret & _).
    rewrite (resolved_lookup rid s r Hl) in *.
    exists r'. split; [done |]. split; [done |]. split; [done |]. split.
    + intros _ Hr. by destruct (Hret Hr) as (_ & _ & ? & _).
    + intros _ Hr. clear Hret Hl' Hwk' Hother. revert Hr Hout. cbv zeta. subst y.
      destruct (room_op label rid m s) as [[s' t'] [r0|e]]; projs; [done |].
      intros _ [_ ->]. unfold loaded. by rewrite Hl.
  - exists r. rewrite Hother by done. split; [done |]. split; [done |].
    split; [by left |]. by split.
Qed.

Lemma exec_step (o : op) (s : Service) :
  well_keyed s → op_room_ok o →
  well_keyed (exec o s) ∧
  ∀ id r, lookup_room id s = Some r →
    ∃ r', lookup_room id (exec o s) = Some r' ∧
          version r ≤ version r' ≤ plus_one (version r) ∧
          (mutates id o = false → version r' = version r) ∧
          (mutates id o = true → accepted o s = true →
           version r' = plus_one (version r)) ∧
          (mutates id o = true → accepted o s = false → db (exec o s) = db s).
Proof.
  intros Hwk Hok. unfold exec, accepted.
  assert (∀ r r' : Room, version r' = version r →
            version r ≤ version r' ≤ plus_one (version r)) as Hsame.
  { intros r r' ->. split; [lia | apply plus_one_ge]. }
  destruct o as [idopt | rid c | rid els a f | rid u | rid sid n c | rid sid | rid sid p];
    cbn [run_op mutates op_room_ok] in *;
    match goal with
    | |- context [bind ?m _ s] => destruct (run_op_state m s) as [-> ->]
    end.
  - (* createRoom *)
    rewrite createRoom_run. cbv zeta.
    set (id0 := if match idopt with Some r => String.eqb r "" | None => true end
                then nanoid (issued s) else default "" idopt).
    set (n := if match idopt with Some r => String.eqb r "" | None => true end
              then S (issued s) else issued s).
    destruct Hwk as [Hc Hd].
    destruct (db s !! id0) as [r0|] eqn:E0; [| destruct (String.eqb id0 "") eqn:E1]; projs.
    1, 2: split; [by split |]; intros id r Hl; exists r; split; [done |];
      split; [by apply Hsame | done].
    split.
    + split; projs.
      * intros k r. destruct (decide (k = id0)) as [-> | Hk].
        { rewrite !lookup_insert_eq. intros [= <-]. split; [done | by eexists]. }
        rewrite !lookup_insert_ne by done. apply Hc.
      * intros k r. destruct (decide (k = id0)) as [-> | Hk].
        { rewrite lookup_insert_eq. by intros [= <-]. }
        rewrite lookup_insert_ne by done. apply Hd.
    + intros id r Hl. exists r. split; [| split; [by apply Hsame | done]].
      assert (id ≠ id0) as Hne.
      { intros ->. unfold lookup_room in Hl.
        destruct (activeRooms s !! id0) as [r1|] eqn:E2.
        - destruct (Hc id0 r1 E2) as [_ [r2 Hr2]]. congruence.
        - congruence. }
      unfold lookup_room in *. projs. by rewrite !lookup_insert_ne.
  - (* getRoom *)
    assert (well_keyed (getRoom rid c s).1.1 ∧
            ∀ id r, lookup_room id s = Some r → lookup_room id (getRoom rid c s).1.1 = Some r)
      as [Hwk' Hkeep].
    { destruct (loaded_facts rid s Hwk Hok) as (Hwk1 & Hc1 & _ & Hother1 & Hres).
      assert (∀ id r, lookup_room id s = Some r → lookup_room id (loaded rid s) = Some r)
        as Hl1.
      { intros id r Hl. destruct (decide (id = rid)) as [-> | Hne].
        - rewrite (lookup_room_cached _ _ _ Hc1). f_equal. by apply Hres.
        - by rewrite Hother1. }
      destruct c.
      - rewrite (getRoom_create rid s Hok). by projs.
      - rewrite getRoom_nocreate_run. destruct (lookup_room rid s); by projs. }
    split; [done |]. intros id r Hl. exists r. split; [by apply Hkeep |].
    split; [by apply Hsame | done].
  - (* updateRoomElements *)
    rewrite updateRoomElements_shape.
    destruct (room_op_version "Error updating room elements:" rid _ s _ _ Hwk Hok (update_body_post els a f))
      as [Hwk' Hv].
    split; [exact Hwk' |]. intros id r Hl.
    destruct (Hv id r Hl) as (r' & Hl' & Hne & Hor & Hacc & Hrej).
    exists r'. split; [done |].
    destruct (String.eqb rid id) eqn:E.
    + apply String.eqb_eq in E as <-. split.
      { pose proof (plus_one_ge (version r)). destruct Hor as [-> | ->]; lia. }
      split; [done |]. split; intros _; [by apply Hacc | by apply Hrej].
    + apply String.eqb_neq in E.
      split; [apply Hsame, Hne; congruence |]. split; [intros _; apply Hne; congruence |].
      done.
  - (* incrementalUpdate *)
    rewrite incrementalUpdate_shape.
    destruct (room_op_version "Error in incremental update:" rid _ s _ _ Hwk Hok (incrementalUpdate_post u))
      as [Hwk' Hv].
    split; [exact Hwk' |]. intros id r Hl.
    destruct (Hv id r Hl) as (r' & Hl' & Hne & Hor & Hacc & Hrej).
    exists r'. split; [done |].
    destruct (String.eqb rid id) eqn:E.
    + apply String.eqb_eq in E as <-. split.
      { pose proof (plus_one_ge (version r)). destruct Hor as [-> | ->]; lia. }
      split; [done |]. split; intros _; [by apply Hacc | by apply Hrej].
    + apply String.eqb_neq in E.
      split; [apply Hsame, Hne; congruence |]. split; [intros _; apply Hne; congruence |].
      done.
  - (* addUser *)
    rewrite addUser_shape.
    destruct (room_op_version "Error adding user:" rid _ s _ _ Hwk Hok (addUser_post sid n c)) as [Hwk' Hv].
    split; [exact Hwk' |]. intros id r Hl.
    destruct (Hv id r Hl) as (r' & Hl' & _ & Hor & _).
    exists r'. split; [done |].
    assert (version r' = version r) as E by (by destruct Hor).
    split; [by apply Hsame | done].
  - (* removeUser *)
    destruct (removeUser_step rid sid s Hwk Hok) as (Hwk' & Hroom & Hother).
    split; [done |]. intros id r Hl. destruct (decide (id = rid)) as [-> | Hne].
    + rewrite Hl in Hroom. destruct Hroom as (r' & Hl' & _ & _ & _ & Hv).
      exists r'. split; [done |]. split; [by apply Hsame | done].
    + exists r. rewrite Hother by done. split; [done |]. split; [by apply Hsame | done].
  - (* updateUserPointer *)
    destruct (pointer_step rid sid p s Hwk) as [Hwk' Hv]. split; [done |].
    intros id r Hl. destruct (Hv id r Hl) as (r' & Hl' & Hv').
    exists r'. split; [done |]. split; [by apply Hsame | done].
Qed.

(** The invariant holds of every store the operations can build from an
    empty one. *)
Lemma well_keyed_reachable (ops : list op) (n : nat) :
  Forall op_room_ok ops → well_keyed (exec_all ops (mkService ∅ ∅ n)).
Proof.
  assert (well_keyed (mkService ∅ ∅ n)) as Hinit.
  { split; intros k r; cbn [activeRooms db]; by rewrite lookup_empty. }
  revert Hinit. generalize (mkService ∅ ∅ n) as s.
  induction ops as [| o ops IH]; intros s Hwk Hops; [exact Hwk |].
  apply Forall_cons in Hops as [Ho Hops].
  apply IH; [| exact Hops]. by apply exec_step.
Qed.

(** ** Incremental batches *)

Lemma incrementalUpdate_returned rid (u : Updates) s s' t r' :
  well_keyed s → rid ≠ "" →
  RoomService.incrementalUpdate rid u s = (s', t, Returned r') →
  update_hits u (elements (resolved rid s)) = false ∧
  elements r' = map sanitize_element (batch_elements u (elements (resolved rid s))) ∧
  version r' = plus_one (version (resolved rid s)) ∧
  db s' !! rid = Some r' ∧
  activeRooms s' !! rid = Some r'.
Proof.
  intros Hwk Hne.
  rewrite incrementalUpdate_shape, (room_op_run _ rid _ _ Hne). cbv zeta.
  rewrite incrementalUpdate_run. projs.
  destruct (update_hits u (elements (resolved rid s))); projs; [done |].
  rewrite save_run. projs.
  destruct (loaded_facts rid s Hwk Hne) as (_ & _ & Hid & _).
  destruct (roomSchema_valid _); projs; [| done].
  intros [= <- <- <-]. projs.
  rewrite pre_save_elements, pre_save_version.
  cbn [roomId elements version set_version set_elements].
  rewrite Hid, !lookup_insert_eq. done.
Qed.

Lemma incrementalUpdate_hit rid (u : Updates) s :
  rid ≠ "" → update_hits u (elements (resolved rid s)) = true →
  RoomService.incrementalUpdate rid u s
  = (mkService (<[rid := set_elements (kept u) (resolved rid s)]> (activeRooms s))
               (db (loaded rid s)) (issued s),
     [ConsoleError "Error in incremental update:"
        "this.elements[index].toObject is not a function"],
     Thrown (TypeError "this.elements[index].toObject is not a function")).
Proof.
  intros Hne Hhit.
  rewrite incrementalUpdate_shape, (room_op_run _ rid _ _ Hne). cbv zeta.
  rewrite incrementalUpdate_run. projs. by rewrite Hhit.
Qed.

(** C1. The claim: an [updated] entry is field-merged into the element
    that has its id. The code: as soon as an [updated] entry of a batch
    meets an element the batch does not delete, the document method throws
    a [TypeError] (the element, a plain object, has no [toObject]): the
    merge is not made, the version is not stepped and nothing is saved, only
    the deletions of the batch have been made on the document in memory;
    through the service the error is logged and thrown on, the stored
    documents are those the lookup left, and the cached room has lost the
    deleted elements. A batch in which no [updated] entry meets an element
    behaves as claimed: what is left is the element list without the deleted
    ids followed by the added elements, saved with the version stepped once;
    an [updated] entry whose id matches nothing changes nothing and throws
    nothing. *)
Theorem incrementalUpdate_matched_update_throws (u : Updates) (d : Doc) :
  (update_hits u (elements (this d)) = true →
     RoomDoc.incrementalUpdate u d
     = (mkDoc (set_elements (kept u) (this d)) (collection d), [],
        Thrown (TypeError "this.elements[index].toObject is not a function"))) ∧
  (∀ (rid : string) (s : Service),
     rid ≠ "" → update_hits u (elements (resolved rid s)) = true →
     RoomService.incrementalUpdate rid u s
     = (mkService (<[rid := set_elements (kept u) (resolved rid s)]> (activeRooms s))
                  (db (loaded rid s)) (issued s),
        [ConsoleError "Error in incremental update:"
           "this.elements[index].toObject is not a function"],
        Thrown (TypeError "this.elements[index].toObject is not a function"))) ∧
  (update_hits u (elements (this d)) = false →
     batch_elements u (elements (this d))
     = kept u (elements (this d)) ++ default [] (added u) ∧
     RoomDoc.incrementalUpdate u d
     = save (mkDoc (set_version plus_one (set_elements (batch_elements u) (this d)))
                   (collection d)) ∧
     version (this (RoomDoc.incrementalUpdate u d).1.1) = plus_one (version (this d))) ∧
  (∀ (upd : obj) (d' : Doc),
     Forall (λ el, strict_eq (get el "id") (get upd "id") = false) (elements (this d')) →
     apply_update upd d' = (d', [], Returned tt)).
Proof.
  split; [| split; [| split]].
  - intros Hhit. by rewrite incrementalUpdate_run, Hhit.
  - intros rid s. apply incrementalUpdate_hit.
  - intros Hhit. split; [by apply batch_elements_no_hit |].
    rewrite incrementalUpdate_run, Hhit. split; [done |]. by rewrite save_version.
  - intros upd d'. apply apply_update_unmatched.
Qed.

(** ** The version counter *)

(** C4 (as amended). While a room exists the version the store serves for
    it never decreases and never resets. From a store in which every cached
    room is backed by a stored document under its own id, and for operations
    on valid room ids: after any sequence of [createRoom], [getRoom],
    [updateRoomElements], [incrementalUpdate], [addUser], [removeUser] and
    [updateUserPointer] the room is still there with a version at least as
    high. One operation leaves the version unchanged unless it is a scene
    mutation of that room. A scene mutation that is accepted (returns)
    steps it once: by exactly 1 while the version is within the integers
    JavaScript adds exactly ([- 2^53 <= v < 2^53]), by what the rounded
    addition gives beyond. A scene mutation that is not accepted leaves it
    between the old value and one step above, and leaves the stored
    documents as they are. *)
Theorem version_never_decreases (ops : list op) (s : Service) (rid : string) (v : Z) :
  well_keyed s → Forall op_room_ok ops → lookup_version rid s = Some v →
  (∃ v', lookup_version rid (exec_all ops s) = Some v' ∧ v ≤ v') ∧
  (∀ o, op_room_ok o →
     ∃ v', lookup_version rid (exec o s) = Some v' ∧
           v ≤ v' ≤ plus_one v ∧
           (mutates rid o = false → v' = v) ∧
           (mutates rid o = true → accepted o s = true →
            v' = plus_one v ∧ (- 2 ^ 53 ≤ v < 2 ^ 53 → v' = v + 1)) ∧
           (mutates rid o = true → accepted o s = false → db (exec o s) = db s)).
Proof.
  intros Hwk Hops Hv. split.
  - revert s v Hwk Hv. induction Hops as [| o ops Hok _ IH]; intros s v Hwk Hv.
    + exists v. split; [done | lia].
    + unfold lookup_version in Hv.
      destruct (lookup_room rid s) as [r|] eqn:Hl; [| done]. injection Hv as <-.
      destruct (exec_step o s Hwk Hok) as [Hwk' Hstep].
      destruct (Hstep rid r Hl) as (r' & Hl' & Hle & _).
      destruct (IH (exec o s) (version r') Hwk') as (v' & Hv' & Hle').
      { unfold lookup_version. by rewrite Hl'. }
      exists v'. split; [exact Hv' |]. lia.
  - intros o Hok. unfold lookup_version in *.
    destruct (lookup_room rid s) as [r|] eqn:Hl; [| done]. injection Hv as <-.
    destruct (exec_step o s Hwk Hok) as [_ Hstep].
    destruct (Hstep rid r Hl) as (r' & Hl' & Hle & Hsame & Hacc & Hrej).
    exists (version r'). rewrite Hl'. split; [done |]. split; [done |].
    split; [done |]. split; [| done].
    intros Hm Ha. rewrite (Hacc Hm Ha). split; [done |]. apply plus_one_exact.
Qed.

End ServiceOps.

(** ** The socket handler *)

Section Handlers.
Context `{Platform}.

Lemma validate_run {S A} (schema : Schema A) (data : A) (s : S) :
  validate schema data s = (s, validation_log schema data, Returned (validated schema data)).
Proof.
  unfold validate, validation_log, validated. by destruct (joi_error (schema data)).
Qed.

Lemma handleLeaveRoom_none sid h :
  current_room sid h = None → handleLeaveRoom sid h = (h, [], Returned tt).
Proof. intros E. unfold handleLeaveRoom, bind, gets. by rewrite E. Qed.

Lemma handler_eta h : mkHandler (socketRoomMap h) (roomService h) = h.
Proof. by destruct h. Qed.

(** Leaving never throws; it removes the connection from the room it is in. *)
Lemma handleLeaveRoom_run sid h :
  handleLeaveRoom sid h =
    match current_room sid h with
    | None => (h, [], Returned tt)
    | Some room =>
        let y := RoomService.removeUser room sid (roomService h) in
        match y.2 with
        | Returned _ =>
            (mkHandler (delete sid (socketRoomMap h)) y.1.1,
             y.1.2 ++ [SocketLeave sid room; ToRoom room sid (UserLeft sid)], Returned tt)
        | Thrown e =>
            (mkHandler (socketRoomMap h) y.1.1,
             y.1.2 ++ [ConsoleError "Error leaving room:" (exn_message e)], Returned tt)
        end
    end.
Proof.
  unfold handleLeaveRoom, bind at 1, gets.
  destruct (current_room sid h) as [room|]; [| done].
  unfold try_catch, bind, svc, zoom, tell, map_delete, modify.
  destruct (RoomService.removeUser room sid (roomService h)) as [[s1 t1] [r|e]]; projs.
  - by rewrite !app_nil_l.
  - done.
Qed.

Lemma on_join_room_run sid data h :
  on_join_room sid data h =
    let rid := joined_id data in
    let name := get (joined_user data) "username" in
    let colour := get (joined_user data) "color" in
    let l := handleLeaveRoom sid h in
    let y := RoomService.addUser rid sid name colour (roomService l.1.1) in
    let h' := mkHandler (<[sid := rid]> (socketRoomMap l.1.1)) y.1.1 in
    match y.2 with
    | Returned room =>
        (h',
         join_log data ++ l.1.2 ++ [SocketJoin sid rid] ++ y.1.2 ++
           [Emit sid (SceneInit (elements room) (appState room) (files room)
                        (map (λ u, (socketId u, username u, color u)) (activeUsers room)));
            ToRoom rid sid (UserJoined sid name colour)],
         Returned tt)
    | Thrown e =>
        (h',
         join_log data ++ l.1.2 ++ [SocketJoin sid rid] ++ y.1.2 ++
           [ConsoleError "Error joining room:" (exn_message e);
            Emit sid (ErrorMsg (exn_message e))],
         Returned tt)
    end.
Proof.
  cbv zeta. unfold on_join_room, try_catch, join_log, joined_id, joined_user.
  rewrite (bind_run_trace _ _ _ _ _ _ (validate_run roomIdSchema (jp_roomId data) h)).
  rewrite (bind_run_trace _ _ _ _ _ _ (validate_run userJoinSchema _ h)).
  set (rid := validated roomIdSchema (jp_roomId data)).
  set (user := validated userJoinSchema (default ∅ (jp_user data))).
  pose proof (handleLeaveRoom_run sid h) as Hl.
  destruct (handleLeaveRoom sid h) as [[h1 tl] rl] eqn:El.
  assert (rl = Returned tt) as ->.
  { destruct (current_room sid h); [| by injection Hl].
    cbv zeta in Hl. destruct (RoomService.removeUser _ _ _).2; by injection Hl. }
  clear Hl. unfold bind at 1. rewrite El.
  unfold bind, tell, map_set, modify, svc, zoom. projs.
  destruct (RoomService.addUser rid sid (get user "username") (get user "color")
              (roomService h1)) as [[s2 t2] [room|e]]; projs;
    rewrite ?app_nil_r, ?app_nil_l, <- ?app_assoc; reflexivity.
Qed.

Lemma room_op_cache label rid (m : M Doc unit) s step users :
  rid ≠ "" → (∀ d, doc_post step users d (m d)) →
  ∃ r', activeRooms (room_op label rid m s).1.1 !! rid = Some r' ∧
        activeUsers r' = users (activeUsers (resolved rid s)).
Proof.
  intros Hne Hm. rewrite (room_op_run label rid m s Hne). cbv zeta.
  pose proof (Hm (mkDoc (resolved rid s) (db (loaded rid s)))) as (_ & Hus & _).
  destruct (m _) as [[d t] [[]|e]]; projs;
    exists (this d); by rewrite lookup_insert_eq.
Qed.

Lemma removeUser_cache rid sid s r :
  lookup_room rid s = Some r →
  ∃ r', activeRooms (RoomService.removeUser rid sid s).1.1 !! rid = Some r' ∧
        activeUsers r'
        = List.filter (λ u, negb (String.eqb (socketId u) sid)) (activeUsers r).
Proof.
  intros Hl. rewrite removeUser_service_run, Hl. cbv zeta.
  pose proof (removeUser_post sid (mkDoc r (db s))) as (_ & Hus & _).
  destruct (RoomDoc.removeUser sid _) as [[d t] [[]|e]]; projs;
    exists (this d); by rewrite lookup_insert_eq.
Qed.

Lemma presence_count_removed sid us :
  presence_count sid (List.filter (λ u, negb (String.eqb (socketId u) sid)) us) = 0%nat.
Proof.
  unfold presence_count. induction us as [| u us IH]; simpl; [done |].
  destruct (String.eqb (socketId u) sid) eqn:E; simpl; [done |]. by rewrite E.
Qed.

Lemma presence_count_find sid us :
  presence_count sid us = 0%nat → find (λ u, String.eqb (socketId u) sid) us = None.
Proof.
  unfold presence_count. induction us as [| u us IH]; simpl; [done |].
  destruct (String.eqb (socketId u) sid); simpl; [done | exact IH].
Qed.

Lemma presence_count_unchanged sid us :
  presence_count sid us = 0%nat →
  List.filter (λ u, negb (String.eqb (socketId u) sid)) us = us.
Proof.
  unfold presence_count. induction us as [| u us IH]; simpl; [done |].
  destruct (String.eqb (socketId u) sid); simpl; [done |]. intros E. by rewrite IH.
Qed.

Lemma presence_count_added sid name colour us :
  presence_count sid (us ++ [userSchema_cast sid name colour])
  = S (presence_count sid us).
Proof.
  unfold presence_count. rewrite List.filter_app, length_app. simpl.
  rewrite String.eqb_refl. simpl. lia.
Qed.

Lemma join_leaves_cached sid data h :
  joined_id data ≠ "" →
  let h' := (on_join_room sid data h).1.1 in
  socketRoomMap h' !! sid = Some (joined_id data) ∧
  is_Some (activeRooms (roomService h') !! joined_id data).
Proof.
  intros Hne h'. subst h'. rewrite on_join_room_run. cbv zeta.
  set (l := handleLeaveRoom sid h).
  destruct (room_op_cache "Error adding user:" (joined_id data)
              (RoomDoc.addUser sid (get (joined_user data) "username")
                               (get (joined_user data) "color"))
              (roomService l.1.1) _ _ Hne (addUser_post _ _ _)) as (r' & Hr' & _).
  rewrite <- addUser_shape in Hr'.
  destruct (RoomService.addUser _ _ _ _ _) as [[s2 t2] [room|e]]; projs;
    (split; [apply lookup_insert_eq | by eexists]).
Qed.

Lemma rejoin_count sid data h :
  joined_id data ≠ "" →
  socketRoomMap h !! sid = Some (joined_id data) →
  is_Some (activeRooms (roomService h) !! joined_id data) →
  ∃ r, activeRooms (roomService (on_join_room sid data h).1.1) !! joined_id data = Some r ∧
       presence_count sid (activeUsers r) = 1%nat.
Proof.
  intros Hne Hmap [r0 Hr0]. rewrite on_join_room_run. cbv zeta.
  assert (current_room sid h = Some (joined_id data)) as Hcur.
  { unfold current_room. rewrite Hmap.
    apply String.eqb_neq in Hne. by rewrite Hne. }
  destruct (removeUser_cache (joined_id data) sid (roomService h) r0
              (lookup_room_cached _ _ _ Hr0)) as (r1 & Hr1 & Hus1).
  assert (activeRooms (roomService (handleLeaveRoom sid h).1.1) !! joined_id data = Some r1)
    as Hl.
  { rewrite handleLeaveRoom_run, Hcur. cbv zeta.
    destruct (RoomService.removeUser _ _ _) as [[s1 t1] [r|e]]; by projs. }
  set (l := handleLeaveRoom sid h) in *.
  destruct (room_op_cache "Error adding user:" (joined_id data)
              (RoomDoc.addUser sid (get (joined_user data) "username")
                               (get (joined_user data) "color"))
              (roomService l.1.1) _ _ Hne (addUser_post _ _ _)) as (r2 & Hr2 & Hus2).
  rewrite <- addUser_shape in Hr2.
  rewrite (resolved_lookup _ _ _ (lookup_room_cached _ _ _ Hl)) in Hus2.
  assert (presence_count sid (activeUsers r1) = 0%nat) as Hzero.
  { rewrite Hus1. apply presence_count_removed. }
  rewrite (presence_count_find _ _ Hzero) in Hus2.
  exists r2. split.
  - destruct (RoomService.addUser _ _ _ _ _) as [[s2 t2] [room|e]]; by projs.
  - by rewrite Hus2, presence_count_added, Hzero.
Qed.

Lemma presence_count_found sid us :
  presence_count sid us ≠ 0%nat →
  is_Some (find (λ u, String.eqb (socketId u) sid) us).
Proof.
  unfold presence_count. induction us as [| u us IH]; simpl; [done |].
  destruct (String.eqb (socketId u) sid); simpl; [by eexists | exact IH].
Qed.

(** C7. Presence is idempotent per connection. Two [join-room] events for
    the same room from one connection leave exactly one entry for that
    connection in the room's [activeUsers]; [leave-room] and [disconnect]
    from a connection that is in no room change nothing, emit nothing and do
    not fail; at the document level, removing a connection that has no entry
    leaves [activeUsers] as it was, and so does adding one that has an entry. *)
Theorem presence_idempotent :
  (∀ (h : Handler) (sid : string) (d1 d2 : JoinPayload),
     joined_id d1 ≠ "" → joined_id d2 = joined_id d1 →
     ∃ r, activeRooms
            (roomService (handle sid (JoinRoom d2) (handle sid (JoinRoom d1) h).1.1).1.1)
          !! joined_id d1 = Some r ∧
          presence_count sid (activeUsers r) = 1%nat) ∧
  (∀ (h : Handler) (sid : string),
     socketRoomMap h !! sid = None →
     handle sid LeaveRoom h = (h, [], Returned tt) ∧
     handle sid Disconnect h = (h, [], Returned tt)) ∧
  (∀ (sid : string) (d : Doc),
     presence_count sid (activeUsers (this d)) = 0%nat →
     activeUsers (this (RoomDoc.removeUser sid d).1.1) = activeUsers (this d)) ∧
  (∀ (sid : string) (name colour : value) (d : Doc),
     presence_count sid (activeUsers (this d)) ≠ 0%nat →
     activeUsers (this (RoomDoc.addUser sid name colour d).1.1) = activeUsers (this d)).
Proof.
  split; [| split; [| split]].
  - intros h sid d1 d2 Hne Hsame. cbn [handle].
    destruct (join_leaves_cached sid d1 h Hne) as [Hmap Hcached].
    rewrite <- Hsame in *. by apply rejoin_count.
  - intros h sid Hmap. cbn [handle]. unfold handleDisconnect.
    assert (current_room sid h = None) as Hcur by (unfold current_room; by rewrite Hmap).
    by rewrite (handleLeaveRoom_none sid h Hcur).
  - intros sid d Hzero.
    pose proof (removeUser_post sid d) as (_ & Hus & _).
    by rewrite Hus, presence_count_unchanged.
  - intros sid name colour d Hpos.
    pose proof (addUser_post sid name colour d) as (_ & Hus & _).
    rewrite Hus. by destruct (presence_count_found sid _ Hpos) as [u ->].
Qed.









(** What the [scene-update] handler does for a connection that is in a room:
    the stored room is never consulted before the broadcast, and a failed
    store write only adds console lines. *)
Lemma scene_update_relay (h : Handler) (sid room : string) (data : ScenePayload) :
  current_room sid h = Some room →
  let v := validated sceneUpdateSchema data in
  let w := validation_log sceneUpdateSchema data in
  on_scene_update sid data h =
    match match sp_appState v with
          | Some a => obind (sanitizeAppState a) (λ a', Returned (Some a'))
          | None => Returned None
          end with
    | Thrown e =>
        (h, w ++ [ConsoleError "scene-update error:" (exn_message e);
                  Emit sid (ErrorMsg (exn_message e))], Returned tt)
    | Returned appState' =>
        let y := updateRoomElements room (sp_elements v) appState' (sp_files v)
                   (roomService h) in
        (mkHandler (socketRoomMap h) y.1.1,
         w ++ [ToRoom room sid (SceneUpdateMsg (sp_elements v) appState' (sp_files v))] ++
           y.1.2 ++
           match y.2 with
           | Returned _ => []
           | Thrown err => [ConsoleError "db save error:" (exn_message err)]
           end,
         Returned tt)
    end.
Proof.
  intros Hcur v w. unfold on_scene_update, try_catch.
  unfold bind at 1, gets. rewrite Hcur.
  rewrite (bind_run_trace _ _ _ _ _ _ (validate_run sceneUpdateSchema data h)).
  fold v w.
  destruct (sp_appState v) as [a|].
  - unfold bind at 1 2, lift. destruct (sanitizeAppState a) as [a'|e]; cbn [obind].
    + unfold ret at 1. unfold bind, tell, try_catch, svc, zoom, ret. projs.
      destruct (updateRoomElements _ _ _ _ _) as [[s1 t1] [r|err]]; projs;
        by rewrite ?app_nil_r, ?app_nil_l.
    + projs. by rewrite ?app_nil_r.
  - unfold bind, tell, try_catch, svc, zoom, ret. projs.
    destruct (updateRoomElements _ _ _ _ _) as [[s1 t1] [r|err]]; projs;
      by rewrite ?app_nil_r, ?app_nil_l.
Qed.

Lemma sanitizeAppState_null_zoom (a : obj) :
  get a "zoom" = VNull →
  sanitizeAppState a
  = Thrown (TypeError "Cannot read properties of null (reading 'value')").
Proof. intros E. unfold sanitizeAppState. by rewrite E. Qed.


End Handlers.

(** ** Sanitization before persistence *)

Section Persistence.
Context `{Platform}.

Lemma truthy_number_false n : truthy (VNum n) = false → isNaN (VNum n) || le0 (VNum n) = true.
Proof.
  destruct n as [| | | q]; simpl; try done.
  intros E. apply negb_false_iff, bool_decide_eq_true in E. subst q. reflexivity.
Qed.

Lemma sanitize_zoom_rule (a : obj) z :
  zoom_value (get a "zoom") = Some z →
  sanitize_zoom a = <["zoom" := VObj {["value" := safe_zoom z]}]> a.
Proof.
  unfold sanitize_zoom, zoom_value, safe_zoom.
  destruct (get a "zoom") as [| | b | n | str | items | w] eqn:E; try done; intros [= <-].
  - destruct (truthy (VNum n)) eqn:Et; [done |]. by rewrite (truthy_number_false n Et).
  - reflexivity.
Qed.

Lemma sanitizeAppState_rule (a : obj) z :
  zoom_value (get a "zoom") = Some z →
  sanitizeAppState a
  = Returned (zero_if_NaN "scrollY"
                (zero_if_NaN "scrollX" (<["zoom" := VObj {["value" := safe_zoom z]}]> a))).
Proof.
  intros Hz. apply sanitizeAppState_unfold.
  unfold zoom_value in Hz.
  destruct (get a "zoom") as [| | b | n | str | items | w]; try done; by injection Hz as <-.
Qed.

Lemma scrolled_fields (a : obj) (zoom : value) :
  let a' := zero_if_NaN "scrollY" (zero_if_NaN "scrollX" (<["zoom" := zoom]> a)) in
  get a' "zoom" = zoom ∧
  get a' "scrollX" = (if isNaN (get a "scrollX") then num 0 else get a "scrollX") ∧
  get a' "scrollY" = (if isNaN (get a "scrollY") then num 0 else get a "scrollY").
Proof.
  cbv zeta. split; [| split].
  - rewrite !get_zero_if_NaN_ne by done. apply get_insert_eq.
  - rewrite get_zero_if_NaN_ne by done. rewrite get_zero_if_NaN_eq.
    by rewrite get_insert_ne.
  - rewrite get_zero_if_NaN_eq. rewrite get_zero_if_NaN_ne by done.
    by rewrite get_insert_ne.
Qed.

Lemma sanitize_element_fields (el : obj) (k : string) :
  k ∈ ["x"; "y"; "width"; "height"] →
  get (sanitize_element el) k = if isNaN (get el k) then num 0 else get el k.
Proof.
  intros Hk. unfold sanitize_element.
  repeat (apply elem_of_cons in Hk as [-> | Hk]);
    [ | | | | by apply elem_of_nil in Hk ];
    repeat first [ rewrite get_zero_if_NaN_eq | rewrite get_zero_if_NaN_ne by done ];
    reflexivity.
Qed.

Lemma isNaN_undefined : isNaN VUndefined = true.
Proof. reflexivity. Qed.

Lemma clean_lookup (a : obj) k : isNaN (get a k) = false → is_Some (a !! k).
Proof.
  unfold get. destruct (a !! k); [by eexists |]. simpl. by rewrite isNaN_undefined.
Qed.

Lemma get_union_l (a b : obj) k : is_Some (a !! k) → get (a ∪ b) k = get a k.
Proof.
  intros [v Hv]. unfold get. by rewrite (lookup_union_Some_l a b k v Hv), Hv.
Qed.

Lemma union_clean (a b : obj) : clean_appState a → clean_appState (a ∪ b).
Proof.
  intros [(z & Hz & Hok) [Hx Hy]]. split; [| split].
  - exists z. split; [| done]. by apply lookup_union_Some_l.
  - rewrite get_union_l; [done | by apply clean_lookup].
  - rewrite get_union_l; [done | by apply clean_lookup].
Qed.

Lemma updateRoomElements_returned rid els (a : option obj) f s s' t r' :
  well_keyed s → rid ≠ "" →
  updateRoomElements rid els a f s = (s', t, Returned r') →
  db s' !! rid = Some r' ∧
  elements r' = map sanitize_element els ∧
  version r' = plus_one (version (resolved rid s)) ∧
  match a with
  | Some st =>
      appState r'
      = Some (zero_if_NaN "scrollY"
                (zero_if_NaN "scrollX"
                   (sanitize_zoom (st ∪ default ∅ (appState (resolved rid s))))))
  | None => True
  end.
Proof.
  intros Hwk Hne. rewrite updateRoomElements_shape, (room_op_run _ rid _ _ Hne). cbv zeta.
  rewrite update_body_run, save_run. projs.
  destruct (loaded_facts rid s Hwk Hne) as (_ & _ & Hid & _).
  destruct (roomSchema_valid _); projs; [| done].
  intros [= <- <- <-]. projs.
  split.
  { destruct a, f; cbn [roomId set_version set_files set_appState set_elements];
      rewrite Hid; apply lookup_insert_eq. }
  split; [rewrite pre_save_elements; by destruct a, f |].
  split; [rewrite pre_save_version; by destruct a, f |].
  destruct a as [st|]; [| done]. rewrite pre_save_appState. by destruct f.
Qed.

Lemma fresh_room_clean rid : clean_room (fresh_room rid).
Proof. split; [apply initial_appState_clean | constructor]. Qed.

Lemma loaded_db_clean rid s : db_clean s → db_clean (loaded rid s).
Proof.
  unfold db_clean, loaded. projs. intros Hc.
  destruct (lookup_room rid s); [done |].
  apply map_Forall_insert_2; [apply fresh_room_clean | done].
Qed.

Lemma doc_post_db_clean step users d x :
  doc_post step users d x →
  map_Forall (λ _ r, clean_room r) (collection d) →
  map_Forall (λ _ r, clean_room r) (collection x.1.1).
Proof.
  intros (_ & _ & _ & _ & _ & [[_ ->] | (_ & _ & Hclean & ->)]) Hc; [done |].
  by apply map_Forall_insert_2.
Qed.

Lemma room_op_db_clean label rid (m : M Doc unit) s step users :
  rid ≠ "" → (∀ d, doc_post step users d (m d)) →
  db_clean s → db_clean (room_op label rid m s).1.1.
Proof.
  intros Hne Hm Hc. rewrite (room_op_run label rid m s Hne). cbv zeta.
  pose proof (doc_post_db_clean _ _ _ _ (Hm (mkDoc (resolved rid s) (db (loaded rid s))))
                (loaded_db_clean rid s Hc)) as Hc'.
  unfold db_clean. by destruct (m _) as [[d t] [[]|e]].
Qed.

Lemma clean_room_set_activeUsers f r : clean_room r → clean_room (set_activeUsers f r).
Proof. by destruct r. Qed.

Lemma exec_db_clean (o : op) (s : Service) :
  op_room_ok o → db_clean s → db_clean (exec o s).
Proof.
  intros Hok Hc. unfold exec.
  destruct o as [idopt | rid c | rid els a f | rid u | rid sid n c | rid sid | rid sid p];
    cbn [run_op op_room_ok] in *;
    match goal with
    | |- context [bind ?m _ s] => destruct (run_op_state m s) as [-> _]
    end.
  - rewrite createRoom_run. cbv zeta.
    destruct (db s !! _); [done |]. destruct (String.eqb _ ""); [done |].
    unfold db_clean. projs. apply map_Forall_insert_2; [apply fresh_room_clean | done].
  - destruct c.
    + rewrite (getRoom_create rid s Hok). by apply loaded_db_clean.
    + rewrite getRoom_nocreate_run.
      destruct (lookup_room rid s); [by apply loaded_db_clean | done].
  - rewrite updateRoomElements_shape.
    by apply (room_op_db_clean _ rid _ s _ _ Hok (update_body_post els a f)).
  - rewrite incrementalUpdate_shape.
    by apply (room_op_db_clean _ rid _ s _ _ Hok (incrementalUpdate_post u)).
  - rewrite addUser_shape.
    by apply (room_op_db_clean _ rid _ s _ _ Hok (addUser_post sid n c)).
  - rewrite removeUser_service_run. destruct (lookup_room rid s) as [r|]; [| done].
    cbv zeta.
    pose proof (doc_post_db_clean _ _ _ _ (removeUser_post sid (mkDoc r (db s))) Hc) as Hc'.
    unfold db_clean. by destruct (RoomDoc.removeUser sid _) as [[d t] [[]|e]].
  - rewrite updateUserPointer_run. destruct (cast_pointer p) as [p'|e]; [| done].
    unfold db_clean. projs.
    intros k r. rewrite lookup_alter. case_decide as Hk; [subst k |]; [| apply Hc].
    destruct (db s !! rid) as [r0|] eqn:E; [| done].
    intros [= <-]. apply clean_room_set_activeUsers. by apply (Hc rid r0).
Qed.

(** C3. Sanitization before persistence. For a zoom given as a bare number
    or a [{value}] wrapper, both the [scene-update] handler and the pre-save
    hook store [{value: v}] with the extracted value [v], replaced by 1 when
    [isNaN(v)] or [v <= 0]; they replace a [scrollX] or [scrollY] that is
    not a number by 0, and the hook does the same to [x], [y], [width] and
    [height] of every element. A full-scene write that is stored is stored
    with exactly these values (for a zoom of [NaN]: [{value: 1}]), and every
    operation of the store keeps every stored document sanitized. *)
Theorem sanitized_before_persistence :
  (∀ (a : obj) (z : value),
     zoom_value (get a "zoom") = Some z →
     ∃ a', sanitizeAppState a = Returned a' ∧
           get a' "zoom" = VObj {["value" := if isNaN z || le0 z then num 1 else z]} ∧
           get a' "scrollX" = (if isNaN (get a "scrollX") then num 0 else get a "scrollX") ∧
           get a' "scrollY" = (if isNaN (get a "scrollY") then num 0 else get a "scrollY")) ∧
  (∀ (r : Room) (a : obj) (z : value),
     appState r = Some a → zoom_value (get a "zoom") = Some z →
     ∃ a', appState (pre_save r) = Some a' ∧
           get a' "zoom" = VObj {["value" := if isNaN z || le0 z then num 1 else z]} ∧
           get a' "scrollX" = (if isNaN (get a "scrollX") then num 0 else get a "scrollX") ∧
           get a' "scrollY" = (if isNaN (get a "scrollY") then num 0 else get a "scrollY")) ∧
  (∀ (r : Room),
     elements (pre_save r) = map sanitize_element (elements r) ∧
     ∀ (el : obj) (k : string),
       k ∈ ["x"; "y"; "width"; "height"] →
       get (sanitize_element el) k = if isNaN (get el k) then num 0 else get el k) ∧
  (∀ (s s' : Service) (rid : string) (els : list obj) (a a' : obj) (f : option obj)
     (z : value) (t : list effect) (r' : Room),
     well_keyed s → rid ≠ "" →
     zoom_value (get a "zoom") = Some z →
     sanitizeAppState a = Returned a' →
     updateRoomElements rid els (Some a') f s = (s', t, Returned r') →
     db s' !! rid = Some r' ∧
     elements r' = map sanitize_element els ∧
     ∃ st, appState r' = Some st ∧
           get st "zoom" = VObj {["value" := if isNaN z || le0 z then num 1 else z]} ∧
           isNaN (get st "scrollX") = false ∧ isNaN (get st "scrollY") = false) ∧
  (∀ (s s' : Service) (rid : string) (els : list obj) (a a' : obj) (f : option obj)
     (t : list effect) (r' : Room),
     well_keyed s → rid ≠ "" →
     get a "zoom" = VNum NaN →
     sanitizeAppState a = Returned a' →
     updateRoomElements rid els (Some a') f s = (s', t, Returned r') →
     ∃ st, appState r' = Some st ∧ get st "zoom" = VObj {["value" := num 1]}) ∧
  (∀ (o : op) (s : Service), op_room_ok o → db_clean s → db_clean (exec o s)).
Proof.
  assert (∀ (s s' : Service) (rid : string) (els : list obj) (a a' : obj) (f : option obj)
            (z : value) (t : list effect) (r' : Room),
            well_keyed s → rid ≠ "" →
            zoom_value (get a "zoom") = Some z →
            sanitizeAppState a = Returned a' →
            updateRoomElements rid els (Some a') f s = (s', t, Returned r') →
            db s' !! rid = Some r' ∧
            elements r' = map sanitize_element els ∧
            ∃ st, appState r' = Some st ∧
                  get st "zoom" = VObj {["value" := safe_zoom z]} ∧
                  isNaN (get st "scrollX") = false ∧ isNaN (get st "scrollY") = false)
    as Hstored.
  { intros s s' rid els a a' f z t r' Hwk Hne Hz Ha Hrun.
    destruct (updateRoomElements_returned _ _ _ _ _ _ _ _ Hwk Hne Hrun)
      as (Hdb & Hels & _ & Happ).
    split; [done |]. split; [done |].
    pose proof (sanitizeAppState_clean a a' Ha) as Hclean.
    pose proof (union_clean a' (default ∅ (appState (resolved rid s))) Hclean) as Hu.
    rewrite (scroll_clean _ Hu) in Happ.
    eexists. split; [exact Happ |].
    destruct Hu as (_ & Hx & Hy). split; [| by split].
    destruct Hclean as [(z0 & Hz0 & _) _].
    rewrite get_union_l by (by eexists).
    rewrite (sanitizeAppState_rule a z Hz) in Ha. injection Ha as <-.
    by destruct (scrolled_fields a (VObj {["value" := safe_zoom z]})) as [-> _]. }
  split; [| split; [| split; [| split; [| split]]]].
  - intros a z Hz. eexists. split; [by apply sanitizeAppState_rule |].
    apply scrolled_fields.
  - intros r a z Ha Hz. rewrite pre_save_appState, Ha. cbn [fmap option_fmap option_map].
    eexists. split; [reflexivity |]. rewrite (sanitize_zoom_rule a z Hz).
    apply scrolled_fields.
  - intros r. split; [apply pre_save_elements | apply sanitize_element_fields].
  - exact Hstored.
  - intros s s' rid els a a' f t r' Hwk Hne Hz Ha Hrun.
    destruct (Hstored s s' rid els a a' f (VNum NaN) t r' Hwk Hne) as (_ & _ & st & ? & ? & _);
      try done.
    + by rewrite Hz.
    + by exists st.
  - apply exec_db_clean.
Qed.

End Persistence.

(** * The model at concrete inputs *)

Section Closed.
#[local] Existing Instance Reference.platform.

(** C2. The claim: every [scene-update] from a connection that is in a room
    is relayed to the others, whatever the store holds and whatever becomes
    of the store write. The code at [{elements: [], appState: {zoom: null}}],
    a payload the schema accepts: reading [.value] on the null zoom throws
    before the broadcast, so nothing is relayed, nothing is written, and the
    sender gets an [error] event. *)
Theorem scene_update_null_zoom_not_relayed :
  handle "s1" (SceneUpdate Demo.null_zoom_update) Demo.joined_handler
  = (Demo.joined_handler,
     [ConsoleError "scene-update error:" "Cannot read properties of null (reading 'value')";
      Emit "s1" (ErrorMsg "Cannot read properties of null (reading 'value')")],
     Returned tt).
Proof. vm_compute. reflexivity. Qed.


Lemma not_in_room_witness :
  socketRoomMap Demo.empty_handler !! "s1" = None ∧
  handle "s1" (SceneUpdate Demo.null_zoom_update) Demo.empty_handler
  = (Demo.empty_handler, [Emit "s1" (ErrorMsg "Not in a room")], Returned tt).
Proof.
  split; [reflexivity |].
  apply (proj1 (not_in_room Demo.empty_handler "s1" eq_refl)).
Defined.

Lemma computeVersion_order_independent_witness :
  Demo.scene_a ≡ₚ Demo.scene_b ∧
  computeVersion Demo.scene_a = computeVersion Demo.scene_b.
Proof.
  assert (Demo.scene_a ≡ₚ Demo.scene_b) as Hp.
  { unfold Demo.scene_a, Demo.scene_b.
    symmetry. apply (Permutation_cons_append [_; _] _). }
  split; [exact Hp |]. exact (computeVersion_order_independent _ _ Hp).
Defined.

Lemma incrementalUpdate_matched_update_throws_witness :
  update_hits Demo.move_e2 (elements (this Demo.demo_doc)) = true ∧
  RoomDoc.incrementalUpdate Demo.move_e2 Demo.demo_doc
  = (Demo.demo_doc, [],
     Thrown (TypeError "this.elements[index].toObject is not a function")).
Proof.
  assert (update_hits Demo.move_e2 (elements (this Demo.demo_doc)) = true) as Hhit
    by reflexivity.
  split; [exact Hhit |].
  pose proof (incrementalUpdate_matched_update_throws Demo.move_e2 Demo.demo_doc) as P.
  destruct P as [P _]. exact (P Hhit).
Defined.

(** The failing input of C1 at the socket: the connection that drew [e2]
    sends an update of [e2]. The sender gets the error, nobody else gets
    the update, and the stored room keeps the element as it was. *)
Example matched_update_rejected :
  let y := handle "s1" (IncrementalUpdate Demo.move_e2) Scenarios.drawn_handler in
  y.1.2 = [ConsoleError "Error in incremental update:"
             "this.elements[index].toObject is not a function";
           ConsoleError "Error in incremental update:"
             "this.elements[index].toObject is not a function";
           Emit "s1" (ErrorMsg "this.elements[index].toObject is not a function")] ∧
  db (roomService y.1.1) = db (roomService Scenarios.drawn_handler) ∧
  (elements <$> db (roomService y.1.1) !! "demo") = Some [Demo.rectangle "e2"] ∧
  (version <$> db (roomService y.1.1) !! "demo") = Some 2.
Proof. cbv zeta. split_and!; vm_compute; reflexivity. Qed.


Lemma well_keyed_demo_store : well_keyed Demo.demo_store.
Proof.
  split; intros k r; unfold Demo.demo_store; cbn [activeRooms db].
  - by rewrite lookup_empty.
  - intros [<- <-]%lookup_singleton_Some. reflexivity.
Qed.

Lemma version_never_decreases_witness :
  well_keyed Demo.demo_store ∧
  Forall op_room_ok Demo.demo_ops ∧
  lookup_version "demo" Demo.demo_store = Some 1 ∧
  ∃ v', lookup_version "demo" (exec_all Demo.demo_ops Demo.demo_store) = Some v' ∧ 1 ≤ v'.
Proof.
  assert (Forall op_room_ok Demo.demo_ops) as Hops by (repeat constructor; discriminate).
  split; [exact well_keyed_demo_store |]. split; [exact Hops |]. split; [reflexivity |].
  exact (proj1 (version_never_decreases Demo.demo_ops Demo.demo_store "demo" 1
                  well_keyed_demo_store Hops eq_refl)).
Defined.

(** C4, as stated, fails. A scene write that is not accepted (the room
    holds the entry of a rejected join) still raises the version the store
    serves, from 1 to 2; and an accepted scene write on a room whose version
    is [2^53] leaves it at [2^53]. *)
Lemma version_claim_fails :
  (let s := roomService Scenarios.rejected_join in
   let o := UpdateElements "demo" [] None None in
   mutates "demo" o = true ∧ accepted o s = false ∧
   lookup_version "demo" s = Some 1 ∧
   lookup_version "demo" (exec o s) = Some 2) ∧
  (let s := Scenarios.saturated_store in
   let o := UpdateElements "demo" [] None None in
   mutates "demo" o = true ∧ accepted o s = true ∧
   lookup_version "demo" s = Some (2 ^ 53) ∧
   lookup_version "demo" (exec o s) = Some (2 ^ 53)).
Proof. cbv zeta. split_and!; vm_compute; reflexivity. Qed.

(** The spec's incremental-merge scenario: add [e1], then delete it by id. *)
Example add_then_delete :
  let d1 := (RoomDoc.incrementalUpdate
               (mkUpdates (Some [Demo.rectangle "e1"]) (Some []) (Some []))
               (mkDoc (fresh_room "demo") ∅)).1.1 in
  let d2 := (RoomDoc.incrementalUpdate
               (mkUpdates (Some []) (Some []) (Some [VStr "e1"])) d1).1.1 in
  elements (this d1) = [Demo.rectangle "e1"] ∧
  elements (this d2) = [] ∧
  version (this d2) = 3.
Proof. cbv zeta. split_and!; vm_compute; reflexivity. Qed.

Example demo_ops_version :
  lookup_version "demo" (exec_all Demo.demo_ops Demo.demo_store) = Some 3.
Proof. vm_compute. reflexivity. Qed.

Lemma presence_idempotent_witness :
  joined_id Demo.join_demo ≠ "" ∧
  ∃ r, activeRooms
         (roomService (handle "s1" (JoinRoom Demo.join_demo)
                         (handle "s1" (JoinRoom Demo.join_demo) Demo.empty_handler).1.1).1.1)
       !! joined_id Demo.join_demo = Some r ∧
       presence_count "s1" (activeUsers r) = 1%nat.
Proof.
  assert (joined_id Demo.join_demo ≠ "") as Hne by (vm_compute; discriminate).
  split; [exact Hne |].
  exact (proj1 presence_idempotent Demo.empty_handler "s1" Demo.join_demo Demo.join_demo
           Hne eq_refl).
Defined.


Lemma sanitized_before_persistence_witness :
  (zoom_value (get Demo.nan_zoom "zoom") = Some (VNum NaN) ∧
   ∃ a', sanitizeAppState Demo.nan_zoom = Returned a' ∧
         get a' "zoom" = VObj {["value" := num 1]} ∧
         get a' "scrollX" = num 0 ∧ get a' "scrollY" = num 0) ∧
  (well_keyed Demo.demo_store ∧ "demo" ≠ "" ∧
   get Demo.nan_zoom "zoom" = VNum NaN ∧
   sanitizeAppState Demo.nan_zoom = Returned Demo.nan_zoom_sanitized ∧
   Demo.nan_zoom_write
   = (Demo.nan_zoom_write.1.1, Demo.nan_zoom_write.1.2, Returned Demo.nan_zoom_room) ∧
   ∃ st, appState Demo.nan_zoom_room = Some st ∧
         get st "zoom" = VObj {["value" := num 1]}).
Proof.
  split.
  - split; [reflexivity |].
    exact (proj1 sanitized_before_persistence Demo.nan_zoom (VNum NaN) eq_refl).
  - assert ("demo" ≠ "") as Hne by discriminate.
    assert (sanitizeAppState Demo.nan_zoom = Returned Demo.nan_zoom_sanitized) as Hs
      by reflexivity.
    assert (Demo.nan_zoom_write
            = (Demo.nan_zoom_write.1.1, Demo.nan_zoom_write.1.2,
               Returned Demo.nan_zoom_room)) as Hw by (vm_compute; reflexivity).
    split; [exact well_keyed_demo_store |]. split; [exact Hne |]. split; [reflexivity |].
    split; [exact Hs |]. split; [exact Hw |].
    exact (proj1 (proj2 (proj2 (proj2 (proj2 sanitized_before_persistence))))
             Demo.demo_store _ "demo" [Demo.rectangle "e1"] Demo.nan_zoom
             Demo.nan_zoom_sanitized None _ _
             well_keyed_demo_store Hne eq_refl Hs Hw).
Defined.

Example nan_zoom_stored :
  let y := handle "s1"
             (SceneUpdate (mkScene [Demo.rectangle "e1"] (Some Demo.nan_zoom) None))
             Demo.joined_handler in
  y.1.2 = [ToRoom "demo" "s1"
             (SceneUpdateMsg [Demo.rectangle "e1"]
                (Some (<["scrollX" := num 0]>
                         (<["scrollY" := num 0]> {["zoom" := VObj {["value" := num 1]}]})))
                None)] ∧
  ((λ r, get (default ∅ (appState r)) "zoom") <$> db (roomService y.1.1) !! "demo")
  = Some (VObj {["value" := num 1]}).
Proof. vm_compute. split; reflexivity. Qed.
End Closed.

(** * Properties of the rest of the code *)

Import Housekeeping.

(** ** services/roomService.js: lookup, creation and pointers *)

Section Store.
Context `{Platform}.

Lemma getRoom_caches rid c s s1 t r :
  getRoom rid c s = (s1, t, Returned (Some r)) → activeRooms s1 !! rid = Some r.
Proof.
  unfold getRoom, logged, try_catch, bind at 1, gets.
  destruct (activeRooms s !! rid) as [r0|] eqn:E1.
  - intros [= <- _ <-]. exact E1.
  - unfold bind at 1. destruct (db s !! rid) as [r0|] eqn:E2.
    + unfold bind, ret, cache_set, modify. intros [= <- _ <-]. projs.
      apply lookup_insert_eq.
    + destruct c.
      * unfold bind. destruct (createRoom (Some rid) s) as [[s2 t2] [r2|e]]; projs.
        -- unfold ret, cache_set, modify. intros [= <- _ <-]. projs. apply lookup_insert_eq.
        -- unfold tell, throw. intros [=].
      * unfold bind, ret. intros [=].
Qed.

(** X1 ([getRoom]). A room that [getRoom] returned is served from the
    in-memory cache from then on: asking again, with either value of
    [createIfNotExists], returns the same room, logs nothing and leaves the
    cache, the stored documents and the id counter as they are. *)
Theorem getRoom_twice rid c c' s s1 t r :
  getRoom rid c s = (s1, t, Returned (Some r)) →
  getRoom rid c' s1 = (s1, [], Returned (Some r)).
Proof. intros E. apply getRoom_cached. by eapply getRoom_caches. Qed.

(** X2 ([createRoom]). Creating a room under a non-empty id is idempotent:
    once a call returned a room, that room is the stored document of the
    id, and a second call returns the same room without changing anything. *)
Theorem createRoom_idempotent rid s s1 t r :
  rid ≠ "" →
  createRoom (Some rid) s = (s1, t, Returned r) →
  db s1 !! rid = Some r ∧ createRoom (Some rid) s1 = (s1, [], Returned r).
Proof.
  intros Hne. destruct (db s !! rid) as [r0|] eqn:E.
  - rewrite (createRoom_existing rid s r0 Hne E). intros [= <- _ <-].
    split; [done | by apply createRoom_existing].
  - rewrite (createRoom_new rid s Hne E). intros [= <- _ <-]. projs.
    assert (<[rid := fresh_room rid]> (db s) !! rid = Some (fresh_room rid)) as E'
      by apply lookup_insert_eq.
    split; [done |].
    by rewrite (createRoom_existing rid (mkService _ _ _) (fresh_room rid) Hne E').
Qed.

(** X3 ([createRoom]). No call of [createRoom], whatever id it is given or
    generates and however it ends, replaces a stored document or the cache
    entry of a stored room. *)
Theorem createRoom_keeps_rooms (idopt : option string) (s : Service) k r :
  db s !! k = Some r →
  db (createRoom idopt s).1.1 !! k = Some r ∧
  activeRooms (createRoom idopt s).1.1 !! k = activeRooms s !! k.
Proof.
  intros Hk. rewrite createRoom_run. cbv zeta.
  set (id0 := if match idopt with Some r => String.eqb r "" | None => true end
              then nanoid (issued s) else default "" idopt).
  destruct (db s !! id0) as [r0|] eqn:E0; [| destruct (String.eqb id0 "") eqn:E1]; projs;
    try done.
  assert (id0 ≠ k) by congruence.
  by rewrite !lookup_insert_ne.
Qed.

Lemma set_first_pointer_absent sid p us :
  presence_count sid us = 0%nat → set_first_pointer sid p us = us.
Proof.
  unfold presence_count. induction us as [|u us IH]; [done |]. cbn.
  destruct (String.eqb (socketId u) sid); cbn; [done |]. intros E. by rewrite IH.
Qed.




(** X4 ([updateUserPointer]). A pointer update for a room that does not
    exist, or for a connection that no entry of the room's presence list
    (cached or stored) belongs to, changes neither the cache nor the stored
    documents, whatever the pointer. It is answered by what the cast of the
    pointer gives, which comes before the lookup: [true] and no log line if
    the pointer can be cast, [null] and one error line if it cannot. *)
Theorem updateUserPointer_unknown rid sid p s :
  (∀ r, lookup_room rid s = Some r ∨ db s !! rid = Some r →
        presence_count sid (activeUsers r) = 0%nat) →
  updateUserPointer rid sid p s
  = (s,
     match cast_pointer p with
     | Returned _ => []
     | Thrown e => [ConsoleError "Error updating user pointer:" (exn_message e)]
     end,
     Returned (match cast_pointer p with
               | Returned _ => Some true
               | Thrown _ => None
               end)).
Proof.
  intros Hno. rewrite updateUserPointer_run.
  destruct (cast_pointer p) as [p'|e]; [| done].
  assert (∀ r, presence_count sid (activeUsers r) = 0%nat →
               set_activeUsers (set_first_pointer sid p') r = r) as Hid.
  { intros [] E. unfold set_activeUsers. cbn in *. by rewrite set_first_pointer_absent. }
  rewrite !alter_id.
  - by destruct s.
  - intros r E. apply Hid, Hno. by right.
  - intros r E. apply Hid, Hno. left. by apply lookup_room_cached.
Qed.



End Store.
(** ** services/roomService.js: clean-up, statistics and read paths *)

Section Keeping.
Context `{Platform}.

Lemma cleanupEmptyRoom_run rid s :
  cleanupEmptyRoom rid s =
    match lookup_room rid s with
    | Some r =>
        if (length (activeUsers r) =? 0)%nat
        then (mkService (delete rid (activeRooms s)) (db s) (issued s), [], Returned tt)
        else (loaded rid s, [], Returned tt)
    | None => (s, [], Returned tt)
    end.
Proof.
  unfold cleanupEmptyRoom, try_catch, bind. rewrite getRoom_nocreate_run.
  destruct (lookup_room rid s) as [r|] eqn:E; projs; [| reflexivity].
  destruct (length (activeUsers r) =? 0)%nat; [| reflexivity].
  unfold cache_delete, modify, loaded. rewrite E. projs.
  rewrite delete_insert_eq. reflexivity.
Qed.

Lemma getRoom_nocreate_db rid s : db (getRoom rid false s).1.1 = db s.
Proof.
  rewrite getRoom_nocreate_run. destruct (lookup_room rid s) eqn:E; [| done].
  unfold loaded. rewrite E. done.
Qed.

(** X6 ([cleanupEmptyRoom]). The delayed clean-up of a known room never
    throws and never touches the stored documents or the cache entries of
    other rooms. If the room has no active user its cache entry is evicted,
    and the next lookup reloads what the document store holds for the id;
    if somebody has joined again in the meantime the room stays cached. *)
Theorem cleanupEmptyRoom_evicts rid s r :
  lookup_room rid s = Some r →
  let s' := (cleanupEmptyRoom rid s).1.1 in
  (cleanupEmptyRoom rid s).2 = Returned tt ∧
  db s' = db s ∧
  (∀ id, id ≠ rid → activeRooms s' !! id = activeRooms s !! id) ∧
  (activeUsers r = [] →
     activeRooms s' !! rid = None ∧
     (getRoom rid false s').2 = Returned (db s !! rid)) ∧
  (activeUsers r ≠ [] → activeRooms s' !! rid = Some r).
Proof.
  intros E. cbv zeta. rewrite cleanupEmptyRoom_run, E.
  destruct (activeUsers r) as [|u us] eqn:Eu; cbn [length Nat.eqb]; projs.
  - split; [done |]. split; [done |]. split.
    { intros id Hne. by rewrite lookup_delete_ne. }
    split; [| done]. intros _. split; [apply lookup_delete_eq |].
    rewrite getRoom_nocreate_run. unfold lookup_room. projs. rewrite lookup_delete_eq.
    by destruct (db s !! rid).
  - unfold loaded. rewrite E. projs. split; [done |]. split; [done |]. split.
    { intros id Hne. by rewrite lookup_insert_ne. }
    split; [done |]. intros _. rewrite lookup_insert_eq. f_equal.
    by apply resolved_lookup.
Qed.

(** X7 ([removeUser]). Removing a user logs at most an error and sets at
    most the clean-up timer; the one-minute clean-up of the room is
    scheduled exactly when the removal returned a room whose presence list
    is then empty. *)
Theorem removeUser_schedules_cleanup rid sid s :
  let y := RoomService.removeUser rid sid s in
  (∀ e, e ∈ y.1.2 → e = SetTimeout rid 60000 ∨ ∃ l d, e = ConsoleError l d) ∧
  (SetTimeout rid 60000 ∈ y.1.2 ↔
   ∃ r', y.2 = Returned (Some r') ∧ activeUsers r' = []).
Proof.
  cbv zeta. rewrite removeUser_service_run.
  destruct (lookup_room rid s) as [r|] eqn:E; projs.
  2:{ split; [intros e He; by apply elem_of_nil in He |].
      split; [intros He; by apply elem_of_nil in He | intros (r' & [=] & _)]. }
  pose proof (removeUser_post sid (mkDoc r (db s))) as P.
  unfold doc_post in P.
  destruct (RoomDoc.removeUser sid (mkDoc r (db s))) as [[d t] [[]|e]] eqn:Ed; projs;
    destruct P as (_ & _ & _ & _ & -> & _); cbn [app].
  - destruct (activeUsers (this d)) as [|u us] eqn:Eu; cbn [length Nat.eqb].
    + split.
      * intros e He. apply list_elem_of_singleton in He. by left.
      * split; [intros _; by eexists | intros _; apply list_elem_of_singleton; done].
    + split; [intros e He; by apply elem_of_nil in He |].
      split; [intros He; by apply elem_of_nil in He |].
      intros (r' & [= <-] & E'). congruence.
  - split.
    + intros e0 He. apply list_elem_of_singleton in He. right. by eexists _, _.
    + split; [intros He; apply list_elem_of_singleton in He; done | intros (r' & [=] & _)].
Qed.

(** X8 ([getRoom], [getRoomStats], [cleanupEmptyRoom]). The read paths
    never write to the document store; asked about a room that is neither
    cached nor stored they create nothing, log nothing, leave the whole
    state as it is and answer [null] (nothing, for the clean-up). *)
Theorem read_paths_never_write rid s :
  db (getRoom rid false s).1.1 = db s ∧
  db (getRoomStats rid s).1.1 = db s ∧
  db (cleanupEmptyRoom rid s).1.1 = db s ∧
  (lookup_room rid s = None →
   getRoom rid false s = (s, [], Returned None) ∧
   getRoomStats rid s = (s, [], Returned None) ∧
   cleanupEmptyRoom rid s = (s, [], Returned tt)).
Proof.
  assert (getRoomStats rid s
          = match lookup_room rid s with
            | Some r => (loaded rid s, [],
                         Returned (Some (mkStats (roomId r) (length (elements r))
                                                 (length (activeUsers r)) (version r))))
            | None => (s, [], Returned None)
            end) as Es.
  { unfold getRoomStats, try_catch, bind. rewrite getRoom_nocreate_run.
    by destruct (lookup_room rid s). }
  split; [apply getRoom_nocreate_db |].
  rewrite Es, cleanupEmptyRoom_run, getRoom_nocreate_run.
  destruct (lookup_room rid s) as [r|] eqn:E; projs.
  - unfold loaded. rewrite E. split; [done |]. split; [| done].
    by destruct (length (activeUsers r) =? 0)%nat.
  - done.
Qed.
(** X29 ([clearMemoryCache], [getActiveRoomsCount]). Clearing the in-memory
    cache leaves no room cached and does not touch the document store:
    every lookup that follows answers exactly what the store holds for the
    id, so a cached room that was never stored is gone. *)
Theorem clearMemoryCache_reloads rid (s : Service) :
  let s' := (clearMemoryCache s).1.1 in
  getActiveRoomsCount s' = 0%nat ∧ db s' = db s ∧
  (getRoom rid false s').2 = Returned (db s !! rid) ∧
  db (getRoom rid false s').1.1 = db s.
Proof.
  cbv zeta. unfold clearMemoryCache, modify, getActiveRoomsCount. projs.
  split; [apply map_size_empty |]. split; [done |].
  rewrite getRoom_nocreate_run. unfold lookup_room, loaded. projs.
  rewrite lookup_empty. unfold lookup_room. projs. rewrite lookup_empty.
  by destruct (db s !! rid).
Qed.

End Keeping.

(** ** models/Room.js: document methods and rejected saves *)

Section Documents.
Context `{Platform}.

Lemma roomSchema_valid_ext r r' :
  roomId r' = roomId r → activeUsers r' = activeUsers r →
  roomSchema_valid r' = roomSchema_valid r.
Proof. unfold roomSchema_valid. by intros -> ->. Qed.

Lemma set_first_pointer_find sid p us :
  find (λ u, String.eqb (socketId u) sid) us = None → set_first_pointer sid p us = us.
Proof.
  induction us as [|u us IH]; [done |]. cbn.
  destruct (String.eqb (socketId u) sid); [done |]. intros E. by rewrite IH.
Qed.

Lemma set_first_pointer_uncast sid p us :
  pointer_uncast p = true → (0 < presence_count sid us)%nat →
  forallb userSchema_valid (set_first_pointer sid p us) = false.
Proof.
  intros Hp. unfold presence_count.
  induction us as [|u us IH]; cbn [List.filter set_first_pointer]; [cbn; lia |].
  destruct (String.eqb (socketId u) sid); cbn [forallb].
  - intros _. unfold userSchema_valid at 1. cbn [pointer set_pointer].
    rewrite Hp. cbn [negb]. by rewrite andb_false_r.
  - intros Hpos. rewrite (IH Hpos). apply andb_false_r.
Qed.

Lemma updateUserPointer_doc_run sid p (d : Doc) :
  RoomMethods.updateUserPointer sid p d
  = save (mkDoc (set_activeUsers (set_first_pointer sid (pointer_set p)) (this d))
                (collection d)).
Proof.
  unfold RoomMethods.updateUserPointer, bind, gets, on_this, modify, ret.
  destruct (find _ (activeUsers (this d))) eqn:E; projs.
  - by destruct (save _) as [[? ?] ?].
  - unfold set_activeUsers. rewrite (set_first_pointer_find _ _ _ E).
    destruct d as [[] c].
    cbn [this collection activeUsers roomId elements appState files version].
    by destruct (save _) as [[? ?] ?].
Qed.

(** X9 ([updateElements], [updateUserPointer] of the Room model). The two
    document methods the service does not call do what the service does in
    their place: [updateElements] is the service's element write without
    view state and files, and [updateUserPointer] makes the change of the
    service's atomic pointer update (the pointer as cast, in the first entry
    of the connection, nothing for an unknown connection), then saves the
    document: the version stays, the stored document is replaced if and only
    if the save is accepted. A pointer that cannot be cast is not refused
    when it is set; for a listed connection it makes the save fail. *)
Theorem document_methods_agree els sid p (d : Doc) :
  RoomMethods.updateElements els d = update_body els None None d ∧
  (let x := RoomMethods.updateUserPointer sid p d in
   activeUsers (this x.1.1)
   = set_first_pointer sid (pointer_set p) (activeUsers (this d)) ∧
   (∀ p', cast_pointer p = Returned p' → pointer_set p = p') ∧
   (pointer_uncast p = true → (0 < presence_count sid (activeUsers (this d)))%nat →
    returned x.2 = false) ∧
   version (this x.1.1) = version (this d) ∧
   (returned x.2 = true →
      collection x.1.1 = <[roomId (this d) := this x.1.1]> (collection d)) ∧
   (returned x.2 = false → collection x.1.1 = collection d)).
Proof.
  split.
  { rewrite update_body_run.
    unfold RoomMethods.updateElements, bind, on_this, modify. projs.
    by destruct (save _) as [[? ?] ?]. }
  cbv zeta.
  assert (doc_post (λ v, v) (set_first_pointer sid (pointer_set p)) d
            (RoomMethods.updateUserPointer sid p d))
    as (_ & Hus & Hv & _ & _ & Hc).
  { rewrite updateUserPointer_doc_run. apply mutate_then_save_post; cbn; try done; lia. }
  split; [done |].
  split; [intros p' E; unfold pointer_set; by rewrite E |].
  split.
  { intros Hp Hpos. destruct Hc as [[E ?] | (_ & Hvalid & _)]; [done |].
    exfalso. revert Hvalid. unfold roomSchema_valid. rewrite Hus.
    replace (pointer_set p) with p
      by (revert Hp; unfold pointer_set, pointer_uncast; by destruct (cast_pointer p)).
    rewrite (set_first_pointer_uncast _ _ _ Hp Hpos), andb_false_r. done. }
  split; [lia |].
  destruct Hc as [[E ?] | (E & _ & _ & ?)]; rewrite E; split; done.
Qed.

Lemma doc_post_invalid dv (d : Doc) x :
  doc_post dv (λ us, us) d x → roomSchema_valid (this d) = false →
  returned x.2 = false ∧ collection x.1.1 = collection d.
Proof.
  intros (Hid & Hus & _ & _ & _ & [[? ?] | (_ & Hvalid & _)]) Hbad; [done |].
  rewrite (roomSchema_valid_ext _ _ Hid Hus) in Hvalid. congruence.
Qed.

(** X10 ([save] under [updateRoomElements] and [incrementalUpdate]). While
    a room holds a presence entry that the schema rejects (a missing color,
    say), every scene write and every incremental update on it fails and the
    stored documents stay as they are; the cached room nevertheless takes
    the new elements and the raised version of a scene write (one more
    than before while the version is below [2^53]), so cache and store
    drift apart. *)
Theorem invalid_entry_blocks_writes rid (s : Service) r els a f u :
  rid ≠ "" → lookup_room rid s = Some r → roomSchema_valid r = false →
  let y := updateRoomElements rid els a f s in
  let z := RoomService.incrementalUpdate rid u s in
  returned y.2 = false ∧ db y.1.1 = db s ∧
  returned z.2 = false ∧ db z.1.1 = db s ∧
  ∃ r', activeRooms y.1.1 !! rid = Some r' ∧ elements r' = els ∧
        version r' = plus_one (version r) ∧
        (- 2 ^ 53 <= version r < 2 ^ 53 → version r' = version r + 1).
Proof.
  intros Hne E Hbad. cbv zeta.
  rewrite updateRoomElements_shape, incrementalUpdate_shape, !room_op_run by done.
  cbv zeta. rewrite (resolved_lookup _ _ _ E).
  assert (db (loaded rid s) = db s) as -> by (unfold loaded; by rewrite E).
  destruct (doc_post_invalid plus_one (mkDoc r (db s)) _ (update_body_post els a f _) Hbad)
    as [Hy1 Hy2].
  destruct (doc_post_invalid plus_one (mkDoc r (db s)) _ (incrementalUpdate_post u _) Hbad)
    as [Hz1 Hz2].
  destruct (RoomDoc.incrementalUpdate u (mkDoc r (db s))) as [[dz tz] [[]|ez]];
    projs; [done |].
  split; [| split; [| split; [done | split; [done |]]]].
  - by destruct (update_body els a f (mkDoc r (db s))) as [[dy ty] [[]|ey]].
  - by destruct (update_body els a f (mkDoc r (db s))) as [[dy ty] [[]|ey]].
  - exists (this (update_body els a f (mkDoc r (db s))).1.1).
    split.
    { destruct (update_body els a f (mkDoc r (db s))) as [[dy ty] [[]|ey]]; projs;
        apply lookup_insert_eq. }
    rewrite update_body_run, save_run. projs.
    assert (roomSchema_valid
              (set_version plus_one
                 (match f with Some fl => set_files (λ _, fl) | None => λ r0, r0 end
                    (match a with
                     | Some st => set_appState (λ current, Some (st ∪ default ∅ current))
                     | None => λ r0, r0
                     end (set_elements (λ _, els) r)))) = false) as ->.
    { rewrite <- Hbad. apply roomSchema_valid_ext; by destruct a, f. }
    projs. split; [by destruct a, f |]. split; [by destruct a, f |].
    intros Hv. rewrite <- (plus_one_exact _ Hv). by destruct a, f.
Qed.

(** X11 ([addUser], [removeUser] of the Room model). Leaving undoes
    joining: for a connection that was not listed, [removeUser] after
    [addUser] gives back the presence list from before the join, whether or
    not the join's save was accepted; and if the room was valid before the
    join, the leave's save is accepted and stores the restored document. *)
Theorem leave_undoes_join sid name colour (d : Doc) :
  presence_count sid (activeUsers (this d)) = 0%nat →
  let joined := (RoomDoc.addUser sid name colour d).1.1 in
  let left := RoomDoc.removeUser sid joined in
  activeUsers (this left.1.1) = activeUsers (this d) ∧
  (roomSchema_valid (this d) = true →
     left.2 = Returned tt ∧
     collection left.1.1 !! roomId (this d) = Some (this left.1.1)).
Proof.
  intros Hno. cbv zeta.
  destruct (addUser_post sid name colour d) as (Hid & Hus & _).
  rewrite (presence_count_find _ _ Hno) in Hus.
  set (j := (RoomDoc.addUser sid name colour d).1.1) in *.
  set (m := set_activeUsers (List.filter (λ u, negb (String.eqb (socketId u) sid)))
              (this j)).
  assert (roomId m = roomId (this d)) as Hm1 by (rewrite <- Hid; by destruct (this j)).
  assert (activeUsers m = activeUsers (this d)) as Hm2.
  { transitivity (List.filter (λ u, negb (String.eqb (socketId u) sid))
                    (activeUsers (this j))); [by destruct (this j) |].
    rewrite Hus, List.filter_app, (presence_count_unchanged _ _ Hno). cbn.
    rewrite String.eqb_refl. cbn. apply app_nil_r. }
  rewrite removeUser_run, save_run. fold m. projs.
  split.
  - destruct (roomSchema_valid m); projs; [by rewrite pre_save_activeUsers | done].
  - intros Hvalid. rewrite (roomSchema_valid_ext _ _ Hm1 Hm2), Hvalid. projs.
    split; [done |]. rewrite <- Hm1. apply lookup_insert_eq.
Qed.

End Documents.

(** ** sockets/socketHandler.js: what the listeners send and keep *)

Section Listeners.
Context `{Platform}.

Lemma try_catch_returns {S} (m : M S unit) (h : exn → M S unit) s :
  (∀ e s1, (h e s1).2 = Returned tt) → (try_catch m h s).2 = Returned tt.
Proof.
  intros Hh. unfold try_catch. destruct (m s) as [[s1 t1] [[]|e]]; [done |].
  specialize (Hh e s1). by destruct (h e s1) as [[s2 t2] r].
Qed.

(** X12 ([handleConnection] listeners, [handleLeaveRoom], [handleDisconnect]).
    No listener lets an exception escape: whatever the event, the payload
    and the state of the handler and the store, the listener returns. *)
Theorem listeners_never_throw sid (ev : event) (h : Handler) :
  (handle sid ev h).2 = Returned tt.
Proof.
  assert ((handleLeaveRoom sid h).2 = Returned tt) as Hl.
  { rewrite handleLeaveRoom_run. destruct (current_room sid h); [| done].
    cbv zeta. by destruct (RoomService.removeUser _ _ _).2. }
  destruct ev; cbn [handle]; try exact Hl;
    apply try_catch_returns; intros e s1; reflexivity.
Qed.

Lemma pointer_update_run sid room data h :
  current_room sid h = Some room →
  on_pointer_update sid data h
  = (mkHandler (socketRoomMap h)
       (updateUserPointer room sid (validated pointerSchema data) (roomService h)).1.1,
     validation_log pointerSchema data ++
       match cast_pointer (validated pointerSchema data) with
       | Returned _ => []
       | Thrown e => [ConsoleError "Error updating user pointer:" (exn_message e)]
       end ++
       [ToRoom room sid (PointerUpdateMsg sid (validated pointerSchema data))],
     Returned tt).
Proof.
  intros E. unfold on_pointer_update, try_catch, bind at 1, gets. rewrite E.
  rewrite (bind_run_trace _ _ _ _ _ _ (validate_run _ _ _)).
  rewrite updateUserPointer_run. unfold bind, svc, zoom, tell. projs.
  rewrite updateUserPointer_run.
  by destruct (cast_pointer (validated pointerSchema data)).
Qed.

Lemma idle_status_run sid data h :
  on_idle_status sid data h
  = match current_room sid h with
    | None => (h, [], Returned tt)
    | Some room => (h, [ToRoom room sid (IdleStatusMsg sid (get data "idle"))], Returned tt)
    end.
Proof.
  unfold on_idle_status, try_catch, bind, gets.
  by destruct (current_room sid h).
Qed.

(** X13 ([pointer-update], [idle-status]). Presence signals are relayed
    and nothing else: from a connection that is in no room both are dropped
    without a reply and without a trace; from a connection in a room the
    idle flag goes to the room and the handler state stays exactly as it
    was (the flag is recorded nowhere), and a pointer goes to the room once,
    as validated, after at most a validation warning and, when the store
    cannot cast the pointer to numbers, the store's error line; there is no
    message to the sender and no change to the connection map, whatever the
    store made of it. *)
Theorem presence_signals_relayed sid data h :
  match current_room sid h with
  | None =>
      on_pointer_update sid data h = (h, [], Returned tt) ∧
      on_idle_status sid data h = (h, [], Returned tt)
  | Some room =>
      on_idle_status sid data h
      = (h, [ToRoom room sid (IdleStatusMsg sid (get data "idle"))], Returned tt) ∧
      (on_pointer_update sid data h).1.2
      = validation_log pointerSchema data ++
        match cast_pointer (validated pointerSchema data) with
        | Returned _ => []
        | Thrown e => [ConsoleError "Error updating user pointer:" (exn_message e)]
        end ++
        [ToRoom room sid (PointerUpdateMsg sid (validated pointerSchema data))] ∧
      socketRoomMap (on_pointer_update sid data h).1.1 = socketRoomMap h
  end.
Proof.
  rewrite idle_status_run.
  destruct (current_room sid h) as [room|] eqn:E.
  - by rewrite (pointer_update_run _ _ _ _ E).
  - split; [| done]. unfold on_pointer_update, try_catch, bind, gets. by rewrite E.
Qed.

Lemma current_room_some sid h room :
  current_room sid h = Some room → room ≠ "" ∧ socketRoomMap h !! sid = Some room.
Proof.
  unfold current_room. destruct (socketRoomMap h !! sid) as [r|]; [| done].
  destruct (String.eqb r "") eqn:E; [done |]. intros [= <-].
  split; [| done]. intros ->. by rewrite String.eqb_refl in E.
Qed.

Lemma incremental_update_run sid room data h :
  current_room sid h = Some room →
  let v := validated incrementalUpdateSchema data in
  let y := RoomService.incrementalUpdate room v (roomService h) in
  on_incremental_update sid data h
  = (mkHandler (socketRoomMap h) y.1.1,
     validation_log incrementalUpdateSchema data ++ y.1.2 ++
       match y.2 with
       | Returned _ => [ToRoom room sid (IncrementalUpdateMsg v)]
       | Thrown e => [ConsoleError "Error in incremental update:" (exn_message e);
                      Emit sid (ErrorMsg (exn_message e))]
       end,
     Returned tt).
Proof.
  intros E. cbv zeta. unfold on_incremental_update, try_catch, bind at 1, gets. rewrite E.
  rewrite (bind_run_trace _ _ _ _ _ _ (validate_run _ _ _)).
  unfold bind, svc, zoom, tell. projs.
  destruct (RoomService.incrementalUpdate room _ (roomService h)) as [[s1 t1] [r|e]];
    projs; by rewrite ?app_nil_r, <- ?app_assoc.
Qed.

(** X14 ([incremental-update]). An incremental update reaches the other
    clients only after the store accepted it: if [incrementalUpdate]
    returns, the validated delta is broadcast to the room and nothing is
    sent to the sender; if it throws, nothing is broadcast, the error is
    logged by the service and by the listener and reported to the sender,
    and no stored document has changed beyond the room having been loaded
    or created. *)
Theorem incremental_update_relayed_iff_stored sid room data h :
  current_room sid h = Some room →
  let v := validated incrementalUpdateSchema data in
  let y := RoomService.incrementalUpdate room v (roomService h) in
  let x := on_incremental_update sid data h in
  match y.2 with
  | Returned r =>
      x.1.2 = validation_log incrementalUpdateSchema data ++
              [ToRoom room sid (IncrementalUpdateMsg v)] ∧
      activeRooms (roomService x.1.1) !! room = Some r
  | Thrown e =>
      x.1.2 = validation_log incrementalUpdateSchema data ++
              [ConsoleError "Error in incremental update:" (exn_message e);
               ConsoleError "Error in incremental update:" (exn_message e);
               Emit sid (ErrorMsg (exn_message e))] ∧
      db (roomService x.1.1) = db (loaded room (roomService h))
  end.
Proof.
  intros E. cbv zeta. rewrite (incremental_update_run _ _ _ _ E). cbv zeta.
  destruct (current_room_some _ _ _ E) as [Hne _].
  pose proof (room_op_outcome "Error in incremental update:" room
                (RoomDoc.incrementalUpdate (validated incrementalUpdateSchema data))
                (roomService h) plus_one (λ us, us) Hne
                (incrementalUpdate_post _)) as P.
  cbv zeta in P. rewrite <- incrementalUpdate_shape in P.
  destruct (RoomService.incrementalUpdate room _ (roomService h)) as [[s1 t1] [r|e]];
    projs; destruct P as [-> P]; done.
Qed.

(** X15 ([scene-update]). A scene update whose view state passes the zoom
    clean-up is broadcast before and independently of the store write: the
    room receives the cleaned scene exactly once, the sender receives
    nothing, and a failing write only adds the service's and the listener's
    log lines. *)
Theorem scene_update_relayed_before_stored sid room data h a' :
  current_room sid h = Some room →
  let v := validated sceneUpdateSchema data in
  match sp_appState v with
  | Some a => obind (sanitizeAppState a) (λ a', Returned (Some a'))
  | None => Returned None
  end = Returned a' →
  let y := updateRoomElements room (sp_elements v) a' (sp_files v) (roomService h) in
  (on_scene_update sid data h).1.2
  = validation_log sceneUpdateSchema data ++
    [ToRoom room sid (SceneUpdateMsg (sp_elements v) a' (sp_files v))] ++
    match y.2 with
    | Returned _ => []
    | Thrown e => [ConsoleError "Error updating room elements:" (exn_message e);
                   ConsoleError "db save error:" (exn_message e)]
    end.
Proof.
  intros E v Ha. cbv zeta. rewrite (scene_update_relay _ _ _ _ E). cbv zeta.
  fold v. rewrite Ha. projs.
  destruct (current_room_some _ _ _ E) as [Hne _].
  pose proof (room_op_outcome "Error updating room elements:" room
                (update_body (sp_elements v) a' (sp_files v))
                (roomService h) plus_one (λ us, us) Hne
                (update_body_post _ _ _)) as P.
  cbv zeta in P. rewrite <- updateRoomElements_shape in P.
  destruct (updateRoomElements room _ _ _ (roomService h)) as [[s1 t1] [r|e]];
    projs; destruct P as [-> P]; done.
Qed.

(** X16 ([handleLeaveRoom]). After a leave the cached room, if there is
    one, lists the connection no more, however the removal ended. If the
    store's [removeUser] returned, the connection is out of the connection
    map and the room is told [user-left] last; if it threw, the error is
    logged, nobody is told and the connection is still mapped to the
    room. *)
Theorem leave_room_outcome sid room h :
  current_room sid h = Some room →
  let y := RoomService.removeUser room sid (roomService h) in
  let x := handleLeaveRoom sid h in
  (∀ r, activeRooms (roomService x.1.1) !! room = Some r →
        presence_count sid (activeUsers r) = 0%nat) ∧
  match y.2 with
  | Returned _ =>
      current_room sid x.1.1 = None ∧
      x.1.2 = y.1.2 ++ [SocketLeave sid room; ToRoom room sid (UserLeft sid)]
  | Thrown e =>
      current_room sid x.1.1 = Some room ∧
      x.1.2 = y.1.2 ++ [ConsoleError "Error leaving room:" (exn_message e)]
  end.
Proof.
  intros E. cbv zeta. rewrite handleLeaveRoom_run, E. cbv zeta.
  assert (∀ r, activeRooms (RoomService.removeUser room sid (roomService h)).1.1 !! room
               = Some r → presence_count sid (activeUsers r) = 0%nat) as Hc.
  { intros r Hr. destruct (lookup_room room (roomService h)) as [r0|] eqn:E0.
    - destruct (removeUser_cache room sid _ _ E0) as (r' & Hr' & Hus).
      rewrite Hr in Hr'. injection Hr' as ->. rewrite Hus.
      apply presence_count_removed.
    - revert Hr. rewrite removeUser_service_run, E0. projs.
      unfold lookup_room in E0. by destruct (activeRooms (roomService h) !! room). }
  destruct (RoomService.removeUser room sid (roomService h)) as [[s1 t1] [r|e]]; projs.
  - split; [done |]. split; [| done]. unfold current_room. projs.
    by rewrite lookup_delete_eq.
  - split; [done |]. split; [| done]. unfold current_room in *. by projs.
Qed.

Lemma find_presence_count sid name colour us :
  presence_count sid
    (match find (λ u, String.eqb (socketId u) sid) us with
     | Some _ => us
     | None => us ++ [userSchema_cast sid name colour]
     end) ≠ 0%nat.
Proof.
  destruct (find _ us) eqn:E.
  - intros E0. by rewrite (presence_count_find _ _ E0) in E.
  - by rewrite presence_count_added.
Qed.

Lemma join_state sid data h :
  (on_join_room sid data h).1.1
  = mkHandler (<[sid := joined_id data]> (socketRoomMap (handleLeaveRoom sid h).1.1))
      (RoomService.addUser (joined_id data) sid (get (joined_user data) "username")
         (get (joined_user data) "color") (roomService (handleLeaveRoom sid h).1.1)).1.1.
Proof.
  rewrite on_join_room_run. cbv zeta.
  by destruct (RoomService.addUser _ _ _ _ _).2.
Qed.

Lemma leave_service sid room h :
  current_room sid h = Some room →
  roomService (handleLeaveRoom sid h).1.1
  = (RoomService.removeUser room sid (roomService h)).1.1.
Proof.
  intros E. rewrite handleLeaveRoom_run, E. cbv zeta.
  by destruct (RoomService.removeUser _ _ _).2.
Qed.

Lemma current_room_set sid rid m s :
  rid ≠ "" → current_room sid (mkHandler (<[sid := rid]> m) s) = Some rid.
Proof.
  intros Hne. unfold current_room. projs. rewrite lookup_insert_eq.
  destruct (String.eqb rid "") eqn:E; [| done]. by apply String.eqb_eq in E.
Qed.

(** X17 ([join-room] over [handleLeaveRoom]). A connection that joins a
    room while it is in another one changes rooms: afterwards it is mapped
    to the new room, the cached old room lists it no more and the cached
    new room lists it. *)
Theorem join_switches_room sid data h a ra :
  current_room sid h = Some a → joined_id data ≠ "" → a ≠ joined_id data →
  lookup_room a (roomService h) = Some ra →
  let h' := (on_join_room sid data h).1.1 in
  current_room sid h' = Some (joined_id data) ∧
  (∃ ra', activeRooms (roomService h') !! a = Some ra' ∧
          presence_count sid (activeUsers ra') = 0%nat) ∧
  (∃ rb, activeRooms (roomService h') !! joined_id data = Some rb ∧
         presence_count sid (activeUsers rb) ≠ 0%nat).
Proof.
  intros Ea Hne Hab Hra. cbv zeta. rewrite join_state, (leave_service _ _ _ Ea).
  split; [by apply current_room_set |]. projs.
  set (s1 := (RoomService.removeUser a sid (roomService h)).1.1).
  split.
  - destruct (removeUser_cache a sid _ _ Hra) as (ra' & Hc & Hus). fold s1 in Hc.
    exists ra'. split; [| rewrite Hus; apply presence_count_removed].
    rewrite addUser_shape, room_op_run by done. cbv zeta.
    destruct (RoomDoc.addUser _ _ _ _).2; projs; by rewrite lookup_insert_ne.
  - rewrite addUser_shape.
    destruct (room_op_cache "Error adding user:" (joined_id data)
                (RoomDoc.addUser sid (get (joined_user data) "username")
                   (get (joined_user data) "color")) s1 _ _ Hne
                (addUser_post _ _ _)) as (rb & Hc & Hus).
    exists rb. split; [done |]. rewrite Hus. apply find_presence_count.
Qed.

Lemma presence_listed sid us :
  presence_count sid us ≠ 0%nat →
  ∃ name colour, (sid, name, colour) ∈ map (λ u, (socketId u, username u, color u)) us.
Proof.
  intros Hc. destruct (presence_count_found _ _ Hc) as [u Hu].
  apply find_some in Hu as [Hin Heq]. apply String.eqb_eq in Heq. subst sid.
  exists (username u), (color u).
  apply list_elem_of_In, in_map_iff. by exists u.
Qed.

(** X18 ([join-room]). The [scene-init] a joining connection receives
    lists the connection itself among the users. *)
Theorem scene_init_lists_joiner sid data h t els a f users m :
  joined_id data ≠ "" →
  (on_join_room sid data h).1.2 = t ++ [Emit sid (SceneInit els a f users); m] →
  ∃ name colour, (sid, name, colour) ∈ users.
Proof.
  intros Hne. rewrite on_join_room_run. cbv zeta.
  set (s1 := roomService (handleLeaveRoom sid h).1.1).
  set (name := get (joined_user data) "username").
  set (colour := get (joined_user data) "color").
  pose proof (room_op_outcome "Error adding user:" (joined_id data)
                (RoomDoc.addUser sid name colour) s1 _ _ Hne (addUser_post _ _ _)) as P.
  destruct (room_op_cache "Error adding user:" (joined_id data)
              (RoomDoc.addUser sid name colour) s1 _ _ Hne (addUser_post _ _ _))
    as (rb & Hc & Hus).
  cbv zeta in P. rewrite <- addUser_shape in P, Hc.
  destruct (RoomService.addUser (joined_id data) sid name colour s1) as [[s2 t2] [r|e]];
    projs; rewrite !app_assoc;
    change (?l ++ [?x; ?y]) with (l ++ [x] ++ [y]); rewrite !app_assoc;
    intros E; apply app_inj_tail in E as [E _]; apply app_inj_tail in E as [_ E];
    [| done].
  destruct P as [_ P]. rewrite P in Hc. injection Hc as <-.
  injection E as _ _ _ <-. apply presence_listed. rewrite Hus.
  apply find_presence_count.
Qed.

(** X19 ([join-room], [addUser]). A join whose presence entry the schema
    rejects is not rolled back: the sender gets the error, no stored
    document changes beyond the room having been loaded or created, but the
    connection stays mapped to the room and the rejected entry stays in the
    cached room. *)
Theorem rejected_join_stays_registered sid data h :
  let rid := joined_id data in
  let entry := userSchema_cast sid (get (joined_user data) "username")
                 (get (joined_user data) "color") in
  let r0 := resolved rid (roomService h) in
  rid ≠ "" → current_room sid h = None →
  presence_count sid (activeUsers r0) = 0%nat →
  roomSchema_valid (set_activeUsers (λ us, us ++ [entry]) r0) = false →
  let x := on_join_room sid data h in
  current_room sid x.1.1 = Some rid ∧
  activeRooms (roomService x.1.1) !! rid
  = Some (set_activeUsers (λ us, us ++ [entry]) r0) ∧
  db (roomService x.1.1) = db (loaded rid (roomService h)) ∧
  x.1.2 = join_log data ++
          [SocketJoin sid rid;
           ConsoleError "Error adding user:" "Room validation failed";
           ConsoleError "Error joining room:" "Room validation failed";
           Emit sid (ErrorMsg "Room validation failed")].
Proof.
  intros rid entry r0 Hne Hcur Hno Hbad. cbv zeta.
  rewrite on_join_room_run. cbv zeta. rewrite (handleLeaveRoom_none _ _ Hcur). projs.
  fold rid. rewrite addUser_shape, room_op_run by done. cbv zeta. fold r0.
  rewrite addUser_run. projs. rewrite (presence_count_find _ _ Hno), save_run. projs.
  fold entry. rewrite Hbad. projs.
  split; [by apply current_room_set |]. split; [apply lookup_insert_eq |].
  split; [done |]. reflexivity.
Qed.

End Listeners.

(** ** routes/api.js *)

Section Routes.
Context `{Platform}.
Import Api.

Lemma get_room_run param s :
  get_room param s =
    let rid := validated roomIdSchema param in
    match lookup_room rid s with
    | None => (s, validation_log roomIdSchema param,
               Returned (mkResponse 404 (Failure "Room not found")))
    | Some r =>
        (loaded rid s, validation_log roomIdSchema param,
         Returned (mkResponse 200
                     (RoomData (roomId r) (elements r) (appState r) (files r)
                               (length (activeUsers r)) (version r))))
    end.
Proof.
  cbv zeta. unfold get_room, guarded, try_catch.
  rewrite (bind_run_trace _ _ _ _ _ _ (validate_run _ _ _)).
  unfold bind. rewrite getRoom_nocreate_run.
  destruct (lookup_room _ s); unfold ret; cbn [app]; by rewrite app_nil_r.
Qed.

Lemma getRoomStats_run rid s :
  getRoomStats rid s =
    match lookup_room rid s with
    | Some r => (loaded rid s, [],
                 Returned (Some (mkStats (roomId r) (length (elements r))
                                         (length (activeUsers r)) (version r))))
    | None => (s, [], Returned None)
    end.
Proof.
  unfold getRoomStats, try_catch, bind. rewrite getRoom_nocreate_run.
  by destruct (lookup_room rid s).
Qed.

Lemma get_room_stats_run param s :
  get_room_stats param s =
    let rid := validated roomIdSchema param in
    match lookup_room rid s with
    | None => (s, validation_log roomIdSchema param,
               Returned (mkResponse 404 (Failure "Room not found")))
    | Some r =>
        (loaded rid s, validation_log roomIdSchema param,
         Returned (mkResponse 200
                     (StatsData (mkStats (roomId r) (length (elements r))
                                         (length (activeUsers r)) (version r)))))
    end.
Proof.
  cbv zeta. unfold get_room_stats, guarded, try_catch.
  rewrite (bind_run_trace _ _ _ _ _ _ (validate_run _ _ _)).
  unfold bind. rewrite getRoomStats_run.
  destruct (lookup_room _ s); unfold ret; cbn [app]; by rewrite app_nil_r.
Qed.

Lemma delete_room_run param s :
  delete_room param s =
    let rid := validated roomIdSchema param in
    match lookup_room rid s with
    | None => (s, validation_log roomIdSchema param,
               Returned (mkResponse 404 (Failure "Room not found")))
    | Some r =>
        if (0 <? length (activeUsers r))%nat
        then (loaded rid s, validation_log roomIdSchema param,
              Returned (mkResponse 400 (Failure "Cannot delete room with active users")))
        else (mkService (activeRooms (loaded rid s)) (delete (roomId r) (db s)) (issued s),
              validation_log roomIdSchema param,
              Returned (mkResponse 200 (Message "Room deleted successfully")))
    end.
Proof.
  cbv zeta. unfold delete_room, guarded, try_catch.
  rewrite (bind_run_trace _ _ _ _ _ _ (validate_run _ _ _)).
  unfold bind. rewrite getRoom_nocreate_run.
  destruct (lookup_room _ s) as [r|] eqn:E; unfold ret, modify; cbn [app];
    [| by rewrite app_nil_r].
  destruct (0 <? length (activeUsers r))%nat; cbn [app]; rewrite app_nil_r; [done |].
  unfold loaded. rewrite E. reflexivity.
Qed.

(** X20 ([DELETE /rooms/:roomId]). Deleting answers 404 for an unknown
    room and changes nothing; it answers 400 and keeps the stored document
    while the room has active users; otherwise it answers 200 and removes
    the stored document. The cache entry is not evicted: the deleted room
    is still cached, and [GET /rooms/:roomId] still answers 200 with its
    data. *)
Theorem delete_room_outcome param s :
  let rid := validated roomIdSchema param in
  let x := delete_room param s in
  well_keyed s →
  match lookup_room rid s with
  | None =>
      x = (s, validation_log roomIdSchema param,
           Returned (mkResponse 404 (Failure "Room not found")))
  | Some r =>
      if (0 <? length (activeUsers r))%nat
      then x.2 = Returned (mkResponse 400 (Failure "Cannot delete room with active users")) ∧
           db x.1.1 = db s
      else x.2 = Returned (mkResponse 200 (Message "Room deleted successfully")) ∧
           db x.1.1 = delete rid (db s) ∧
           activeRooms x.1.1 !! rid = Some r ∧
           (get_room param x.1.1).2
           = Returned (mkResponse 200
                         (RoomData rid (elements r) (appState r) (files r) 0 (version r)))
  end.
Proof.
  intros rid x Hwk. subst x. rewrite delete_room_run. cbv zeta. fold rid.
  destruct (lookup_room rid s) as [r|] eqn:E; [| done].
  assert (roomId r = rid) as Hrid.
  { unfold lookup_room in E. destruct Hwk as [Hc Hd].
    destruct (activeRooms s !! rid) as [r0|] eqn:E1.
    - injection E as ->. by apply (Hc _ _ E1).
    - by apply Hd. }
  destruct (0 <? length (activeUsers r))%nat eqn:El; projs.
  - split; [done |]. unfold loaded. by rewrite E.
  - rewrite Hrid. split; [done |]. split; [done |].
    assert (<[rid := resolved rid s]> (activeRooms s) !! rid = Some r) as Hc.
    { rewrite lookup_insert_eq. f_equal. by apply resolved_lookup. }
    split; [done |].
    rewrite get_room_run. cbv zeta. fold rid.
    match goal with
    | |- context [lookup_room rid ?s'] =>
        assert (lookup_room rid s' = Some r) as -> by (apply lookup_room_cached; exact Hc)
    end.
    projs. rewrite Hrid.
    apply Nat.ltb_ge in El. by replace (length (activeUsers r)) with 0%nat by lia.
Qed.

(** X21 ([POST /rooms]). Creating a room under a given id is idempotent
    over the route as well: once a request was answered 201, repeating it
    gives the same answer and changes nothing in the store. *)
Theorem post_rooms_idempotent (r : string) s room :
  r ≠ "" → validated roomIdSchema r ≠ "" →
  let x := post_rooms (Some r) s in
  x.2 = Returned (mkResponse 201 (Created room)) →
  post_rooms (Some r) x.1.1 = (x.1.1, validation_log roomIdSchema r, x.2).
Proof.
  intros Hr Hv. cbv zeta.
  assert (∀ s0, post_rooms (Some r) s0
                = let y := createRoom (Some (validated roomIdSchema r)) s0 in
                  match y.2 with
                  | Returned rm =>
                      (y.1.1, validation_log roomIdSchema r ++ y.1.2,
                       Returned (mkResponse 201 (Created (roomId rm))))
                  | Thrown e =>
                      (y.1.1, validation_log roomIdSchema r ++ y.1.2 ++
                              [ConsoleError "Error creating room:" (exn_message e)],
                       Returned (mkResponse 400 (Failure (exn_message e))))
                  end) as Hrun.
  { intros s0. cbv zeta. unfold post_rooms, guarded, try_catch.
    apply String.eqb_neq in Hr. rewrite Hr.
    assert ((v <- validate roomIdSchema r ;; ret (Some v))%js s0
            = (s0, validation_log roomIdSchema r,
               Returned (Some (validated roomIdSchema r)))) as Ev.
    { rewrite (bind_run_trace _ _ _ _ _ _ (validate_run _ _ _)).
      unfold ret. by rewrite app_nil_r. }
    rewrite (bind_run_trace _ _ _ _ _ _ Ev).
    unfold ret, tell, bind.
    destruct (createRoom _ s0) as [[s1 t1] [rm|e]]; cbn [fst snd app];
      by rewrite ?app_nil_r, <- ?app_assoc. }
  rewrite (Hrun s). cbv zeta.
  destruct (createRoom (Some (validated roomIdSchema r)) s) as [[s1 t1] [rm|e]] eqn:Ec;
    projs; [| done].
  intros _. rewrite (Hrun s1). cbv zeta.
  destruct (createRoom_idempotent _ _ _ _ _ Hv Ec) as [_ ->]. projs.
  by rewrite app_nil_r.
Qed.

(** X22 ([GET /rooms/:roomId], [GET /rooms/:roomId/stats], [getRoomStats]).
    The two read routes agree: for an unknown room both answer 404 and
    leave the state untouched (no room is created); for a known room both
    answer 200, the statistics are the id, the element count, the user count
    and the version of the data the other route returns, and no stored
    document changes. *)
Theorem room_routes_agree param s :
  let rid := validated roomIdSchema param in
  match lookup_room rid s with
  | None =>
      get_room param s = (s, validation_log roomIdSchema param,
                          Returned (mkResponse 404 (Failure "Room not found"))) ∧
      get_room_stats param s = (s, validation_log roomIdSchema param,
                                Returned (mkResponse 404 (Failure "Room not found")))
  | Some r =>
      (get_room param s).2
      = Returned (mkResponse 200 (RoomData (roomId r) (elements r) (appState r) (files r)
                                           (length (activeUsers r)) (version r))) ∧
      (get_room_stats param s).2
      = Returned (mkResponse 200 (StatsData (mkStats (roomId r) (length (elements r))
                                                     (length (activeUsers r)) (version r)))) ∧
      db (get_room param s).1.1 = db s ∧ db (get_room_stats param s).1.1 = db s
  end.
Proof.
  cbv zeta. rewrite get_room_run, get_room_stats_run. cbv zeta.
  destruct (lookup_room _ s) eqn:E; projs; [| done].
  unfold loaded. rewrite E. done.
Qed.

End Routes.

(** ** cache.js: the reconnect strategy *)

Section Reconnect.
Import Cache.

(** X28 ([reconnectStrategy]). The Redis client gives up, with one error
    line, from the eleventh retry on; up to the tenth it waits a hundred
    milliseconds per retry made, so the wait never exceeds one second and
    the cap of three seconds in the code is never reached. *)
Theorem reconnectStrategy_bounds (retries : Z) :
  0 ≤ retries →
  (10 < retries →
     reconnectStrategy retries
     = ([ConsoleError "redis max retries reached" ""], GiveUp "max retries reached")) ∧
  (retries ≤ 10 →
     reconnectStrategy retries = ([], RetryAfter (retries * 100)) ∧
     0 ≤ retries * 100 ≤ 1000).
Proof.
  intros H0. unfold reconnectStrategy. split; intros Hr.
  - apply Z.ltb_lt in Hr. by rewrite Hr.
  - assert ((10 <? retries) = false) as -> by (by apply Z.ltb_ge).
    split; [| lia]. do 2 f_equal. lia.
Qed.

End Reconnect.

(** ** frontend-example/src/App.jsx *)

Section ClientSide.
Context `{Platform}.
Variable getSceneVersion : list obj → Z.
Import Client.

Abbreviation applyUpdate := (Client.applyUpdate getSceneVersion).
Abbreviation on_scene_init := (Client.on_scene_init getSceneVersion).
Abbreviation handleChange := (Client.handleChange getSceneVersion).

Lemma safeZoom_safe zoom z :
  safeZoom zoom = Returned z → isNaN z || le0 z = false.
Proof.
  unfold safeZoom.
  destruct (if String.eqb (typeof zoom) "object" then _ else _) as [zv|e]; [| done].
  cbn [obind]. intros [= <-]. apply safe_zoom_ok.
Qed.

(** X23 ([applyUpdate]). The client applies a remote scene only if its
    version is above the last one seen: [lastSceneVersion] becomes the
    larger of the two and so never goes down, a scene of an equal or lower
    version changes nothing at all, the emission bookkeeping is never
    touched, and the same scene arriving again is ignored (also when its
    first application broke off). *)
Theorem applyUpdate_version_gate elements appState files (c : Refs) :
  let x := applyUpdate elements appState files c in
  let v := getSceneVersion (default [] elements) in
  lastSceneVersion x.1.1 = Z.max v (lastSceneVersion c) ∧
  lastEmittedVersion x.1.1 = lastEmittedVersion c ∧
  (v ≤ lastSceneVersion c → x = (c, [], Returned tt)) ∧
  applyUpdate elements appState files x.1.1 = (x.1.1, [], Returned tt).
Proof.
  cbv zeta. unfold Client.applyUpdate.
  set (v := getSceneVersion (default [] elements)).
  destruct (v <=? lastSceneVersion c) eqn:E.
  - apply Z.leb_le in E. cbn [fst snd]. rewrite (proj2 (Z.leb_le _ _) E).
    repeat split; lia.
  - apply Z.leb_gt in E.
    destruct (safeZoom _) as [z|e]; cbn [fst snd lastSceneVersion lastEmittedVersion];
      rewrite Z.leb_refl; repeat split; try lia.
Qed.

(** X24 ([applyUpdate]). Whatever view state arrives, the scene handed
    to the canvas holds the received elements (none, if there were none),
    the received view state, and for the zoom a [{value}] wrapper of a
    number that is neither NaN nor at or below zero. *)
Theorem applyUpdate_renders_safe_zoom elements appState files (c : Refs) els st :
  UpdateScene els st ∈ (applyUpdate elements appState files c).1.2 →
  els = default [] elements ∧
  (∃ z, st !! "zoom" = Some (VObj {["value" := z]}) ∧ isNaN z || le0 z = false) ∧
  (∀ k, k ≠ "zoom" → st !! k = default ∅ appState !! k).
Proof.
  unfold Client.applyUpdate.
  destruct (_ <=? _); cbn [fst snd]; [intros Hin; by apply elem_of_nil in Hin |].
  destruct (safeZoom _) as [z|e] eqn:Ez; cbn [fst snd];
    [| intros Hin; by apply elem_of_nil in Hin].
  intros Hin. apply elem_of_cons in Hin as [[= -> ->] | Hin].
  - split; [done |]. split.
    + exists z. split; [apply lookup_insert_eq | by eapply safeZoom_safe].
    + intros k Hk. by rewrite lookup_insert_ne.
  - destruct files; [apply list_elem_of_singleton in Hin | apply elem_of_nil in Hin]; done.
Qed.

Lemma emitted_appState_clean (a : obj) z :
  isNaN z || le0 z = false → clean_appState (emitted_appState a z).
Proof.
  intros Hz. unfold emitted_appState. split; [| split].
  - exists z. split; [| done]. by rewrite !lookup_insert_ne, lookup_singleton_eq.
  - rewrite get_insert_ne, get_insert_eq by done.
    destruct (isNaN (get a "scrollX")) eqn:E; [apply isNaN_num | done].
  - rewrite !get_insert_ne, get_insert_eq by done.
    destruct (isNaN (get a "scrollY")) eqn:E; [apply isNaN_num | done].
Qed.

(** X25 ([handleChange] and its timer). When the timer of a change
    fires, no change is left waiting (an earlier change that was waiting has
    been replaced and is never sent), [lastEmittedVersion] is the larger of
    its old value and the version of the change, and the change is sent
    only if its version is above the last one emitted: then
    [lastSceneVersion] is set to that version as well, and the one message
    sent carries the elements, the four-field view state with a safe zoom,
    and the files (or an empty object). Reporting the same scene again
    afterwards sends nothing. *)
Theorem debounced_emission els (a : obj) f (c : Refs) :
  let v := getSceneVersion els in
  let x := fire (handleChange true (Some els) a f c) in
  updateTimeout x.1.1 = None ∧
  lastEmittedVersion x.1.1 = Z.max v (lastEmittedVersion c) ∧
  (v ≤ lastEmittedVersion c → x.1.2 = [] ∧ lastSceneVersion x.1.1 = lastSceneVersion c) ∧
  (lastEmittedVersion c < v →
     lastSceneVersion x.1.1 = v ∧
     match x.2 with
     | Returned _ =>
         ∃ z, isNaN z || le0 z = false ∧
              x.1.2 = [EmitSceneUpdate
                         (mkScene els (Some (emitted_appState a z)) (Some (default ∅ f)))]
     | Thrown _ => x.1.2 = []
     end) ∧
  (fire (handleChange true (Some els) a f x.1.1)).1.2 = [].
Proof.
  cbv zeta. unfold fire, Client.handleChange, emit_pending.
  cbn [lastSceneVersion lastEmittedVersion isInitialized updateTimeout p_version
       p_elements p_appState p_files].
  set (v := getSceneVersion els).
  destruct (v <=? lastEmittedVersion c) eqn:E.
  - apply Z.leb_le in E.
    cbn [fst snd lastSceneVersion lastEmittedVersion isInitialized updateTimeout].
    rewrite (proj2 (Z.leb_le _ _) E). repeat split; try done; lia.
  - apply Z.leb_gt in E.
    destruct (safeZoom (get a "zoom")) as [z|e] eqn:Ez;
      cbn [fst snd lastSceneVersion lastEmittedVersion isInitialized updateTimeout];
      rewrite Z.leb_refl; (split; [done |]); (split; [lia |]); (split; [lia |]);
      (split; [| done]); intros _; (split; [done |]).
    + exists z. split; [by eapply safeZoom_safe | done].
    + done.
Qed.

(** X26 (client [handleChange] against the server's [scene-update]
    clean-up). Every scene the debounced path emits is already clean: its
    elements are the reported ones, and the server's zoom and scroll
    clean-up returns its view state unchanged, so it cannot throw on it. *)
Theorem emitted_scene_is_clean els (a : obj) f (c : Refs) data :
  EmitSceneUpdate data ∈ (fire (handleChange true (Some els) a f c)).1.2 →
  sp_elements data = els ∧
  ∃ st, sp_appState data = Some st ∧ sanitizeAppState st = Returned st.
Proof.
  intros Hin.
  destruct (debounced_emission els a f c) as (_ & _ & Hskip & Hemit & _).
  destruct (Z.le_gt_cases (getSceneVersion els) (lastEmittedVersion c)) as [Hle | Hgt].
  - destruct (Hskip Hle) as [E _]. rewrite E in Hin. by apply elem_of_nil in Hin.
  - destruct (Hemit Hgt) as [_ Hx].
    destruct (fire _).2.
    + destruct Hx as (z & Hz & E). rewrite E in Hin.
      apply list_elem_of_singleton in Hin as [= ->]. split; [done |].
      eexists. split; [done |]. by apply sanitizeAppState_id, emitted_appState_clean.
    + rewrite Hx in Hin. by apply elem_of_nil in Hin.
Qed.

(** X27 ([scene-init] listener). The user list the client shows never
    contains its own connection. If the scene was applied (or ignored as
    stale) the component is marked initialised; if applying it broke off
    on the zoom, nothing is rendered, no user list is set and the component
    is not marked initialised, although the version of the scene has
    already been recorded. *)
Theorem scene_init_outcome self elements appState files users (c : Refs) :
  let x := on_scene_init self elements appState files users c in
  (∀ l, SetUsers l ∈ x.1.2 → ∀ name colour, (self, name, colour) ∉ l) ∧
  (returned x.2 = true → isInitialized x.1.1 = true) ∧
  (returned x.2 = false →
     x.1.2 = [] ∧ isInitialized x.1.1 = isInitialized c ∧
     lastSceneVersion x.1.1 = getSceneVersion (default [] elements)).
Proof.
  cbv zeta. unfold Client.on_scene_init, Client.applyUpdate.
  assert (∀ l, SetUsers l ∈ match users with
                               | Some us =>
                                   [SetUsers (List.filter
                                                (λ u, negb (String.eqb u.1.1 self)) us)]
                               | None => []
                               end → ∀ name colour, (self, name, colour) ∉ l) as Hf.
  { intros l Hin name colour Hl. destruct users as [us|];
      [| by apply elem_of_nil in Hin].
    apply list_elem_of_singleton in Hin as [= ->].
    apply list_elem_of_In, filter_In in Hl as [_ Hl]. cbn in Hl.
    by rewrite String.eqb_refl in Hl. }
  destruct (_ <=? _).
  - cbn [fst snd isInitialized app returned]. split; [by apply Hf |]. done.
  - destruct (safeZoom _) as [z|e];
      cbn [fst snd isInitialized lastSceneVersion app returned].
    + split; [| done]. intros l Hin.
      apply elem_of_cons in Hin as [Hin | Hin]; [done |].
      apply elem_of_app in Hin as [Hin | Hin]; [| by apply Hf].
      destruct files; [apply list_elem_of_singleton in Hin | apply elem_of_nil in Hin];
        done.
    + split; [intros l Hin; by apply elem_of_nil in Hin | done].
Qed.

End ClientSide.

(** ** The properties on the example data *)

Section MoreExamples.
#[local] Existing Instance Reference.platform.
Import Demo Scenarios.

Lemma well_keyed_idle_store : well_keyed idle_store.
Proof.
  split; intros k r; unfold idle_store; cbn [activeRooms db].
  - intros [<- <-]%lookup_singleton_Some. split; [reflexivity |].
    rewrite lookup_singleton_eq. by eexists.
  - intros [<- <-]%lookup_singleton_Some. reflexivity.
Qed.

Lemma getRoom_twice_witness :
  getRoom "demo" false demo_store
  = (idle_store, [], Returned (Some (fresh_room "demo"))) ∧
  getRoom "demo" true idle_store = (idle_store, [], Returned (Some (fresh_room "demo"))).
Proof.
  assert (getRoom "demo" false demo_store
          = (idle_store, [], Returned (Some (fresh_room "demo")))) as E by reflexivity.
  split; [exact E |]. exact (getRoom_twice "demo" false true demo_store _ _ _ E).
Defined.

Lemma createRoom_idempotent_witness :
  "demo" ≠ "" ∧
  createRoom (Some "demo") (mkService ∅ ∅ 0) = (idle_store, [], Returned (fresh_room "demo")) ∧
  db idle_store !! "demo" = Some (fresh_room "demo") ∧
  createRoom (Some "demo") idle_store = (idle_store, [], Returned (fresh_room "demo")).
Proof.
  assert ("demo" ≠ "") as Hne by discriminate.
  assert (createRoom (Some "demo") (mkService ∅ ∅ 0)
          = (idle_store, [], Returned (fresh_room "demo"))) as E by reflexivity.
  split; [exact Hne |]. split; [exact E |].
  exact (createRoom_idempotent "demo" _ _ _ _ Hne E).
Defined.

Lemma createRoom_keeps_rooms_witness :
  db demo_store !! "demo" = Some (fresh_room "demo") ∧
  db (createRoom None demo_store).1.1 !! "demo" = Some (fresh_room "demo") ∧
  activeRooms (createRoom None demo_store).1.1 !! "demo" = activeRooms demo_store !! "demo".
Proof.
  split; [reflexivity |].
  exact (createRoom_keeps_rooms None demo_store "demo" (fresh_room "demo") eq_refl).
Defined.

Lemma updateUserPointer_unknown_witness :
  (∀ r, lookup_room "demo" idle_store = Some r ∨ db idle_store !! "demo" = Some r →
        presence_count "s9" (activeUsers r) = 0%nat) ∧
  updateUserPointer "demo" "s9" pointer idle_store = (idle_store, [], Returned (Some true)).
Proof.
  assert (∀ r, lookup_room "demo" idle_store = Some r ∨ db idle_store !! "demo" = Some r →
               presence_count "s9" (activeUsers r) = 0%nat) as Hno.
  { intros r [E | E]; vm_compute in E; injection E as <-; reflexivity. }
  split; [exact Hno |]. exact (updateUserPointer_unknown "demo" "s9" pointer idle_store Hno).
Defined.


(** A pointer whose [x] is the string ["abc"]: the soft validator warns and
    forwards it, the store cannot cast it, logs and writes nothing, and the
    room is sent the pointer all the same. A pointer with a [tool] field is
    stored as its [x] and [y] only. *)
Example malformed_pointer_logged :
  handle "s1" (PointerUpdate bad_pointer) joined_handler
  = (joined_handler,
     [ConsoleWarn "Validation warning (soft):" "x and y must be numbers";
      ConsoleError "Error updating user pointer:" "Cast to Number failed";
      ToRoom "demo" "s1" (PointerUpdateMsg "s1" bad_pointer)],
     Returned tt) ∧
  (map RoomDoc.pointer <$>
     (activeUsers <$>
        db (roomService (handle "s1" (PointerUpdate tool_pointer) joined_handler).1.1)
        !! "demo"))
  = Some [pointer].
Proof. split; vm_compute; reflexivity. Qed.

Lemma cleanupEmptyRoom_evicts_witness :
  lookup_room "demo" idle_store = Some (fresh_room "demo") ∧
  (cleanupEmptyRoom "demo" idle_store).2 = Returned tt ∧
  db (cleanupEmptyRoom "demo" idle_store).1.1 = db idle_store.
Proof.
  split; [reflexivity |].
  pose proof (cleanupEmptyRoom_evicts "demo" idle_store (fresh_room "demo") eq_refl) as P.
  cbv zeta in P. split; [exact (proj1 P) | exact (proj1 (proj2 P))].
Defined.

Lemma invalid_entry_blocks_writes_witness :
  "demo" ≠ "" ∧
  (∃ r, lookup_room "demo" (roomService rejected_join) = Some r ∧
        roomSchema_valid r = false) ∧
  returned (updateRoomElements "demo" [rectangle "e1"] None None
              (roomService rejected_join)).2 = false ∧
  db (updateRoomElements "demo" [rectangle "e1"] None None (roomService rejected_join)).1.1
  = db (roomService rejected_join).
Proof.
  assert ("demo" ≠ "") as Hne by discriminate.
  set (r := default (fresh_room "demo") (lookup_room "demo" (roomService rejected_join))).
  assert (lookup_room "demo" (roomService rejected_join) = Some r) as E
    by (vm_compute; reflexivity).
  assert (roomSchema_valid r = false) as Hbad by (vm_compute; reflexivity).
  split; [exact Hne |]. split; [by exists r |].
  pose proof (invalid_entry_blocks_writes "demo" (roomService rejected_join) r
                [rectangle "e1"] None None demo_updates Hne E Hbad) as P.
  cbv zeta in P. split; [exact (proj1 P) | exact (proj1 (proj2 P))].
Defined.

Lemma leave_undoes_join_witness :
  presence_count "s1" (activeUsers (this demo_doc)) = 0%nat ∧
  activeUsers (this (RoomDoc.removeUser "s1"
                       (RoomDoc.addUser "s1" (VStr "ann") VUndefined demo_doc).1.1).1.1)
  = activeUsers (this demo_doc).
Proof.
  split; [reflexivity |].
  exact (proj1 (leave_undoes_join "s1" (VStr "ann") VUndefined demo_doc eq_refl)).
Defined.

Lemma incremental_update_relayed_iff_stored_witness :
  current_room "s1" joined_handler = Some "demo" ∧
  (on_incremental_update "s1" demo_updates joined_handler).1.2
  = [ToRoom "demo" "s1" (IncrementalUpdateMsg demo_updates)].
Proof.
  assert (current_room "s1" joined_handler = Some "demo") as E by (vm_compute; reflexivity).
  split; [exact E |].
  pose proof (incremental_update_relayed_iff_stored "s1" "demo" demo_updates
                joined_handler E) as P.
  cbv zeta in P.
  assert (returned (RoomService.incrementalUpdate "demo"
                      (validated incrementalUpdateSchema demo_updates)
                      (roomService joined_handler)).2 = true) as Hr
    by (vm_compute; reflexivity).
  destruct (RoomService.incrementalUpdate "demo" _ (roomService joined_handler)).2;
    [exact (proj1 P) | discriminate Hr].
Defined.

Lemma scene_update_relayed_before_stored_witness :
  current_room "s1" rejected_join = Some "demo" ∧
  (on_scene_update "s1" (mkScene [rectangle "e1"] (Some nan_zoom) None)
     rejected_join).1.2
  = [ToRoom "demo" "s1"
       (SceneUpdateMsg [rectangle "e1"] (Some nan_zoom_sanitized) None);
     ConsoleError "Error updating room elements:" "Room validation failed";
     ConsoleError "db save error:" "Room validation failed"].
Proof.
  assert (current_room "s1" rejected_join = Some "demo") as E by (vm_compute; reflexivity).
  split; [exact E |].
  pose proof (scene_update_relayed_before_stored "s1" "demo"
                (mkScene [rectangle "e1"] (Some nan_zoom) None) rejected_join
                (Some nan_zoom_sanitized) E eq_refl) as P.
  cbv zeta in P. etransitivity; [exact P | vm_compute; reflexivity].
Defined.

Lemma leave_room_outcome_witness :
  current_room "s1" joined_handler = Some "demo" ∧
  current_room "s1" (handleLeaveRoom "s1" joined_handler).1.1 = None ∧
  ∀ r, activeRooms (roomService (handleLeaveRoom "s1" joined_handler).1.1) !! "demo"
       = Some r → presence_count "s1" (activeUsers r) = 0%nat.
Proof.
  assert (current_room "s1" joined_handler = Some "demo") as E by (vm_compute; reflexivity).
  split; [exact E |]. split; [vm_compute; reflexivity |].
  pose proof (leave_room_outcome "s1" "demo" joined_handler E) as P.
  cbv zeta in P. destruct P as [P _]. exact P.
Defined.

Lemma join_switches_room_witness :
  current_room "s1" joined_handler = Some "demo" ∧
  joined_id join_other ≠ "" ∧ "demo" ≠ joined_id join_other ∧
  current_room "s1" (on_join_room "s1" join_other joined_handler).1.1
  = Some (joined_id join_other) ∧
  ∃ ra', activeRooms (roomService (on_join_room "s1" join_other joined_handler).1.1)
         !! "demo" = Some ra' ∧
         presence_count "s1" (activeUsers ra') = 0%nat.
Proof.
  assert (current_room "s1" joined_handler = Some "demo") as E by (vm_compute; reflexivity).
  assert (joined_id join_other ≠ "") as Hne by (vm_compute; discriminate).
  assert ("demo" ≠ joined_id join_other) as Hab by (vm_compute; discriminate).
  set (ra := default (fresh_room "demo") (lookup_room "demo" (roomService joined_handler))).
  assert (lookup_room "demo" (roomService joined_handler) = Some ra) as Hra
    by (vm_compute; reflexivity).
  split; [exact E |]. split; [exact Hne |]. split; [exact Hab |].
  pose proof (join_switches_room "s1" join_other joined_handler "demo" ra E Hne Hab Hra)
    as P.
  cbv zeta in P. split; [exact (proj1 P) | exact (proj1 (proj2 P))].
Defined.

Lemma scene_init_lists_joiner_witness :
  joined_id join_demo ≠ "" ∧
  (on_join_room "s1" join_demo empty_handler).1.2
  = [SocketJoin "s1" "demo"] ++
    [Emit "s1" (SceneInit [] (Some initial_appState) ∅
                  [("s1", VStr "ann", VStr "#ff0000")]);
     ToRoom "demo" "s1" (UserJoined "s1" (VStr "ann") (VStr "#ff0000"))] ∧
  ∃ name colour, ("s1", name, colour) ∈ [("s1", VStr "ann", VStr "#ff0000")].
Proof.
  assert (joined_id join_demo ≠ "") as Hne by (vm_compute; discriminate).
  assert ((on_join_room "s1" join_demo empty_handler).1.2
          = [SocketJoin "s1" "demo"] ++
            [Emit "s1" (SceneInit [] (Some initial_appState) ∅
                          [("s1", VStr "ann", VStr "#ff0000")]);
             ToRoom "demo" "s1" (UserJoined "s1" (VStr "ann") (VStr "#ff0000"))]) as E
    by (vm_compute; reflexivity).
  split; [exact Hne |]. split; [exact E |].
  exact (scene_init_lists_joiner "s1" join_demo empty_handler _ _ _ _ _ _ Hne E).
Defined.

Lemma rejected_join_stays_registered_witness :
  joined_id join_anonymous ≠ "" ∧
  current_room "s1" empty_handler = None ∧
  current_room "s1" (on_join_room "s1" join_anonymous empty_handler).1.1 = Some "demo" ∧
  (on_join_room "s1" join_anonymous empty_handler).1.2
  = [SocketJoin "s1" "demo";
     ConsoleError "Error adding user:" "Room validation failed";
     ConsoleError "Error joining room:" "Room validation failed";
     Emit "s1" (ErrorMsg "Room validation failed")].
Proof.
  assert (joined_id join_anonymous ≠ "") as Hne by (vm_compute; discriminate).
  split; [exact Hne |]. split; [reflexivity |].
  pose proof (rejected_join_stays_registered "s1" join_anonymous empty_handler Hne
                eq_refl eq_refl eq_refl) as P.
  cbv zeta in P. split; [exact (proj1 P) | exact (proj2 (proj2 (proj2 P)))].
Defined.

Lemma delete_room_outcome_witness :
  well_keyed idle_store ∧
  (Api.delete_room "demo" idle_store).2
  = Returned (Api.mkResponse 200 (Api.Message "Room deleted successfully")) ∧
  db (Api.delete_room "demo" idle_store).1.1 !! "demo" = None ∧
  (Api.get_room "demo" (Api.delete_room "demo" idle_store).1.1).2
  = Returned (Api.mkResponse 200
                (Api.RoomData "demo" [] (Some initial_appState) ∅ 0 1)).
Proof.
  split; [exact well_keyed_idle_store |].
  pose proof (delete_room_outcome "demo" idle_store well_keyed_idle_store) as P.
  cbv zeta in P.
  change (lookup_room (validated roomIdSchema "demo") idle_store)
    with (Some (fresh_room "demo")) in P.
  change (0 <? length (activeUsers (fresh_room "demo")))%nat with false in P.
  destruct P as (P1 & P2 & _ & P4).
  split; [exact P1 |]. split; [rewrite P2; reflexivity | exact P4].
Defined.

Lemma post_rooms_idempotent_witness :
  "demo" ≠ "" ∧ validated roomIdSchema "demo" ≠ "" ∧
  (Api.post_rooms (Some "demo") (mkService ∅ ∅ 0)).2
  = Returned (Api.mkResponse 201 (Api.Created "demo")) ∧
  Api.post_rooms (Some "demo") idle_store
  = (idle_store, [], Returned (Api.mkResponse 201 (Api.Created "demo"))).
Proof.
  assert ("demo" ≠ "") as Hne by discriminate.
  assert (validated roomIdSchema "demo" ≠ "") as Hv by (vm_compute; discriminate).
  assert ((Api.post_rooms (Some "demo") (mkService ∅ ∅ 0)).2
          = Returned (Api.mkResponse 201 (Api.Created "demo"))) as E by reflexivity.
  split; [exact Hne |]. split; [exact Hv |]. split; [exact E |].
  exact (post_rooms_idempotent "demo" (mkService ∅ ∅ 0) "demo" Hne Hv E).
Defined.

Lemma reconnectStrategy_bounds_witness :
  0 ≤ 3 ∧ Cache.reconnectStrategy 3 = ([], Cache.RetryAfter 300).
Proof.
  assert (0 ≤ 3) as H0 by lia.
  split; [exact H0 |].
  exact (proj1 (proj2 (reconnectStrategy_bounds 3 H0) ltac:(lia))).
Defined.

Lemma applyUpdate_renders_safe_zoom_witness :
  Client.UpdateScene [rectangle "e1"] (<["zoom" := VObj {["value" := num 1]}]> raw_view)
  ∈ (Client.applyUpdate version_sum (Some [rectangle "e1"]) (Some raw_view) None
       Client.mounted).1.2 ∧
  ∃ z, (<["zoom" := VObj {["value" := num 1]}]> raw_view) !! "zoom"
       = Some (VObj {["value" := z]}) ∧
       isNaN z || le0 z = false.
Proof.
  assert (Client.UpdateScene [rectangle "e1"] (<["zoom" := VObj {["value" := num 1]}]> raw_view)
          ∈ (Client.applyUpdate version_sum (Some [rectangle "e1"]) (Some raw_view) None
               Client.mounted).1.2) as Hin.
  { assert ((Client.applyUpdate version_sum (Some [rectangle "e1"]) (Some raw_view) None
               Client.mounted).1.2
            = [Client.UpdateScene [rectangle "e1"]
                 (<["zoom" := VObj {["value" := num 1]}]> raw_view)]) as ->
      by (vm_compute; reflexivity).
    apply list_elem_of_here. }
  split; [exact Hin |].
  exact (proj1 (proj2 (applyUpdate_renders_safe_zoom version_sum _ _ _ _ _ _ Hin))).
Defined.

Lemma emitted_scene_is_clean_witness :
  Client.EmitSceneUpdate
    (mkScene [rectangle "e1"] (Some (Client.emitted_appState raw_view (num 1))) (Some ∅))
  ∈ (Client.fire (Client.handleChange version_sum true (Some [rectangle "e1"]) raw_view
                    None Client.mounted)).1.2 ∧
  sanitizeAppState (Client.emitted_appState raw_view (num 1))
  = Returned (Client.emitted_appState raw_view (num 1)).
Proof.
  assert (Client.EmitSceneUpdate
            (mkScene [rectangle "e1"] (Some (Client.emitted_appState raw_view (num 1)))
                     (Some ∅))
          ∈ (Client.fire (Client.handleChange version_sum true (Some [rectangle "e1"])
                            raw_view None Client.mounted)).1.2) as Hin.
  { assert ((Client.fire (Client.handleChange version_sum true (Some [rectangle "e1"])
                            raw_view None Client.mounted)).1.2
            = [Client.EmitSceneUpdate
                 (mkScene [rectangle "e1"]
                          (Some (Client.emitted_appState raw_view (num 1))) (Some ∅))]) as ->
      by (vm_compute; reflexivity).
    apply list_elem_of_here. }
  split; [exact Hin |].
  destruct (emitted_scene_is_clean version_sum _ _ _ _ _ Hin) as (_ & st & [= <-] & E).
  exact E.
Defined.

End MoreExamples.
